(** * Cerdo: the Playwright acquisition server (src/playwright/index.ts)

    A shallow embedding of [handleToolCall], of the artifact store
    ([screenshots], [fileTypeMappings]) and of the resource reader of
    src/playwright/index.ts, with the properties of the acquisition engine
    proved over it.

    Conventions of the embedding.
    - JavaScript strings are Rocq strings (8-bit characters); [toLowerCase]
      lowers the letters A-Z.
    - The browser, the network, the file system and the clock are outside
      the program: every awaited call into them takes its outcome from a
      [World] record, so a theorem quantified over the world holds for every
      behaviour of the browser.
    - A thrown JavaScript error is the [Throw] outcome carrying the error's
      message; [try_catch] is the try/catch block.
    - The host's console lines that report a failure or an attempt are kept
      in [hostLog]; purely informational trace lines are left out. *)

From Stdlib Require Import Ascii Bool Arith Lia DecimalString.
From Stdlib Require String.
From stdpp Require Import base option list gmap strings.

Local Open Scope list_scope.

(** ** JavaScript string primitives *)

Module JS.

Definition lower_ascii (c : ascii) : ascii :=
  let n := nat_of_ascii c in
  if (65 <=? n) && (n <=? 90) then ascii_of_nat (n + 32) else c.

(** [s.toLowerCase()] *)
Fixpoint toLowerCase (s : string) : string :=
  match s with
  | EmptyString => EmptyString
  | String c s' => String (lower_ascii c) (toLowerCase s')
  end.

(** [s.startsWith(p)] *)
Fixpoint startsWith (s p : string) {struct p} : bool :=
  match p with
  | EmptyString => true
  | String a p' =>
      match s with
      | EmptyString => false
      | String b s' => Ascii.eqb a b && startsWith s' p'
      end
  end.

(** [s.includes(needle)] *)
Fixpoint includes (s needle : string) : bool :=
  startsWith s needle ||
  match s with
  | EmptyString => false
  | String _ s' => includes s' needle
  end.

(** [s.endsWith(suf)]: some tail of [s] is [suf]. *)
Fixpoint endsWith (s suf : string) : bool :=
  String.eqb s suf ||
  match s with
  | EmptyString => false
  | String _ s' => endsWith s' suf
  end.

(** [s.split(sep)] for a non-empty separator: [skip] counts the characters
    of a separator still to be passed over, [cur] is the piece being read. *)
Fixpoint split_go (sep : string) (skip : nat) (cur s : string) : list string :=
  match s with
  | EmptyString => [cur]
  | String c s' =>
      match skip with
      | S k => split_go sep k cur s'
      | O =>
          if startsWith s sep
          then cur :: split_go sep (String.length sep - 1) EmptyString s'
          else split_go sep 0 (cur +:+ String c EmptyString) s'
      end
  end.

Definition split (s sep : string) : list string := split_go sep 0 EmptyString s.

(** Truthiness of a string: only the empty string is falsy. *)
Definition truthy (s : string) : bool :=
  match s with EmptyString => false | _ => true end.

(** [a || b] on strings. *)
Definition or_else (a b : string) : string := if truthy a then a else b.

(** A template hole [${x}] for a possibly missing property. *)
Definition show (x : option string) : string := default "undefined" x.

(** [`${n}`] for a non-negative integer. *)
Definition show_nat (n : nat) : string := NilZero.string_of_uint (Nat.to_uint n).
Definition show_N (n : N) : string := NilZero.string_of_uint (N.to_uint n).

(** [s.trim()] *)
Fixpoint trimStart (s : string) : string :=
  match s with
  | EmptyString => EmptyString
  | String c s' => if Ascii.is_space c then trimStart s' else s
  end.

Fixpoint trimEnd (s : string) : string :=
  match s with
  | EmptyString => EmptyString
  | String c s' =>
      match trimEnd s' with
      | EmptyString => if Ascii.is_space c then EmptyString else String c EmptyString
      | t => String c t
      end
  end.

Definition trim (s : string) : string := trimEnd (trimStart s).

(** [xs.join(sep)] *)
Fixpoint join (sep : string) (xs : list string) : string :=
  match xs with
  | [] => EmptyString
  | [x] => x
  | x :: rest => x +:+ sep +:+ join sep rest
  end.

End JS.

(** ** Outcomes of awaited calls, and the state of the server process *)

Inductive Outcome (A : Type) : Type :=
  | Ok (a : A)
  | Throw (message : string).
Arguments Ok {A} a.
Arguments Throw {A} message.

(** What a call did to the browser, in program order. *)
Inductive PageRef := MainPage | AuxPage | NewTab.

Inductive Locator :=
  | Css (selector : string)      (* page.locator(selector) *)
  | ByText (text : string).      (* page.getByText(text) *)

Inductive Action :=
  | DoClick
  | DoFill (value : string)      (* pressSequentially(value, { delay: 100 }) *)
  | DoSelect (value : string)    (* selectOption(value) *)
  | DoHover.

Inductive Signal :=
  | DownloadEvent      (* page.waitForEvent('download') *)
  | NewPageListener    (* context.once('page', ...) *)
  | RequestListener    (* page.on('request', ...) *)
  | ResponseListener   (* page.on('response', ...) *)
  | NavigationHook     (* injected window.open / location / form / iframe hooks *)
  | HookCallback.      (* page.exposeFunction('__reportUrlFound__', ...) *)

Inductive Event :=
  | EvArm (p : PageRef) (s : Signal)
  | EvAttempt (p : PageRef) (a : Action) (l : Locator) (first : bool)
  | EvPerform (p : PageRef) (a : Action) (l : Locator) (element : nat)
  | EvOpenContext (id : nat)
  | EvCloseContext (id : nat)
  | EvWait (ms : N).

Record State := mkState {
  screenshots : gmap string string;       (* const screenshots = new Map<string, string>() *)
  fileTypeMappings : gmap string string;  (* const fileTypeMappings = new Map<string, string>() *)
  consoleLogs : list string;              (* const consoleLogs: string[] *)
  hostLog : list string;                  (* console.log / console.error of the host *)
  notifications : nat;                    (* resources/list_changed notifications sent *)
  openContexts : list nat;                (* auxiliary browsing contexts not yet closed *)
  nextContext : nat;
  files : gmap string string;             (* host file system: path to content *)
  dirs : gset string;                     (* host file system: directories *)
  trace : list Event
}.

Definition initial : State :=
  mkState ∅ ∅ [] [] 0 [] 0 ∅ ∅ [].

(** ** The monad of the handlers: state passing with exceptions *)

Definition M (A : Type) : Type := State -> Outcome A * State.

Definition ret {A} (a : A) : M A := fun st => (Ok a, st).

Definition bind {A B} (m : M A) (k : A -> M B) : M B :=
  fun st =>
    match m st with
    | (Ok a, st') => k a st'
    | (Throw e, st') => (Throw e, st')
    end.

Definition throw {A} (message : string) : M A := fun st => (Throw message, st).

(** [try { m } catch (error) { h error.message }] *)
Definition try_catch {A} (m : M A) (h : string -> M A) : M A :=
  fun st =>
    match m st with
    | (Ok a, st') => (Ok a, st')
    | (Throw e, st') => h e st'
    end.

(** An awaited call into the world. *)
Definition await {A} (o : Outcome A) : M A := fun st => (o, st).

Notation "x <- m ;; k" := (bind m (fun x => k))
  (at level 100, m at next level, right associativity).
Notation "m ;; k" := (bind m (fun _ => k))
  (at level 100, right associativity).

Definition modify (f : State -> State) : M unit := fun st => (Ok tt, f st).

Definition gets {A} (f : State -> A) : M A := fun st => (Ok (f st), st).

Definition log (line : string) : M unit :=
  modify (fun st => mkState (screenshots st) (fileTypeMappings st) (consoleLogs st)
                      (hostLog st ++ [line]) (notifications st) (openContexts st)
                      (nextContext st) (files st) (dirs st) (trace st)).

Definition emit (e : Event) : M unit :=
  modify (fun st => mkState (screenshots st) (fileTypeMappings st) (consoleLogs st)
                      (hostLog st) (notifications st) (openContexts st)
                      (nextContext st) (files st) (dirs st) (trace st ++ [e])).

(** [screenshots.set(name, bytes)] *)
Definition screenshots_set (name bytes : string) : M unit :=
  modify (fun st => mkState (<[name := bytes]> (screenshots st)) (fileTypeMappings st)
                      (consoleLogs st) (hostLog st) (notifications st) (openContexts st)
                      (nextContext st) (files st) (dirs st) (trace st)).

(** [fileTypeMappings.set(name, mimeType)] *)
Definition fileTypeMappings_set (name mimeType : string) : M unit :=
  modify (fun st => mkState (screenshots st) (<[name := mimeType]> (fileTypeMappings st))
                      (consoleLogs st) (hostLog st) (notifications st) (openContexts st)
                      (nextContext st) (files st) (dirs st) (trace st)).

(** [server.notification({ method: "notifications/resources/list_changed" })] *)
Definition notify_list_changed : M unit :=
  modify (fun st => mkState (screenshots st) (fileTypeMappings st) (consoleLogs st)
                      (hostLog st) (S (notifications st)) (openContexts st)
                      (nextContext st) (files st) (dirs st) (trace st)).

(** ** The tool results *)

Inductive Content :=
  | TextContent (text : string)
  | ImageContent (data mimeType : string).

Record CallToolResult := mkResult {
  content : list Content;
  isError : bool
}.

Definition success (text : string) : CallToolResult := mkResult [TextContent text] false.
Definition failure (text : string) : CallToolResult := mkResult [TextContent text] true.

(** The text of the first content item. *)
Definition result_text (r : CallToolResult) : string :=
  match content r with
  | TextContent t :: _ => t
  | _ => EmptyString
  end.

(** ** The resource handlers (ListResources, ReadResource) *)

Record ResourceEntry := mkEntry {
  entry_uri : string;
  entry_mimeType : string;
  entry_name : string
}.

Inductive ResourceContents :=
  | TextResource (uri mimeType text : string)
  | BlobResource (uri mimeType blob : string).

(** The keys of [screenshots]. *)
Definition screenshot_names (st : State) : list string :=
  (map_to_list (screenshots st)).*1.

Definition listResources (st : State) : list ResourceEntry :=
  mkEntry "console://logs" "text/plain" "Browser console logs" ::
  map (fun name => mkEntry ("screenshot://" +:+ name) "image/png" ("Screenshot: " +:+ name))
      (screenshot_names st).

(** The MIME type the reader reports for a stored name. *)
Definition resource_mimeType (st : State) (name : string) : string :=
  JS.or_else (default EmptyString (fileTypeMappings st !! name))
    (if JS.endsWith (JS.toLowerCase name) ".pdf" then "application/pdf" else "image/png").

Definition readResource (st : State) (uri : string) : Outcome (list ResourceContents) :=
  if String.eqb uri "console://logs" then
    Ok [TextResource uri "text/plain" (JS.join (String "010"%char EmptyString) (consoleLogs st))]
  else
    let not_found := Throw ("Resource not found: " +:+ uri) in
    if JS.startsWith uri "screenshot://" then
      match JS.split uri "://" !! 1 with
      | Some name =>
          match screenshots st !! name with
          | Some screenshot =>
              if JS.truthy screenshot
              then Ok [BlobResource uri (resource_mimeType st name) screenshot]
              else not_found
          | None => not_found
          end
      | None => not_found
      end
    else not_found.

(** ** MIME type of a downloaded file (BrowserForceDownload) *)

(** [name.split('.').pop()?.toLowerCase() || ''] *)
Definition extensionOf (name : string) : string :=
  JS.toLowerCase (default EmptyString (last (JS.split name "."))).

Definition mimeTypeOf (extension : string) : string :=
  if String.eqb extension "pdf" then "application/pdf"
  else if bool_decide (extension ∈ ["doc"; "docx"]) then "application/msword"
  else if bool_decide (extension ∈ ["xls"; "xlsx"]) then "application/vnd.ms-excel"
  else if bool_decide (extension ∈ ["ppt"; "pptx"]) then "application/vnd.ms-powerpoint"
  else "application/octet-stream".

(** ** Tool arguments *)

(** The argument bag of a tool call.  Properties a tool's input schema
    requires are strings; optional ones may be missing. *)
Record Args := mkArgs {
  arg_url : string;
  arg_name : string;
  arg_selector : option string;
  arg_fullPage : option string;
  arg_text : string;
  arg_value : string;
  arg_script : string;
  arg_buttonText : string;
  arg_fileName : string;
  arg_waitTime : option N;                (* milliseconds *)
  arg_fileTypes : option string;
  arg_closeNewTabs : option bool;
  arg_blockWindowOpen : option bool
}.

(** [args.waitTime || dflt] *)
Definition waitTime_or (a : Args) (dflt : N) : N :=
  match arg_waitTime a with
  | Some (N.pos n) => N.pos n
  | _ => dflt
  end.

(** [args.selector || dflt] *)
Definition selector_or (a : Args) (dflt : string) : string :=
  JS.or_else (default EmptyString (arg_selector a)) dflt.

Definition dquote : string := String "034"%char EmptyString.

(** [`${selector}:has-text("${args.buttonText}")`] *)
Definition buttonSelector (selector : string) (a : Args) : string :=
  selector +:+ ":has-text(" +:+ dquote +:+ arg_buttonText a +:+ dquote +:+ ")".

(** ** The page as Playwright sees it *)

(** [matches l] is the number of elements the locator resolves to, [act a l]
    the outcome of the action once dispatched to the first of them in
    document order, [missing l] the message of the error raised when the
    locator resolves to nothing. *)
Record Dom := mkDom {
  matches : Locator -> nat;
  act : Action -> Locator -> Outcome unit;
  missing : Locator -> string
}.

(** The message of Playwright's strictness error. *)
Definition strict_mode_violation (n : nat) : string :=
  "strict mode violation: locator resolved to " +:+ JS.show_nat n +:+ " elements".

Definition dispatch (p : PageRef) (d : Dom) (a : Action) (l : Locator) : M unit :=
  emit (EvPerform p a l 0) ;; await (act d a l).

(** [locator.action()] when [first] is false, [locator.first().action()]
    otherwise: a strict locator refuses to act when it resolves to several
    elements. *)
Definition locator_act (p : PageRef) (d : Dom) (a : Action) (l : Locator) (first : bool)
  : M unit :=
  emit (EvAttempt p a l first) ;;
  match matches d l with
  | 0 => throw (missing d l)
  | 1 => dispatch p d a l
  | S (S n) => if first then dispatch p d a l else throw (strict_mode_violation (S (S n)))
  end.

(** [(error as Error).message.includes("strict mode violation")] *)
Definition is_strict_violation (message : string) : bool :=
  JS.includes message "strict mode violation".

(** ** The tools of [handleToolCall], one definition per [case] *)

(** The page a tool acts on: [page_at 0] is the document at the first
    attempt, [page_at 1] at the retry. *)
Definition Pages := nat -> Dom.

Record NavigateWorld := mkNavigateWorld {
  nav_goto : string -> Outcome unit           (* page.goto(url) *)
}.

Definition BrowserNavigate (w : NavigateWorld) (args : Args) : M CallToolResult :=
  await (nav_goto w (arg_url args)) ;;
  ret (success ("Navigated to " +:+ arg_url args)).

Record ScreenshotWorld := mkScreenshotWorld {
  shot_element : string -> Outcome string;    (* page.locator(selector).screenshot(), base64 *)
  shot_page : bool -> Outcome string          (* page.screenshot({ fullPage }), base64 *)
}.

Definition BrowserScreenshot (w : ScreenshotWorld) (args : Args) : M CallToolResult :=
  let fullPage := bool_decide (arg_fullPage args = Some "true") in
  let selected := JS.truthy (default EmptyString (arg_selector args)) in
  base64Screenshot <-
    await (if selected
           then shot_element w (default EmptyString (arg_selector args))
           else shot_page w fullPage) ;;
  if negb (JS.truthy base64Screenshot) then
    ret (failure (if selected
                  then "Element not found: " +:+ JS.show (arg_selector args)
                  else "Screenshot failed"))
  else
    screenshots_set (arg_name args) base64Screenshot ;;
    notify_list_changed ;;
    ret (mkResult [TextContent ("Screenshot '" +:+ arg_name args +:+ "' taken");
                   ImageContent base64Screenshot "image/png"] false).

Definition BrowserClick (page : Pages) (args : Args) : M CallToolResult :=
  let selector := JS.show (arg_selector args) in
  try_catch
    (locator_act MainPage (page 0) DoClick (Css selector) false ;;
     ret (success ("Clicked: " +:+ selector)))
    (fun error =>
       if is_strict_violation error then
         log "Strict mode violation, retrying on first element..." ;;
         try_catch
           (locator_act MainPage (page 1) DoClick (Css selector) true ;;
            ret (success ("Clicked: " +:+ selector)))
           (fun error =>
              ret (failure ("Failed (twice) to click " +:+ selector +:+ ": " +:+ error)))
       else
         ret (failure ("Failed to click " +:+ selector +:+ ": " +:+ error))).

Definition BrowserClickText (page : Pages) (args : Args) : M CallToolResult :=
  let text := arg_text args in
  try_catch
    (locator_act MainPage (page 0) DoClick (ByText text) false ;;
     ret (success ("Clicked element with text: " +:+ text)))
    (fun error =>
       if is_strict_violation error then
         log "Strict mode violation, retrying on first element..." ;;
         try_catch
           (locator_act MainPage (page 1) DoClick (ByText text) true ;;
            ret (success ("Clicked element with text: " +:+ text)))
           (fun error =>
              ret (failure ("Failed (twice) to click element with text " +:+ text
                            +:+ ": " +:+ error)))
       else
         ret (failure ("Failed to click element with text " +:+ text +:+ ": " +:+ error))).

Definition BrowserFill (page : Pages) (args : Args) : M CallToolResult :=
  let selector := JS.show (arg_selector args) in
  let value := arg_value args in
  try_catch
    (locator_act MainPage (page 0) (DoFill value) (Css selector) false ;;
     ret (success ("Filled " +:+ selector +:+ " with: " +:+ value)))
    (fun error =>
       if is_strict_violation error then
         log "Strict mode violation, retrying on first element..." ;;
         try_catch
           (locator_act MainPage (page 1) (DoFill value) (Css selector) true ;;
            ret (success ("Filled " +:+ selector +:+ " with: " +:+ value)))
           (fun error =>
              ret (failure ("Failed (twice) to fill " +:+ selector +:+ ": " +:+ error)))
       else
         ret (failure ("Failed to fill " +:+ selector +:+ ": " +:+ error))).

Definition BrowserSelect (page : Pages) (args : Args) : M CallToolResult :=
  let selector := JS.show (arg_selector args) in
  let value := arg_value args in
  try_catch
    (locator_act MainPage (page 0) (DoSelect value) (Css selector) false ;;
     ret (success ("Selected " +:+ selector +:+ " with: " +:+ value)))
    (fun error =>
       if is_strict_violation error then
         log "Strict mode violation, retrying on first element..." ;;
         try_catch
           (locator_act MainPage (page 1) (DoSelect value) (Css selector) true ;;
            ret (success ("Selected " +:+ selector +:+ " with: " +:+ value)))
           (fun error =>
              ret (failure ("Failed (twice) to select " +:+ selector +:+ ": " +:+ error)))
       else
         ret (failure ("Failed to select " +:+ selector +:+ ": " +:+ error))).

Definition BrowserSelectText (page : Pages) (args : Args) : M CallToolResult :=
  let text := arg_text args in
  let value := arg_value args in
  let done := "Selected element with text " +:+ text +:+ " with value: " +:+ value in
  try_catch
    (locator_act MainPage (page 0) (DoSelect value) (ByText text) false ;;
     ret (success done))
    (fun error =>
       if is_strict_violation error then
         log "Strict mode violation, retrying on first element..." ;;
         try_catch
           (locator_act MainPage (page 1) (DoSelect value) (ByText text) true ;;
            ret (success done))
           (fun error =>
              ret (failure ("Failed (twice) to select element with text " +:+ text
                            +:+ ": " +:+ error)))
       else
         ret (failure ("Failed to select element with text " +:+ text +:+ ": " +:+ error))).

Definition BrowserHover (page : Pages) (args : Args) : M CallToolResult :=
  let selector := JS.show (arg_selector args) in
  try_catch
    (locator_act MainPage (page 0) DoHover (Css selector) false ;;
     ret (success ("Hovered " +:+ selector)))
    (fun error =>
       if is_strict_violation error then
         log "Strict mode violation, retrying on first element..." ;;
         try_catch
           (locator_act MainPage (page 1) DoHover (Css selector) true ;;
            ret (success ("Hovered " +:+ selector)))
           (fun error =>
              ret (failure ("Failed to hover " +:+ selector +:+ ": " +:+ error)))
       else
         ret (failure ("Failed to hover " +:+ selector +:+ ": " +:+ error))).

Definition BrowserHoverText (page : Pages) (args : Args) : M CallToolResult :=
  let text := arg_text args in
  try_catch
    (locator_act MainPage (page 0) DoHover (ByText text) false ;;
     ret (success ("Hovered element with text: " +:+ text)))
    (fun error =>
       if is_strict_violation error then
         log "Strict mode violation, retrying on first element..." ;;
         try_catch
           (locator_act MainPage (page 1) DoHover (ByText text) true ;;
            ret (success ("Hovered element with text: " +:+ text)))
           (fun error =>
              ret (failure ("Failed (twice) to hover element with text " +:+ text
                            +:+ ": " +:+ error)))
       else
         ret (failure ("Failed to hover element with text " +:+ text +:+ ": " +:+ error))).

Record EvaluateWorld := mkEvaluateWorld {
  (* page.evaluate(script): the JSON text of the result and the console lines *)
  eval_script : string -> Outcome (string * list string)
}.

Definition newline : string := String "010"%char EmptyString.

Definition BrowserEvaluate (w : EvaluateWorld) (args : Args) : M CallToolResult :=
  try_catch
    (result <- await (eval_script w (arg_script args)) ;;
     ret (success ("Execution result:" +:+ newline +:+ result.1 +:+ newline +:+ newline
                   +:+ "Console output:" +:+ newline +:+ JS.join newline result.2)))
    (fun error => ret (failure ("Script execution failed: " +:+ error))).

(** *** Helpers shared by the acquisition tools *)

(** The click of the acquisition tools: a strictness error is answered by a
    click on the first match, whose failure is not caught here; any other
    error goes to [otherwise] (the [else] branch, which rethrows). *)
Definition click_or_first (p : PageRef) (page : Pages) (selector : string)
    (otherwise : string -> M unit) : M unit :=
  try_catch
    (locator_act p (page 0) DoClick (Css selector) false)
    (fun error =>
       if is_strict_violation error then
         log "Strict mode violation, retrying on first element..." ;;
         locator_act p (page 1) DoClick (Css selector) true
       else otherwise error).

(** [await browser.newContext({ acceptDownloads: true })] *)
Definition newContext (o : Outcome unit) : M nat :=
  await o ;;
  id <- gets nextContext ;;
  modify (fun st => mkState (screenshots st) (fileTypeMappings st) (consoleLogs st)
                      (hostLog st) (notifications st) (id :: openContexts st) (S id)
                      (files st) (dirs st) (trace st ++ [EvOpenContext id])) ;;
  ret id.

(** [await context.close()] *)
Definition context_close (id : nat) : M unit :=
  modify (fun st => mkState (screenshots st) (fileTypeMappings st) (consoleLogs st)
                      (hostLog st) (notifications st)
                      (filter (fun c => c ≠ id) (openContexts st)) (nextContext st)
                      (files st) (dirs st) (trace st ++ [EvCloseContext id])).

(** [if (!path) throw new Error("Download path is null")] *)
Definition require_path (path : option string) : M string :=
  match path with
  | Some p => if JS.truthy p then ret p else throw "Download path is null"
  | None => throw "Download path is null"
  end.

(** Truthiness of [string | null]. *)
Definition truthy_opt (x : option string) : bool :=
  match x with Some s => JS.truthy s | None => false end.

(** *** BrowserClickAndCapture *)

Record ClickAndCaptureWorld := mkClickAndCaptureWorld {
  cc_startUrl : string;           (* page.url() before the click *)
  cc_initialPages : nat;          (* pages().length before the click *)
  cc_newPage : option string;     (* the page event within waitTime: the new page's URL *)
  cc_loadState : Outcome unit;    (* newPage.waitForLoadState('networkidle') *)
  cc_settle : Outcome unit;       (* page.waitForTimeout(waitTime / 2) *)
  cc_currentUrl : string;         (* page.url() after the wait *)
  cc_finalPages : nat;            (* pages().length after the wait *)
  cc_lastLoadState : Outcome unit;
  cc_lastUrl : string
}.

(** What follows the click: the new tab, the redirect, or neither. *)
Definition clickAndCapture_observe (w : ClickAndCaptureWorld) : M CallToolResult :=
  match cc_newPage w with
  | Some newUrl =>
      await (cc_loadState w) ;;
      ret (success ("Button clicked successfully. Redirected to new tab with URL: "
                    +:+ newUrl))
  | None =>
      await (cc_settle w) ;;
      if negb (String.eqb (cc_currentUrl w) (cc_startUrl w)) then
        ret (success ("Button clicked successfully. Page redirected to: "
                      +:+ cc_currentUrl w))
      else if cc_initialPages w <? cc_finalPages w then
        await (cc_lastLoadState w) ;;
        ret (success ("Button clicked successfully. New tab detected with URL: "
                      +:+ cc_lastUrl w))
      else
        ret (success ("Button clicked successfully, but no redirection was detected. "
                      +:+ "Current URL: " +:+ cc_currentUrl w))
  end.

Definition BrowserClickAndCapture (w : ClickAndCaptureWorld) (page : Pages) (args : Args)
  : M CallToolResult :=
  try_catch
    (let selector := selector_or args "button" in
     emit (EvArm MainPage NewPageListener) ;;
     click_or_first MainPage page (buttonSelector selector args) throw ;;
     clickAndCapture_observe w)
    (fun error => ret (failure ("Failed to click button or capture redirect: " +:+ error))).

(** *** BrowserDownloadPDF *)

Record DownloadPDFWorld := mkDownloadPDFWorld {
  pdf_newPage : option string;          (* the page event before the timer: newPage.url() *)
  pdf_domLoaded : Outcome unit;         (* waitForLoadState('domcontentloaded') in the handler *)
  pdf_networkIdle : Outcome unit;       (* waitForLoadState('networkidle') *)
  pdf_isClosed : nat -> bool;           (* newPage.isClosed() at its n-th use *)
  pdf_isPDF : Outcome bool;             (* evaluate: contentType or embed/object is PDF *)
  pdf_contentType : Outcome string;     (* evaluate: document.contentType *)
  pdf_screenshot : Outcome string;      (* newPage.screenshot(), base64 *)
  pdf_fetch : Outcome string;           (* evaluate: fetch(location.href), base64 *)
  pdf_newContext : Outcome unit;        (* browser.newContext *)
  pdf_auxPage : Outcome unit;           (* context.newPage() *)
  pdf_goto : Outcome unit;              (* downloadPage.goto(url) *)
  pdf_emulateMedia : Outcome unit;
  pdf_download : Outcome unit;          (* the awaited download event *)
  pdf_path : Outcome (option string);   (* download.path() *)
  pdf_readFile : Outcome string;        (* fs.readFile(path), base64 *)
  pdf_closePage : Outcome unit          (* newPage.close() *)
}.

(** The direct-download fallback: its auxiliary context is closed on both
    branches. *)
Definition downloadPDF_direct (w : DownloadPDFWorld) : M string :=
  context <- newContext (pdf_newContext w) ;;
  try_catch
    (await (pdf_auxPage w) ;;
     await (pdf_goto w) ;;
     emit (EvArm AuxPage DownloadEvent) ;;
     await (pdf_emulateMedia w) ;;
     await (pdf_download w) ;;
     path <- await (pdf_path w) ;;
     require_path path ;;
     pdfBytes <- await (pdf_readFile w) ;;
     context_close context ;;
     ret pdfBytes)
    (fun downloadErr =>
       context_close context ;;
       throw ("Direct download failed: " +:+ downloadErr)).

(** The [try] block that inspects the new tab: [inl] is a result returned
    from inside the block, [inr] the captured bytes. *)
Definition downloadPDF_process (w : DownloadPDFWorld) (args : Args) (url : string)
  : M (CallToolResult + string) :=
  try_catch (await (pdf_networkIdle w)) (fun err => log ("Warning: " +:+ err)) ;;
  let byUrl := JS.endsWith (JS.toLowerCase url) ".pdf" in
  isPDF <-
    (if negb byUrl && negb (pdf_isClosed w 0) then
       try_catch (await (pdf_isPDF w))
         (fun err => log ("Error checking PDF content type: " +:+ err) ;; ret byUrl)
     else ret byUrl) ;;
  if negb isPDF then
    contentType <-
      (if negb (pdf_isClosed w 1) then
         try_catch (await (pdf_contentType w))
           (fun err => log ("Error getting content type: " +:+ err) ;; ret "unknown")
       else ret "unknown") ;;
    (if negb (pdf_isClosed w 2) then
       try_catch
         (screenshot <- await (pdf_screenshot w) ;;
          screenshots_set (arg_fileName args +:+ "_not_pdf") screenshot ;;
          notify_list_changed)
         (fun err => log ("Error taking screenshot: " +:+ err))
     else ret tt) ;;
    ret (inl (failure ("The new tab did not contain a PDF. URL: " +:+ url
                       +:+ ", Content-Type: " +:+ contentType)))
  else
    (if pdf_isClosed w 3
     then throw "Page was closed before PDF could be captured"
     else ret tt) ;;
    pdfBytes <-
      try_catch (await (pdf_fetch w))
        (fun err =>
           log ("Error in evaluate method: " +:+ err +:+ ", trying direct download") ;;
           downloadPDF_direct w) ;;
    ret (inr pdfBytes).

(** What follows the captured bytes: the tab is closed, the bytes stored. *)
Definition downloadPDF_store (w : DownloadPDFWorld) (args : Args) (url pdfBytes : string)
  : M CallToolResult :=
  try_catch
    (if negb (pdf_isClosed w 4) then await (pdf_closePage w) else ret tt)
    (fun err => log ("Error closing page: " +:+ err)) ;;
  if negb (JS.truthy pdfBytes) then
    ret (failure ("Failed to capture PDF content from " +:+ url))
  else
    screenshots_set (arg_fileName args) pdfBytes ;;
    notify_list_changed ;;
    ret (success ("Successfully downloaded PDF " +:+ dquote +:+ arg_fileName args
                  +:+ dquote +:+ " from " +:+ url)).

(** What follows the click. *)
Definition downloadPDF_resolve (w : DownloadPDFWorld) (args : Args) : M CallToolResult :=
  match pdf_newPage w with
  | None =>
      ret (failure ("Timeout or error waiting for PDF to load in new tab after clicking "
                    +:+ dquote +:+ arg_buttonText args +:+ dquote))
  | Some url =>
      try_catch (await (pdf_domLoaded w))
        (fun err => log ("Error in waitForLoadState: " +:+ err)) ;;
      processed <-
        try_catch (downloadPDF_process w args url)
          (fun err => ret (inl (failure ("Error processing PDF: " +:+ err)))) ;;
      match processed with
      | inl result => ret result
      | inr pdfBytes => downloadPDF_store w args url pdfBytes
      end
  end.

Definition BrowserDownloadPDF (w : DownloadPDFWorld) (page : Pages) (args : Args)
  : M CallToolResult :=
  try_catch
    (let selector := selector_or args "button, a" in
     emit (EvArm MainPage NewPageListener) ;;
     click_or_first MainPage page (buttonSelector selector args) throw ;;
     downloadPDF_resolve w args)
    (fun error => ret (failure ("Failed to download PDF: " +:+ error))).

(** *** BrowserForceDownload *)

Record ForceDownloadWorld := mkForceDownloadWorld {
  fd_newContext : Outcome unit;           (* browser.newContext *)
  fd_newPage : Outcome unit;              (* context.newPage() *)
  fd_pageUrl : string;                    (* page.url() *)
  fd_goto : Outcome unit;                 (* downloadPage.goto(page.url()) *)
  fd_requestUrls : list string;           (* URLs pushed by the request listener *)
  fd_download : Outcome string;           (* the download event: suggestedFilename() *)
  fd_path : Outcome (option string);      (* download.path() *)
  fd_readFile : Outcome string;           (* fs.readFile(path), base64 *)
  fd_pages : nat;                         (* context.pages().length *)
  fd_tabLoaded : Outcome unit;            (* newPage.waitForLoadState('domcontentloaded') *)
  fd_tabUrl : string;                     (* newPage.url() *)
  fd_fetchUrl : Outcome string;           (* downloadPage.evaluate: fetch(fileUrl), base64 *)
  fd_tabIsPDF : bool;                     (* newPage.evaluate(...).catch(() => false) *)
  fd_fetchTab : Outcome string;           (* newPage.evaluate: fetch(location.href), base64 *)
  fd_filePage : Outcome unit;             (* context.newPage() *)
  fd_fileGoto : Outcome unit;             (* filePage.goto(fileUrl) *)
  fd_fileContent : Outcome (string * string)  (* filePage.evaluate: { data, type } *)
}.

(** [(args.fileTypes || '...').split(',').map(t => t.trim())] *)
Definition fileTypes_of (args : Args) : list string :=
  map JS.trim
      (JS.split (JS.or_else (default EmptyString (arg_fileTypes args))
                            "pdf,doc,docx,xls,xlsx,ppt,pptx,zip") ",").

(** Strategy 1: the download event. *)
Definition forceDownload_event (w : ForceDownloadWorld) (args : Args) (context : nat)
    (suggestedName : string) : M (option CallToolResult) :=
  try_catch
    (path <- await (fd_path w) ;;
     require_path path ;;
     fileBytes <- await (fd_readFile w) ;;
     let mimeType := mimeTypeOf (extensionOf suggestedName) in
     screenshots_set (arg_fileName args) fileBytes ;;
     fileTypeMappings_set (arg_fileName args) mimeType ;;
     notify_list_changed ;;
     context_close context ;;
     ret (Some (success ("Successfully downloaded file " +:+ dquote +:+ arg_fileName args
                         +:+ dquote +:+ " (original name: " +:+ suggestedName +:+ ")"))))
    (fun err => log ("Error saving download: " +:+ err) ;; ret None).

(** Strategy 2: a page opened in the auxiliary context. *)
Definition forceDownload_tab (w : ForceDownloadWorld) (args : Args) (context : nat)
  : M (option CallToolResult) :=
  try_catch
    (await (fd_tabLoaded w) ;;
     let url := fd_tabUrl w in
     let isDirectFile :=
       existsb (fun type => JS.endsWith (JS.toLowerCase url) ("." +:+ type))
               (fileTypes_of args) in
     if isDirectFile then
       response <- await (fd_fetchUrl w) ;;
       let mimeType := mimeTypeOf (extensionOf url) in
       screenshots_set (arg_fileName args) response ;;
       fileTypeMappings_set (arg_fileName args) mimeType ;;
       notify_list_changed ;;
       context_close context ;;
       ret (Some (success ("Successfully downloaded file " +:+ dquote +:+ arg_fileName args
                           +:+ dquote +:+ " from URL: " +:+ url)))
     else if fd_tabIsPDF w then
       pdfBytes <- await (fd_fetchTab w) ;;
       screenshots_set (arg_fileName args) pdfBytes ;;
       fileTypeMappings_set (arg_fileName args) "application/pdf" ;;
       notify_list_changed ;;
       context_close context ;;
       ret (Some (success ("Successfully downloaded PDF " +:+ dquote +:+ arg_fileName args
                           +:+ dquote +:+ " from URL: " +:+ url)))
     else ret None)
    (fun err => log ("Error processing new page: " +:+ err) ;; ret None).

(** Strategy 3: the last recorded request for one of the file types. *)
Definition forceDownload_requests (w : ForceDownloadWorld) (args : Args) (context : nat)
  : M (option CallToolResult) :=
  let fileRequests :=
    List.filter
      (fun url => existsb (fun type => JS.includes (JS.toLowerCase url) ("." +:+ type))
                          (fileTypes_of args))
      (fd_requestUrls w) in
  match last fileRequests with
  | Some fileUrl =>
      log ("Found potential file URL: " +:+ fileUrl) ;;
      try_catch
        (await (fd_filePage w) ;;
         await (fd_fileGoto w) ;;
         fileContent <- await (fd_fileContent w) ;;
         let mimeType := JS.or_else fileContent.2 "application/octet-stream" in
         screenshots_set (arg_fileName args) fileContent.1 ;;
         fileTypeMappings_set (arg_fileName args) mimeType ;;
         notify_list_changed ;;
         context_close context ;;
         ret (Some (success ("Successfully downloaded file " +:+ dquote +:+ arg_fileName args
                             +:+ dquote +:+ " from URL: " +:+ fileUrl))))
        (fun err => log ("Error downloading file from URL: " +:+ err) ;; ret None)
  | None => ret None
  end.

(** What follows the click: the three strategies in turn. *)
Definition forceDownload_resolve (w : ForceDownloadWorld) (args : Args) (context : nat)
  : M CallToolResult :=
  download <-
    try_catch (suggestedName <- await (fd_download w) ;; ret (Some suggestedName))
      (fun err => log ("No download event detected: " +:+ err) ;; ret None) ;;
  saved <-
    match download with
    | Some suggestedName => forceDownload_event w args context suggestedName
    | None => ret None
    end ;;
  match saved with
  | Some result => ret result
  | None =>
      fromTab <- (if 1 <? fd_pages w then forceDownload_tab w args context else ret None) ;;
      match fromTab with
      | Some result => ret result
      | None =>
          fromRequests <- forceDownload_requests w args context ;;
          match fromRequests with
          | Some result => ret result
          | None =>
              context_close context ;;
              ret (failure ("Failed to download file. No file download was detected "
                            +:+ "after clicking " +:+ dquote +:+ arg_buttonText args
                            +:+ dquote +:+ ". Requests captured: "
                            +:+ JS.show_nat (length (fd_requestUrls w))))
          end
      end
  end.

Definition BrowserForceDownload (w : ForceDownloadWorld) (page : Pages) (args : Args)
  : M CallToolResult :=
  try_catch
    (let selector := selector_or args "button, a" in
     context <- newContext (fd_newContext w) ;;
     await (fd_newPage w) ;;
     await (fd_goto w) ;;
     emit (EvArm AuxPage RequestListener) ;;
     emit (EvArm AuxPage DownloadEvent) ;;
     click_or_first AuxPage page (buttonSelector selector args)
       (fun error => context_close context ;; throw error) ;;
     forceDownload_resolve w args context)
    (fun error => ret (failure ("Failed to force download: " +:+ error))).

(** *** BrowserAuthenticatedDownload *)

(** [url.toLowerCase().endsWith('.pdf') || ....includes('.pdf?') ||
    ....includes('/pdf/')], the URL test the tools repeat. *)
Definition pdf_like (url : string) : bool :=
  let u := JS.toLowerCase url in
  JS.endsWith u ".pdf" || JS.includes u ".pdf?" || JS.includes u "/pdf/".

(** [downloadPage.click('body')] *)
Definition click_body (o : Outcome unit) : M unit :=
  emit (EvAttempt AuxPage DoClick (Css "body") false) ;; await o.

Record AuthDownloadWorld := mkAuthDownloadWorld {
  ad_currentUrl : string;                 (* page.url() before the click *)
  ad_cookies : Outcome unit;              (* contexts()[0].cookies() *)
  ad_beforeLinks : Outcome (list string); (* getAllLinks(page) before the click *)
  ad_settle : Outcome unit;               (* page.waitForTimeout(1000) *)
  ad_responseUrls : list string;          (* URLs pushed by the response listener *)
  ad_newPage : option string;             (* the page event within waitTime: newPage.url() *)
  ad_tabContentType : string;             (* evaluate(...).catch(() => 'unknown') *)
  ad_tabHasEmbed : bool;                  (* evaluate(...).catch(() => false) *)
  ad_tabFetch : Outcome (option string);  (* newPage.evaluate: fetch, base64 or null *)
  ad_pageUrlAfter : string;               (* page.url() after the click *)
  ad_afterLinks : Outcome (list string);  (* getAllLinks(page) after the click *)
  ad_newContext : Outcome unit;           (* browser.newContext *)
  ad_addCookies : Outcome unit;           (* context.addCookies(cookies) *)
  ad_auxPage : Outcome unit;              (* context.newPage() *)
  ad_goto : Outcome unit;                 (* downloadPage.goto(foundPdfUrl) *)
  ad_auxFetch : Outcome (option string);  (* downloadPage.evaluate: fetch, base64 or null *)
  ad_bodyClick : Outcome unit;            (* downloadPage.click('body') *)
  ad_download : Outcome unit;             (* the awaited download event *)
  ad_path : Outcome (option string);      (* download.path() *)
  ad_readFile : Outcome string;           (* fs.readFile(path), base64 *)
  ad_tabClosed : bool;                    (* newPage.isClosed() *)
  ad_closeTab : Outcome unit              (* newPage.close() *)
}.

(** Strategy 1: the new page; gives [(pdfBytes, foundPdfUrl)]. *)
Definition authDownload_tab (w : AuthDownloadWorld) : M (option string * option string) :=
  match ad_newPage w with
  | None => ret (None, None)
  | Some newPageUrl =>
      let foundPdfUrl :=
        if JS.endsWith (JS.toLowerCase newPageUrl) ".pdf" then Some newPageUrl
        else if String.eqb (ad_tabContentType w) "application/pdf" then Some newPageUrl
        else if ad_tabHasEmbed w then Some newPageUrl
        else None in
      if truthy_opt foundPdfUrl then
        pdfBytes <-
          try_catch (await (ad_tabFetch w))
            (fun err => log ("Error extracting PDF from new page: " +:+ err) ;; ret None) ;;
        ret (pdfBytes, foundPdfUrl)
      else ret (None, foundPdfUrl)
  end.

(** Strategies 2 to 4: the current page's URL, the recorded responses, the
    links that appeared after the click. *)
Definition authDownload_scan (w : AuthDownloadWorld) (beforeLinks : list string)
    (found : option string * option string) : M (option string) :=
  let '(pdfBytes, foundPdfUrl) := found in
  let skip (url : option string) := truthy_opt pdfBytes || truthy_opt url in
  let foundPdfUrl :=
    if skip foundPdfUrl then foundPdfUrl
    else if negb (String.eqb (ad_pageUrlAfter w) (ad_currentUrl w))
            && JS.endsWith (JS.toLowerCase (ad_pageUrlAfter w)) ".pdf"
         then Some (ad_pageUrlAfter w)
         else foundPdfUrl in
  let foundPdfUrl :=
    if skip foundPdfUrl then foundPdfUrl
    else match last (List.filter pdf_like (ad_responseUrls w)) with
         | Some url => Some url
         | None => foundPdfUrl
         end in
  if skip foundPdfUrl then ret foundPdfUrl
  else
    afterLinks <- await (ad_afterLinks w) ;;
    let newLinks := List.filter (fun link => negb (bool_decide (link ∈ beforeLinks))) afterLinks in
    match List.filter pdf_like newLinks with
    | link :: _ => ret (Some link)
    | [] => ret foundPdfUrl
    end.

(** The authenticated auxiliary context that fetches [foundPdfUrl]. *)
Definition authDownload_fetch (w : AuthDownloadWorld) : M (option string) :=
  context <- newContext (ad_newContext w) ;;
  await (ad_addCookies w) ;;
  await (ad_auxPage w) ;;
  try_catch
    (await (ad_goto w) ;;
     pdfBytes <-
       try_catch (await (ad_auxFetch w))
         (fun err => log ("Error extracting PDF content: " +:+ err) ;; ret None) ;;
     pdfBytes <-
       (if negb (truthy_opt pdfBytes) then
          try_catch
            (emit (EvArm AuxPage DownloadEvent) ;;
             click_body (ad_bodyClick w) ;;
             await (ad_download w) ;;
             path <- await (ad_path w) ;;
             require_path path ;;
             fileBytes <- await (ad_readFile w) ;;
             ret (Some fileBytes))
            (fun err => log ("Download attempt failed: " +:+ err) ;; ret pdfBytes)
        else ret pdfBytes) ;;
     context_close context ;;
     ret pdfBytes)
    (fun err =>
       log ("Error with authenticated download page: " +:+ err) ;;
       context_close context ;;
       ret None).

(** The result once the strategies are done. *)
Definition authDownload_finish (args : Args) (pdfBytes foundPdfUrl : option string)
  : M CallToolResult :=
  if truthy_opt pdfBytes then
    screenshots_set (arg_fileName args) (default EmptyString pdfBytes) ;;
    fileTypeMappings_set (arg_fileName args) "application/pdf" ;;
    notify_list_changed ;;
    ret (success
           (if truthy_opt foundPdfUrl
            then "Successfully downloaded PDF " +:+ dquote +:+ arg_fileName args +:+ dquote
                 +:+ " from " +:+ default EmptyString foundPdfUrl
            else "Successfully downloaded PDF " +:+ dquote +:+ arg_fileName args +:+ dquote))
  else if truthy_opt foundPdfUrl then
    ret (failure ("Found PDF URL but couldn't download automatically. "
                  +:+ "Manual download URL: " +:+ default EmptyString foundPdfUrl))
  else
    ret (failure ("Failed to find or download PDF after clicking " +:+ dquote
                  +:+ arg_buttonText args +:+ dquote
                  +:+ ". No PDF content or link was detected.")).

(** What follows the click. *)
Definition authDownload_resolve (w : AuthDownloadWorld) (args : Args)
    (beforeLinks : list string) : M CallToolResult :=
  let closeNewTabs := negb (bool_decide (arg_closeNewTabs args = Some false)) in
  await (ad_settle w) ;;
  found <- authDownload_tab w ;;
  foundPdfUrl <- authDownload_scan w beforeLinks found ;;
  pdfBytes <-
    (if truthy_opt foundPdfUrl && negb (truthy_opt found.1)
     then authDownload_fetch w
     else ret found.1) ;;
  (if closeNewTabs && bool_decide (is_Some (ad_newPage w)) && negb (ad_tabClosed w) then
     try_catch (await (ad_closeTab w))
       (fun err => log ("Error closing tab: " +:+ err))
   else ret tt) ;;
  authDownload_finish args pdfBytes foundPdfUrl.

Definition BrowserAuthenticatedDownload (w : AuthDownloadWorld) (page : Pages) (args : Args)
  : M CallToolResult :=
  try_catch
    (let selector := selector_or args "button, a" in
     await (ad_cookies w) ;;
     beforeLinks <- await (ad_beforeLinks w) ;;
     emit (EvArm MainPage ResponseListener) ;;
     emit (EvArm MainPage NewPageListener) ;;
     click_or_first MainPage page (buttonSelector selector args) throw ;;
     authDownload_resolve w args beforeLinks)
    (fun error => ret (failure ("Error during authenticated download: " +:+ error))).

(** *** BrowserCaptureRequest *)

Record NetRequest := mkNetRequest {
  req_url : string;
  req_resourceType : string;
  req_method : string
}.

(** A response as the listener receives it. *)
Record NetResponse := mkNetResponse {
  resp_url : string;
  resp_status : nat;
  resp_rawHeaders : list (string * string)
}.

(** [for (const key in headers) headersObj[key.toLowerCase()] = headers[key]] *)
Definition headersObj (r : NetResponse) : gmap string string :=
  foldl (fun obj kv => <[JS.toLowerCase kv.1 := kv.2]> obj) ∅ (resp_rawHeaders r).

(** [r.headers['content-type']] *)
Definition content_type (r : NetResponse) : option string :=
  headersObj r !! "content-type".

(** [r.headers['content-type']?.toLowerCase().includes('pdf')] *)
Definition content_type_is_pdf (r : NetResponse) : bool :=
  match content_type r with
  | Some ct => JS.includes (JS.toLowerCase ct) "pdf"
  | None => false
  end.

(** The filter of Strategy 1. *)
Definition is_pdf_response (r : NetResponse) : bool :=
  (200 <=? resp_status r) && (resp_status r <? 300) &&
  (content_type_is_pdf r
   || JS.endsWith (JS.toLowerCase (resp_url r)) ".pdf"
   || JS.includes (JS.toLowerCase (resp_url r)) ".pdf?"
   || JS.includes (JS.toLowerCase (resp_url r)) "/pdf/").

(** The filter of Strategy 2. *)
Definition is_pdf_link (link : string) : bool :=
  pdf_like link || JS.includes (JS.toLowerCase link) "/download/".

(** The filter of Strategy 3. *)
Definition is_potential_request (r : NetRequest) : bool :=
  (String.eqb (req_resourceType r) "xhr" || String.eqb (req_resourceType r) "fetch") &&
  (JS.includes (JS.toLowerCase (req_url r)) "pdf"
   || JS.includes (JS.toLowerCase (req_url r)) "download"
   || JS.includes (JS.toLowerCase (req_url r)) "export"
   || JS.includes (JS.toLowerCase (req_url r)) "file").

Record CaptureRequestWorld := mkCaptureRequestWorld {
  cr_addInitScript : Outcome unit;        (* page.addInitScript(block window.open) *)
  cr_beforeLinks : Outcome (list string); (* evaluate: links before the click *)
  cr_settle : Outcome unit;               (* page.waitForTimeout(waitTime) *)
  cr_requests : list NetRequest;          (* recorded when the wait ends *)
  cr_responses : list NetResponse;        (* recorded when the wait ends *)
  (* evaluate: fetch(url, { credentials: 'include' }) for the i-th candidate,
     base64 or null *)
  cr_fetchResponse : nat -> string -> Outcome (option string);
  cr_afterLinks : Outcome (list string);  (* evaluate: links after the click *)
  cr_fetchLink : nat -> string -> Outcome (option string);
  cr_lateRequests : list NetRequest;      (* recorded after the wait, before Strategy 3 *)
  cr_lateResponses : list NetResponse;
  cr_fetchXhr : nat -> string -> Outcome (option string)
}.

(** A [for] loop over candidates that returns from the handler at the first
    candidate whose attempt yields a result. *)
Fixpoint first_result {A} (attempt : A -> M (option CallToolResult)) (candidates : list A)
  : M (option CallToolResult) :=
  match candidates with
  | [] => ret None
  | c :: rest =>
      r <- attempt c ;;
      match r with
      | Some result => ret (Some result)
      | None => first_result attempt rest
      end
  end.

(** The candidates with their array index. *)
Definition indexed {A} (l : list A) : list (nat * A) := imap (fun i x => (i, x)) l.

Definition captureRequest_response (w : CaptureRequestWorld) (args : Args)
    (c : nat * NetResponse) : M (option CallToolResult) :=
  let url := resp_url c.2 in
  log ("Attempting to download PDF from response: " +:+ url) ;;
  try_catch
    (pdfBytes <- await (cr_fetchResponse w c.1 url) ;;
     if truthy_opt pdfBytes then
       screenshots_set (arg_fileName args) (default EmptyString pdfBytes) ;;
       fileTypeMappings_set (arg_fileName args) "application/pdf" ;;
       notify_list_changed ;;
       ret (Some (success ("Successfully downloaded PDF " +:+ dquote +:+ arg_fileName args
                           +:+ dquote +:+ " from network request to " +:+ url)))
     else ret None)
    (fun err => log ("Error downloading PDF from response: " +:+ err) ;; ret None).

Definition captureRequest_link (w : CaptureRequestWorld) (args : Args)
    (c : nat * string) : M (option CallToolResult) :=
  let pdfLink := c.2 in
  log ("Attempting to download PDF from link: " +:+ pdfLink) ;;
  try_catch
    (pdfBytes <- await (cr_fetchLink w c.1 pdfLink) ;;
     if truthy_opt pdfBytes then
       screenshots_set (arg_fileName args) (default EmptyString pdfBytes) ;;
       fileTypeMappings_set (arg_fileName args) "application/pdf" ;;
       notify_list_changed ;;
       ret (Some (success ("Successfully downloaded PDF " +:+ dquote +:+ arg_fileName args
                           +:+ dquote +:+ " from link: " +:+ pdfLink)))
     else ret None)
    (fun err => log ("Error downloading PDF from link: " +:+ err) ;; ret None).

Definition captureRequest_xhr (w : CaptureRequestWorld) (args : Args)
    (c : nat * NetRequest) : M (option CallToolResult) :=
  let url := req_url c.2 in
  log ("Attempting to download from XHR request: " +:+ url) ;;
  try_catch
    (pdfBytes <- await (cr_fetchXhr w c.1 url) ;;
     if truthy_opt pdfBytes then
       screenshots_set (arg_fileName args) (default EmptyString pdfBytes) ;;
       let response :=
         List.find (fun r => String.eqb (resp_url r) url)
                   (cr_responses w ++ cr_lateResponses w) in
       let mimeType :=
         match response with
         | Some r =>
             if truthy_opt (content_type r)
             then default EmptyString (JS.split (default EmptyString (content_type r)) ";" !! 0)
             else if JS.endsWith (JS.toLowerCase url) ".pdf" then "application/pdf"
             else "application/octet-stream"
         | None =>
             if JS.endsWith (JS.toLowerCase url) ".pdf" then "application/pdf"
             else "application/octet-stream"
         end in
       fileTypeMappings_set (arg_fileName args) mimeType ;;
       notify_list_changed ;;
       ret (Some (success ("Successfully downloaded file " +:+ dquote +:+ arg_fileName args
                           +:+ dquote +:+ " (type: " +:+ mimeType
                           +:+ ") from XHR request to " +:+ url)))
     else ret None)
    (fun err => log ("Error downloading from XHR request: " +:+ err) ;; ret None).

(** The failure once every strategy is exhausted: it carries the best URL
    that was found, if any. *)
Definition captureRequest_giveUp (args : Args) (pdfResponses : list NetResponse)
    (pdfLinks : list string) (potentialPdfRequests : list NetRequest) : CallToolResult :=
  match last pdfResponses, pdfLinks, last potentialPdfRequests with
  | Some r, _, _ =>
      failure ("Found PDF URL but couldn't download automatically. "
               +:+ "Manual download URL: " +:+ resp_url r)
  | None, link :: _, _ =>
      failure ("Found PDF link but couldn't download automatically. "
               +:+ "Manual download URL: " +:+ link)
  | None, [], Some r =>
      failure ("Found potential download request but couldn't extract "
               +:+ "file. URL: " +:+ req_url r)
  | None, [], None =>
      failure ("No PDF content was detected in network traffic after "
               +:+ "clicking " +:+ dquote +:+ arg_buttonText args +:+ dquote
               +:+ ". Try examining the network activity in browser "
               +:+ "devtools manually.")
  end.

(** Strategies 2 and 3, entered when no recorded response gave the file. *)
Definition captureRequest_fallbacks (w : CaptureRequestWorld) (args : Args)
    (beforeLinks : list string) (pdfResponses : list NetResponse) : M CallToolResult :=
  (* Strategy 2: links that appeared after the click *)
  afterLinks <- await (cr_afterLinks w) ;;
  let newLinks :=
    List.filter (fun link => negb (bool_decide (link ∈ beforeLinks))) afterLinks in
  let pdfLinks := List.filter is_pdf_link newLinks in
  fromLinks <- first_result (captureRequest_link w args) (indexed pdfLinks) ;;
  match fromLinks with
  | Some result => ret result
  | None =>
      (* Strategy 3: XHR/fetch requests, the last one first *)
      let potentialPdfRequests :=
        List.filter is_potential_request (cr_requests w ++ cr_lateRequests w) in
      fromXhr <- first_result (captureRequest_xhr w args)
                              (rev (indexed potentialPdfRequests)) ;;
      match fromXhr with
      | Some result => ret result
      | None => ret (captureRequest_giveUp args pdfResponses pdfLinks potentialPdfRequests)
      end
  end.

(** What follows the wait: the scan of the recorded traffic. *)
Definition captureRequest_scan (w : CaptureRequestWorld) (args : Args)
    (beforeLinks : list string) : M CallToolResult :=
  (* Strategy 1: successful PDF responses, the last one first *)
  let pdfResponses := List.filter is_pdf_response (cr_responses w) in
  fromResponses <- first_result (captureRequest_response w args) (rev (indexed pdfResponses)) ;;
  match fromResponses with
  | Some result => ret result
  | None => captureRequest_fallbacks w args beforeLinks pdfResponses
  end.

Definition BrowserCaptureRequest (w : CaptureRequestWorld) (page : Pages) (args : Args)
  : M CallToolResult :=
  try_catch
    (let waitTime := waitTime_or args 15000%N in
     let selector := selector_or args "button, a" in
     let blockWindowOpen := negb (bool_decide (arg_blockWindowOpen args = Some false)) in
     emit (EvArm MainPage RequestListener) ;;
     emit (EvArm MainPage ResponseListener) ;;
     (if blockWindowOpen then await (cr_addInitScript w) else ret tt) ;;
     beforeLinks <- await (cr_beforeLinks w) ;;
     click_or_first MainPage page (buttonSelector selector args) throw ;;
     emit (EvWait waitTime) ;;
     await (cr_settle w) ;;
     captureRequest_scan w args beforeLinks)
    (fun error => ret (failure ("Error capturing requests: " +:+ error))).

(** *** BrowserInterceptTabs *)

(** The URL filter of BrowserInterceptTabs. *)
Definition is_download_url (url : string) : bool :=
  JS.truthy url &&
  (pdf_like url
   || JS.includes (JS.toLowerCase url) "/download/"
   || JS.includes (JS.toLowerCase url) "/report/"
   || JS.includes (JS.toLowerCase url) "/generate/").

Record InterceptTabsWorld := mkInterceptTabsWorld {
  it_visible : Outcome bool;              (* buttonHandle.isVisible() *)
  it_buttonInfo : Outcome unit;           (* buttonHandle.evaluate(diagnostics) *)
  it_installHooks : Outcome unit;         (* page.evaluate(install hooks) *)
  it_settle : Outcome unit;               (* page.waitForTimeout(waitTime) *)
  (* evaluate: the URLs of __interceptedUrls and __lastInterceptedUrl *)
  it_intercepted : Outcome (list string * option string);
  it_jsURLs : Outcome (list string);      (* evaluate: URL literals in script text *)
  it_newContext : Outcome unit;
  it_cookies : Outcome unit;              (* page.context().cookies() *)
  it_addCookies : Outcome unit;
  it_auxPage : Outcome unit;
  it_goto : Outcome unit;
  it_auxFetch : Outcome (option string);  (* downloadPage.evaluate: fetch, base64 or null *)
  it_bodyClick : Outcome unit;
  it_download : Outcome unit;
  it_path : Outcome (option string);
  it_readFile : Outcome string
}.

(** The download of the last URL found, in an auxiliary context. *)
Definition interceptTabs_download (w : InterceptTabsWorld) (args : Args) (pdfUrl : string)
  : M CallToolResult :=
  try_catch
    (context <- newContext (it_newContext w) ;;
     await (it_cookies w) ;;
     await (it_addCookies w) ;;
     await (it_auxPage w) ;;
     try_catch
       (await (it_goto w) ;;
        pdfBytes <-
          try_catch (await (it_auxFetch w))
            (fun err => log ("Error extracting PDF directly: " +:+ err) ;; ret None) ;;
        pdfBytes <-
          (if negb (truthy_opt pdfBytes) then
             try_catch
               (emit (EvArm AuxPage DownloadEvent) ;;
                try_catch (click_body (it_bodyClick w)) (fun _ => ret tt) ;;
                await (it_download w) ;;
                path <- await (it_path w) ;;
                require_path path ;;
                fileBytes <- await (it_readFile w) ;;
                ret (Some fileBytes))
               (fun err => log ("Download attempt failed: " +:+ err) ;; ret pdfBytes)
           else ret pdfBytes) ;;
        context_close context ;;
        if truthy_opt pdfBytes then
          screenshots_set (arg_fileName args) (default EmptyString pdfBytes) ;;
          fileTypeMappings_set (arg_fileName args) "application/pdf" ;;
          notify_list_changed ;;
          ret (success ("Successfully downloaded PDF " +:+ dquote +:+ arg_fileName args
                        +:+ dquote +:+ " from intercepted URL: " +:+ pdfUrl))
        else
          ret (success ("Found PDF URL but couldn't download automatically. "
                        +:+ "Direct download URL: " +:+ pdfUrl)))
       (fun err =>
          context_close context ;;
          log ("Error with download page: " +:+ err) ;;
          ret (failure ("Found PDF URL but failed to access/download it. URL: " +:+ pdfUrl
                        +:+ ", Error: " +:+ err))))
    (fun err =>
       log ("Error creating download context: " +:+ err) ;;
       ret (success ("Found PDF URL but couldn't initiate download. Direct download URL: "
                     +:+ pdfUrl))).

(** What follows the click and the wait. *)
Definition interceptTabs_resolve (w : InterceptTabsWorld) (args : Args) : M CallToolResult :=
  await (it_settle w) ;;
  interceptResult <- await (it_intercepted w) ;;
  jsURLs <- await (it_jsURLs w) ;;
  let allPotentialUrls := List.filter JS.truthy (interceptResult.1 ++ jsURLs) in
  let pdfUrls := List.filter is_download_url allPotentialUrls in
  match last pdfUrls with
  | Some pdfUrl => interceptTabs_download w args pdfUrl
  | None =>
      if truthy_opt interceptResult.2 then
        ret (failure ("No PDF URL found, but intercepted this URL: "
                      +:+ default EmptyString interceptResult.2
                      +:+ ". Check button diagnostics in logs."))
      else
        ret (failure ("No URLs were intercepted after clicking " +:+ dquote
                      +:+ arg_buttonText args +:+ dquote
                      +:+ ". Check button diagnostics in logs."))
  end.

Definition BrowserInterceptTabs (w : InterceptTabsWorld) (page : Pages) (args : Args)
  : M CallToolResult :=
  try_catch
    (let waitTime := waitTime_or args 5000%N in
     let selector := selector_or args "button, a" in
     visible <- await (it_visible w) ;;
     (if negb visible
      then throw ("Button with text " +:+ dquote +:+ arg_buttonText args +:+ dquote
                  +:+ " not found or not visible.")
      else ret tt) ;;
     await (it_buttonInfo w) ;;
     await (it_installHooks w) ;;
     emit (EvArm MainPage NavigationHook) ;;
     locator_act MainPage (page 0) DoClick (Css (buttonSelector selector args)) true ;;
     emit (EvWait waitTime) ;;
     interceptTabs_resolve w args)
    (fun error => ret (failure ("Error intercepting tab: " +:+ error))).

(** *** BrowserClickAndExtractUrl *)

(** [isTargetUrl], the test the injected hook applies to a captured URL. *)
Definition isTargetUrl (url : string) : bool :=
  JS.truthy url &&
  (let lowerUrl := JS.toLowerCase url in
   JS.endsWith lowerUrl ".pdf"
   || JS.includes lowerUrl ".pdf?"
   || JS.includes lowerUrl "/pdf/"
   || JS.includes lowerUrl "/download/"
   || JS.includes lowerUrl "/report/"
   || JS.includes lowerUrl "/generate/"
   || JS.includes lowerUrl "blob:").

Record ExtractUrlWorld := mkExtractUrlWorld {
  xu_visible : Outcome bool;              (* buttonHandle.isVisible() *)
  xu_expose : Outcome unit;               (* page.exposeFunction('__reportUrlFound__', ...) *)
  xu_installHooks : Outcome unit;         (* page.evaluate(install hooks) *)
  (* what the page hands to the hooks once clicked, oldest first: the time in
     milliseconds after the wait started, and the URL *)
  xu_captures : list (N * string);
  (* evaluate: the URLs of __interceptedUrls and __lastInterceptedUrl *)
  xu_intercepted : Outcome (list string * option string);
  xu_jsURLs : Outcome (list string)       (* evaluate: URL literals in script text *)
}.

(** The first call of [__reportUrlFound__]: the hook's [captureUrl] reports
    every captured URL that passes [isTargetUrl]; the promise keeps the first. *)
Definition first_report (captures : list (N * string)) : option (N * string) :=
  List.find (fun c => isTargetUrl c.2) captures.

(** [Promise.race([urlFoundPromise, timeoutPromise])]: the URL reported
    before the timer of [waitTime] fires, and the time waited. *)
Definition race (report : option (N * string)) (waitTime : N) : option string * N :=
  match report with
  | Some (t, url) => if (t <? waitTime)%N then (Some url, t) else (None, waitTime)
  | None => (None, waitTime)
  end.

(** The fallback once the timer has fired. *)
Definition extractUrl_fallback (w : ExtractUrlWorld) (args : Args) : M CallToolResult :=
  log "Timeout reached. Checking collected URLs as fallback..." ;;
  interceptResult <- await (xu_intercepted w) ;;
  jsURLs <- await (xu_jsURLs w) ;;
  let allPotentialUrls := List.filter JS.truthy (interceptResult.1 ++ jsURLs) in
  let targetUrls := List.filter isTargetUrl allPotentialUrls in
  match last targetUrls with
  | Some extractedUrl => ret (success extractedUrl)
  | None =>
      if truthy_opt interceptResult.2 then
        ret (success (default EmptyString interceptResult.2))
      else
        ret (failure ("No URL was intercepted after clicking " +:+ dquote
                      +:+ arg_buttonText args +:+ dquote +:+ ". Timeout occurred."))
  end.

(** What follows the click: the race of the callback against the timer.
    The call that then overwrites the exposed callback with an empty
    function swallows its own error and changes nothing that is modelled. *)
Definition extractUrl_wait (w : ExtractUrlWorld) (args : Args) (waitTime : N)
  : M CallToolResult :=
  let outcome := race (first_report (xu_captures w)) waitTime in
  emit (EvWait outcome.2) ;;
  if truthy_opt outcome.1 then
    log ("[Callback] URL reported: " +:+ default EmptyString outcome.1) ;;
    ret (success (default EmptyString outcome.1))
  else extractUrl_fallback w args.

Definition BrowserClickAndExtractUrl (w : ExtractUrlWorld) (page : Pages) (args : Args)
  : M CallToolResult :=
  try_catch
    (let waitTime := waitTime_or args 5000%N in
     let selector := selector_or args "button, a" in
     visible <- await (xu_visible w) ;;
     (if negb visible
      then throw ("Button with text " +:+ dquote +:+ arg_buttonText args +:+ dquote
                  +:+ " not found or not visible.")
      else ret tt) ;;
     await (xu_expose w) ;;
     emit (EvArm MainPage HookCallback) ;;
     await (xu_installHooks w) ;;
     emit (EvArm MainPage NavigationHook) ;;
     locator_act MainPage (page 0) DoClick (Css (buttonSelector selector args)) true ;;
     extractUrl_wait w args waitTime)
    (fun error => ret (failure ("Error during URL extraction: " +:+ error))).

(** *** BrowserClickAndDownloadAuthenticated *)

(** Node's [path.extname]: the text from the last dot of the last path
    segment, empty when that segment has no dot, begins with its only dot,
    or is [..]. *)
Fixpoint from_last_dot (s : string) : option string :=
  match s with
  | EmptyString => None
  | String c s' =>
      match from_last_dot s' with
      | Some e => Some e
      | None => if Ascii.eqb c "." then Some s else None
      end
  end.

Definition basename (path : string) : string :=
  default EmptyString (last (List.filter JS.truthy (JS.split path "/"))).

Definition extname (path : string) : string :=
  let b := basename path in
  if String.eqb b ".." then EmptyString
  else match b with
       | String "."%char rest => default EmptyString (from_last_dot rest)
       | _ => default EmptyString (from_last_dot b)
       end.

(** [path.join(dir, name)] for a directory and a file name free of
    separators. *)
Definition path_join (dir name : string) : string := dir +:+ "/" +:+ name.

Definition months : list string :=
  ["January"; "February"; "March"; "April"; "May"; "June"; "July"; "August";
   "September"; "October"; "November"; "December"].

Definition downloadsPath : string := "/app/Downloads".

(** [`eps_${months[now.getMonth()]}_${now.getDate()}_${now.getFullYear()}${extension}`] *)
Definition autoFileName (month date year : nat) (extension : string) : string :=
  "eps_" +:+ JS.show (months !! month) +:+ "_" +:+ JS.show_nat date +:+ "_"
  +:+ JS.show_nat year +:+ extension.

Record DirectDownloadWorld := mkDirectDownloadWorld {
  dd_download : Outcome string;           (* the download event: suggestedFilename() *)
  dd_content : string;                    (* what the browser saves in the temporary file *)
  dd_path : Outcome (option string);      (* download.path(): the temporary file *)
  dd_readFile : Outcome unit;             (* fs.readFile(tempPath) *)
  dd_month : nat;                         (* now.getMonth() *)
  dd_date : nat;                          (* now.getDate() *)
  dd_year : nat;                          (* now.getFullYear() *)
  dd_mkdir : Outcome unit;                (* fs.mkdir(downloadsPath, { recursive: true }) *)
  dd_writeFile : Outcome unit;            (* fs.writeFile(finalSavePath, fileBuffer) *)
  dd_unlink : Outcome unit                (* fs.unlink(tempPath) *)
}.

(** The host file system. *)
Definition fs_put (path content : string) : M unit :=
  modify (fun st => mkState (screenshots st) (fileTypeMappings st) (consoleLogs st)
                      (hostLog st) (notifications st) (openContexts st) (nextContext st)
                      (<[path := content]> (files st)) (dirs st) (trace st)).

Definition fs_remove (path : string) : M unit :=
  modify (fun st => mkState (screenshots st) (fileTypeMappings st) (consoleLogs st)
                      (hostLog st) (notifications st) (openContexts st) (nextContext st)
                      (delete path (files st)) (dirs st) (trace st)).

Definition fs_add_dir (path : string) : M unit :=
  modify (fun st => mkState (screenshots st) (fileTypeMappings st) (consoleLogs st)
                      (hostLog st) (notifications st) (openContexts st) (nextContext st)
                      (files st) ({[path]} ∪ dirs st) (trace st)).

(** [await download.path()]: once it resolves to a path the browser has
    saved the download there. *)
Definition download_path (o : Outcome (option string)) (content : string)
  : M (option string) :=
  path <- await o ;;
  match path with
  | Some p => fs_put p content ;; ret (Some p)
  | None => ret None
  end.

(** [await fs.readFile(path)] *)
Definition fs_readFile (o : Outcome unit) (path : string) : M string :=
  await o ;;
  stored <- gets files ;;
  match stored !! path with
  | Some content => ret content
  | None => throw ("ENOENT: no such file or directory, open '" +:+ path +:+ "'")
  end.

(** [await fs.mkdir(path, { recursive: true })] *)
Definition fs_mkdir (o : Outcome unit) (path : string) : M unit :=
  await o ;; fs_add_dir path.

(** [await fs.writeFile(path, content)] *)
Definition fs_writeFile (o : Outcome unit) (path content : string) : M unit :=
  await o ;; fs_put path content.

(** [await fs.unlink(path)] *)
Definition fs_unlink (o : Outcome unit) (path : string) : M unit :=
  await o ;; fs_remove path.

(** The path the download is saved under. *)
Definition finalSavePath (w : DirectDownloadWorld) (suggestedName : string) : string :=
  let extension := JS.or_else (extname suggestedName) ".unknown" in
  path_join downloadsPath (autoFileName (dd_month w) (dd_date w) (dd_year w) extension).

(** What follows the click: the download is awaited, copied to the
    destination directory, and its temporary file removed. *)
Definition directDownload_save (w : DirectDownloadWorld) : M CallToolResult :=
  suggestedName <- await (dd_download w) ;;
  path <- download_path (dd_path w) (dd_content w) ;;
  tempPath <-
    (if truthy_opt path then ret (default EmptyString path)
     else throw "Download failed: Playwright did not provide a temporary path.") ;;
  fileBuffer <- fs_readFile (dd_readFile w) tempPath ;;
  fs_mkdir (dd_mkdir w) downloadsPath ;;
  fs_writeFile (dd_writeFile w) (finalSavePath w suggestedName) fileBuffer ;;
  try_catch (fs_unlink (dd_unlink w) tempPath)
    (fun err => log ("Failed to delete temp file " +:+ tempPath +:+ ": " +:+ err)) ;;
  ret (success ("File successfully saved to " +:+ finalSavePath w suggestedName)).

Definition BrowserClickAndDownloadAuthenticated (w : DirectDownloadWorld) (page : Pages)
    (args : Args) : M CallToolResult :=
  try_catch
    (let selector :=
       selector_or args "button, a, input[type=button], input[type=submit]" in
     emit (EvArm MainPage DownloadEvent) ;;
     click_or_first MainPage page (buttonSelector selector args) throw ;;
     directDownload_save w)
    (fun error =>
       if JS.includes error "Timeout" then
         log ("Download timeout: No download event received within "
              +:+ JS.show_N (waitTime_or args 30000%N) +:+ "ms") ;;
         ret (failure ("Failed to download: No download started within the time limit "
                       +:+ "after clicking " +:+ dquote +:+ arg_buttonText args +:+ dquote
                       +:+ "."))
       else
         log ("Error during authenticated download: " +:+ error) ;;
         ret (failure ("Error during download: " +:+ error))).

(** ** The dispatcher *)

Module ToolName.
Inductive t :=
  | BrowserNavigate | BrowserScreenshot | BrowserClick | BrowserClickText | BrowserFill
  | BrowserSelect | BrowserSelectText | BrowserHover | BrowserHoverText | BrowserEvaluate
  | BrowserClickAndCapture | BrowserDownloadPDF | BrowserForceDownload
  | BrowserAuthenticatedDownload | BrowserCaptureRequest | BrowserInterceptTabs
  | BrowserClickAndExtractUrl | BrowserClickAndDownloadAuthenticated.

(** The string value of each member of [enum ToolName]. *)
Definition value (n : t) : string :=
  match n with
  | BrowserNavigate => "browser_navigate"
  | BrowserScreenshot => "browser_screenshot"
  | BrowserClick => "browser_click"
  | BrowserClickText => "browser_click_text"
  | BrowserFill => "browser_fill"
  | BrowserSelect => "browser_select"
  | BrowserSelectText => "browser_select_text"
  | BrowserHover => "browser_hover"
  | BrowserHoverText => "browser_hover_text"
  | BrowserEvaluate => "browser_evaluate"
  | BrowserClickAndCapture => "browser_click_and_capture"
  | BrowserDownloadPDF => "browser_download_pdf"
  | BrowserForceDownload => "browser_force_download"
  | BrowserAuthenticatedDownload => "browser_authenticated_download"
  | BrowserCaptureRequest => "browser_capture_request"
  | BrowserInterceptTabs => "browser_intercept_tabs"
  | BrowserClickAndExtractUrl => "browser_click_and_extract_url"
  | BrowserClickAndDownloadAuthenticated => "browser_click_and_download_authenticated"
  end.

Definition all : list t :=
  [BrowserNavigate; BrowserScreenshot; BrowserClick; BrowserClickText; BrowserFill;
   BrowserSelect; BrowserSelectText; BrowserHover; BrowserHoverText; BrowserEvaluate;
   BrowserClickAndCapture; BrowserDownloadPDF; BrowserForceDownload;
   BrowserAuthenticatedDownload; BrowserCaptureRequest; BrowserInterceptTabs;
   BrowserClickAndExtractUrl; BrowserClickAndDownloadAuthenticated].

(** The member a request's [name] string denotes, if any. *)
Definition of_string (name : string) : option t :=
  List.find (fun n => String.eqb (value n) name) all.
End ToolName.

(** Everything outside the program that one tool call meets. *)
Record World := mkWorld {
  w_ensureBrowser : Outcome unit;   (* firefox.launch / browser.newPage in ensureBrowser *)
  w_page : Pages;                   (* the current page *)
  w_downloadPage : Pages;           (* the page BrowserForceDownload opens and clicks *)
  w_navigate : NavigateWorld;
  w_screenshot : ScreenshotWorld;
  w_evaluate : EvaluateWorld;
  w_clickAndCapture : ClickAndCaptureWorld;
  w_downloadPDF : DownloadPDFWorld;
  w_forceDownload : ForceDownloadWorld;
  w_authDownload : AuthDownloadWorld;
  w_captureRequest : CaptureRequestWorld;
  w_interceptTabs : InterceptTabsWorld;
  w_extractUrl : ExtractUrlWorld;
  w_directDownload : DirectDownloadWorld
}.

Definition handleToolCall (w : World) (name : string) (args : Args) : M CallToolResult :=
  await (w_ensureBrowser w) ;;
  match ToolName.of_string name with
  | Some ToolName.BrowserNavigate => BrowserNavigate (w_navigate w) args
  | Some ToolName.BrowserScreenshot => BrowserScreenshot (w_screenshot w) args
  | Some ToolName.BrowserClick => BrowserClick (w_page w) args
  | Some ToolName.BrowserClickText => BrowserClickText (w_page w) args
  | Some ToolName.BrowserFill => BrowserFill (w_page w) args
  | Some ToolName.BrowserSelect => BrowserSelect (w_page w) args
  | Some ToolName.BrowserSelectText => BrowserSelectText (w_page w) args
  | Some ToolName.BrowserHover => BrowserHover (w_page w) args
  | Some ToolName.BrowserHoverText => BrowserHoverText (w_page w) args
  | Some ToolName.BrowserEvaluate => BrowserEvaluate (w_evaluate w) args
  | Some ToolName.BrowserClickAndCapture =>
      BrowserClickAndCapture (w_clickAndCapture w) (w_page w) args
  | Some ToolName.BrowserDownloadPDF => BrowserDownloadPDF (w_downloadPDF w) (w_page w) args
  | Some ToolName.BrowserForceDownload =>
      BrowserForceDownload (w_forceDownload w) (w_downloadPage w) args
  | Some ToolName.BrowserAuthenticatedDownload =>
      BrowserAuthenticatedDownload (w_authDownload w) (w_page w) args
  | Some ToolName.BrowserCaptureRequest =>
      BrowserCaptureRequest (w_captureRequest w) (w_page w) args
  | Some ToolName.BrowserInterceptTabs =>
      BrowserInterceptTabs (w_interceptTabs w) (w_page w) args
  | Some ToolName.BrowserClickAndExtractUrl =>
      BrowserClickAndExtractUrl (w_extractUrl w) (w_page w) args
  | Some ToolName.BrowserClickAndDownloadAuthenticated =>
      BrowserClickAndDownloadAuthenticated (w_directDownload w) (w_page w) args
  | None => ret (failure ("Unknown tool: " +:+ name))
  end.

(** ** Observations on a run *)

(** The auxiliary browsing contexts still open after a call. *)
Definition leaked (r : Outcome CallToolResult * State) : list nat := openContexts r.2.

Definition is_attempt (e : Event) : bool :=
  match e with EvAttempt _ _ _ _ => true | _ => false end.

Definition is_perform (e : Event) : bool :=
  match e with EvPerform _ _ _ _ => true | _ => false end.

(** How many times the action was attempted, and how many times it was
    dispatched to an element. *)
Definition attempts (st : State) : nat := length (List.filter is_attempt (trace st)).
Definition performed (st : State) : nat := length (List.filter is_perform (trace st)).


(** ** The tools the server advertises ([TOOLS], the ListTools handler) *)

Inductive SchemaType := TString | TNumber | TBoolean.

(** One entry of [TOOLS]: the name, the properties of the input schema with
    their types, and the required properties. *)
Record Tool := mkTool {
  tool_name : ToolName.t;
  tool_properties : list (string * SchemaType);
  tool_required : list string
}.

Definition TOOLS : list Tool :=
  [ mkTool ToolName.BrowserNavigate [("url", TString)] ["url"];
    mkTool ToolName.BrowserScreenshot
      [("name", TString); ("selector", TString); ("fullPage", TBoolean)] ["name"];
    mkTool ToolName.BrowserClick [("selector", TString)] ["selector"];
    mkTool ToolName.BrowserClickText [("text", TString)] ["text"];
    mkTool ToolName.BrowserFill [("selector", TString); ("value", TString)]
      ["selector"; "value"];
    mkTool ToolName.BrowserSelect [("selector", TString); ("value", TString)]
      ["selector"; "value"];
    mkTool ToolName.BrowserSelectText [("text", TString); ("value", TString)]
      ["text"; "value"];
    mkTool ToolName.BrowserHover [("selector", TString)] ["selector"];
    mkTool ToolName.BrowserHoverText [("text", TString)] ["text"];
    mkTool ToolName.BrowserEvaluate [("script", TString)] ["script"];
    mkTool ToolName.BrowserClickAndCapture
      [("buttonText", TString); ("waitTime", TNumber); ("selector", TString)]
      ["buttonText"];
    mkTool ToolName.BrowserDownloadPDF
      [("buttonText", TString); ("fileName", TString); ("selector", TString);
       ("waitTime", TNumber)]
      ["buttonText"; "fileName"];
    mkTool ToolName.BrowserForceDownload
      [("buttonText", TString); ("fileName", TString); ("fileTypes", TString);
       ("selector", TString); ("waitTime", TNumber)]
      ["buttonText"; "fileName"];
    mkTool ToolName.BrowserAuthenticatedDownload
      [("buttonText", TString); ("fileName", TString); ("selector", TString);
       ("waitTime", TNumber); ("closeNewTabs", TBoolean)]
      ["buttonText"; "fileName"];
    mkTool ToolName.BrowserCaptureRequest
      [("buttonText", TString); ("fileName", TString); ("selector", TString);
       ("waitTime", TNumber); ("blockWindowOpen", TBoolean)]
      ["buttonText"; "fileName"];
    mkTool ToolName.BrowserInterceptTabs
      [("buttonText", TString); ("fileName", TString); ("selector", TString);
       ("waitTime", TNumber)]
      ["buttonText"; "fileName"];
    mkTool ToolName.BrowserClickAndExtractUrl
      [("buttonText", TString); ("selector", TString); ("waitTime", TNumber)]
      ["buttonText"];
    mkTool ToolName.BrowserClickAndDownloadAuthenticated
      [("buttonText", TString); ("selector", TString); ("waitTime", TNumber)]
      ["buttonText"] ].

(** The names a client sees in the answer to ListTools. *)
Definition listTools : list string := map (fun t => ToolName.value (tool_name t)) TOOLS.

(** ** The browser and its console listener ([ensureBrowser]) *)

(** The process around the state of the tools: the module variables
    [browser] and [page], and what [page.on("console", ...)] has registered. *)
Record Process := mkProcess {
  proc_state : State;
  proc_browser : bool;        (* browser !== undefined *)
  proc_page : bool;           (* page !== undefined *)
  proc_listeners : nat;       (* console listeners registered on the page *)
  proc_updated : nat          (* resources/updated notifications for console://logs *)
}.

Definition fresh_process : Process := mkProcess initial false false 0 0.

Record LaunchWorld := mkLaunchWorld {
  lw_launch : Outcome unit;   (* playwright.firefox.launch({ headless: true }) *)
  lw_newPage : Outcome unit   (* browser.newPage() *)
}.

(** [ensureBrowser()]: the browser is launched and the page opened when
    there is none yet, and a console listener is registered on the page at
    every call. *)
Definition ensureBrowser (lw : LaunchWorld) (p : Process) : Outcome unit * Process :=
  match (if proc_browser p then Ok tt else lw_launch lw) with
  | Throw e => (Throw e, p)
  | Ok _ =>
      let p1 := mkProcess (proc_state p) true (proc_page p) (proc_listeners p)
                          (proc_updated p) in
      match (if proc_page p1 then Ok tt else lw_newPage lw) with
      | Throw e => (Throw e, p1)
      | Ok _ =>
          (Ok tt, mkProcess (proc_state p1) true true (S (proc_listeners p1))
                            (proc_updated p1))
      end
  end.

(** [`[${msg.type()}] ${msg.text()}`] *)
Definition logEntry (type text : string) : string := "[" +:+ type +:+ "] " +:+ text.

(** The body of one console listener. *)
Definition console_listener (entry : string) (p : Process) : Process :=
  let st := proc_state p in
  mkProcess
    (mkState (screenshots st) (fileTypeMappings st) (consoleLogs st ++ [entry])
             (hostLog st) (notifications st) (openContexts st) (nextContext st)
             (files st) (dirs st) (trace st))
    (proc_browser p) (proc_page p) (proc_listeners p) (S (proc_updated p)).

(** One console message of the page: every registered listener runs. *)
Definition console_message (type text : string) (p : Process) : Process :=
  Nat.iter (proc_listeners p) (console_listener (logEntry type text)) p.

(** The world of a tool call with the outcome of [ensureBrowser] in it. *)
Definition with_ensureBrowser (o : Outcome unit) (w : World) : World :=
  mkWorld o (w_page w) (w_downloadPage w) (w_navigate w) (w_screenshot w) (w_evaluate w)
    (w_clickAndCapture w) (w_downloadPDF w) (w_forceDownload w) (w_authDownload w)
    (w_captureRequest w) (w_interceptTabs w) (w_extractUrl w) (w_directDownload w).

(** The CallTool handler: [handleToolCall(name, args)], whose first step is
    [ensureBrowser()]. *)
Definition callTool (lw : LaunchWorld) (w : World) (name : string) (args : Args)
    (p : Process) : Outcome CallToolResult * Process :=
  let started := ensureBrowser lw p in
  let run := handleToolCall (with_ensureBrowser started.1 w) name args
               (proc_state started.2) in
  (run.1, mkProcess run.2 (proc_browser started.2) (proc_page started.2)
            (proc_listeners started.2) (proc_updated started.2)).

(** One request to the CallTool handler with what it meets. *)
Record Call := mkCall {
  call_launch : LaunchWorld;
  call_world : World;
  call_name : string;
  call_args : Args
}.

(** A sequence of tool calls. *)
Definition serve (calls : list Call) (p : Process) : Process :=
  foldl (fun q c => (callTool (call_launch c) (call_world c) (call_name c) (call_args c) q).2)
        p calls.

(** ** The install command ([checkPlatformAndInstall]) *)

(** A JSON value; the members of an object are in property order.  Numbers
    are integers here: the code only tests a number for being zero, and a
    fraction is as truthy as a non-zero integer. *)
#[local] Unset Elimination Schemes.
Inductive Json :=
  | JNull
  | JBool (b : bool)
  | JNumber (n : Z)
  | JString (s : string)
  | JArray (items : list Json)
  | JObject (members : list (string * Json)).
#[local] Set Elimination Schemes.

(** Truthiness of a value that came out of [JSON.parse]. *)
Definition json_truthy (v : Json) : bool :=
  match v with
  | JNull => false
  | JBool b => b
  | JNumber n => negb (Z.eqb n 0)
  | JString s => JS.truthy s
  | JArray _ | JObject _ => true
  end.

(** The value of a member, and the members once one is assigned: an
    existing member keeps its place, a new one goes last. *)
Fixpoint member (key : string) (ms : list (string * Json)) : option Json :=
  match ms with
  | [] => None
  | (k, v) :: rest => if String.eqb k key then Some v else member key rest
  end.

Fixpoint assign (key : string) (v : Json) (ms : list (string * Json))
  : list (string * Json) :=
  match ms with
  | [] => [(key, v)]
  | (k, v') :: rest =>
      if String.eqb k key then (k, v) :: rest else (k, v') :: assign key v rest
  end.

(** [target.key]: reading a property of [null] throws; a primitive or an
    array has no such property. *)
Definition js_get (target : Json) (key : string) : Outcome (option Json) :=
  match target with
  | JNull => Throw ("Cannot read properties of null (reading '" +:+ key +:+ "')")
  | JObject ms => Ok (member key ms)
  | _ => Ok None
  end.

(** [target.key = v] in strict code, as the text [JSON.stringify] will show
    it: the assignment throws on a primitive, and a property given to an
    array is no part of its JSON text. *)
Definition js_set (target : Json) (key : string) (v : Json) : Outcome Json :=
  match target with
  | JObject ms => Ok (JObject (assign key v ms))
  | JArray items => Ok (JArray items)
  | JNull => Throw ("Cannot set properties of null (setting '" +:+ key +:+ "')")
  | _ => Throw ("Cannot create property '" +:+ key +:+ "'")
  end.

(** What a file holds: text that parses to a value, or text that does not. *)
Inductive FileContent :=
  | Parsable (value : Json)
  | Garbage.

(** A path as the list of the segments given to [path.join]. *)
Definition Path := list string.

Record InstallWorld := mkInstallWorld {
  in_platform : string;                   (* os.platform() *)
  in_homedir : string;                    (* os.homedir() *)
  (* the message of an error of fs.readFile whose code is not ENOENT *)
  in_readError : option string;
  in_write : nat -> Outcome unit          (* fs.writeFile, at its n-th call *)
}.

(** The outcome of the command: the exit status of the process and the
    files on disk. *)
Record Installed := mkInstalled {
  exit_status : nat;
  disk : gmap Path FileContent
}.

Definition configFilePath (w : InstallWorld) : option Path :=
  if String.eqb (in_platform w) "win32" then
    Some [in_homedir w; "AppData"; "Roaming"; "Claude"; "claude_desktop_config.json"]
  else if String.eqb (in_platform w) "darwin" then
    Some [in_homedir w; "Library"; "Application Support"; "Claude";
          "claude_desktop_config.json"]
  else None.

(** [{ command: "npx", args: ["-y", "@automatalabs/mcp-server-playwright"] }] *)
Definition playwright_entry : Json :=
  JObject [("command", JString "npx");
           ("args", JArray [JString "-y"; JString "@automatalabs/mcp-server-playwright"])].

(** [{ mcpServers: {} }] *)
Definition empty_config : Json := JObject [("mcpServers", JObject [])].

(** [await fs.writeFile(path, JSON.stringify(value, null, 2), 'utf-8')] *)
Definition writeConfig (w : InstallWorld) (n : nat) (path : Path) (value : Json)
    (files : gmap Path FileContent) : Outcome (gmap Path FileContent) :=
  match in_write w n with
  | Ok _ => Ok (<[path := Parsable value]> files)
  | Throw e => Throw e
  end.

(** The inner [try]: the configuration read from the file, or created when
    the file is absent (the error of [readFile] has the code ENOENT).  [inl]
    is [process.exit(1)] in the [catch]: the file cannot be read, or its
    text cannot be parsed. *)
Definition readConfig (w : InstallWorld) (path : Path) (files : gmap Path FileContent)
  : Outcome (unit + Json * gmap Path FileContent * nat) :=
  match in_readError w, files !! path with
  | Some _, _ => Ok (inl tt)
  | None, None =>
      match writeConfig w 0 path empty_config files with
      | Ok files' => Ok (inr (empty_config, files', 1))
      | Throw e => Throw e
      end
  | None, Some Garbage => Ok (inl tt)
  | None, Some (Parsable config) => Ok (inr (config, files, 0))
  end.

(** The lines that put the server into the configuration:
    [if (!config.mcpServers) config.mcpServers = {}] and
    [config.mcpServers.playwright = {...}]. *)
Definition addPlaywright (config : Json) : Outcome Json :=
  match js_get config "mcpServers" with
  | Throw e => Throw e
  | Ok current =>
      let existing :=
        match current with
        | Some servers => if json_truthy servers then Some servers else None
        | None => None
        end in
      match (match existing with
             | Some servers => Ok (config, servers)
             | None =>
                 match js_set config "mcpServers" (JObject []) with
                 | Ok config' => Ok (config', JObject [])
                 | Throw e => Throw e
                 end
             end) with
      | Throw e => Throw e
      | Ok (config', servers) =>
          match js_set servers "playwright" playwright_entry with
          | Throw e => Throw e
          | Ok servers' =>
              (* the object held by the configuration is the one changed *)
              match config' with
              | JObject ms => Ok (JObject (assign "mcpServers" servers' ms))
              | other => Ok other
              end
          end
      end
  end.

(** The command as a whole: the exit status is 1 where the code calls
    [process.exit(1)], and 0 when [checkPlatformAndInstall] returns and its
    caller calls [process.exit(0)]. *)
Definition checkPlatformAndInstall (w : InstallWorld) (files : gmap Path FileContent)
  : Installed :=
  match configFilePath w with
  | None => mkInstalled 1 files
  | Some path =>
      match readConfig w path files with
      | Throw _ => mkInstalled 1 files
      | Ok (inl _) => mkInstalled 1 files
      | Ok (inr (config, files', writes)) =>
          match addPlaywright config with
          | Throw _ => mkInstalled 1 files'
          | Ok config' =>
              match writeConfig w writes path config' files' with
              | Ok files'' => mkInstalled 0 files''
              | Throw _ => mkInstalled 1 files'
              end
          end
      end
  end.
(** ** Definitions used to state the properties *)

(** The three calls every capture path makes to store an artifact with its
    MIME type. *)
Definition store_artifact (name bytes mimeType : string) : M unit :=
  screenshots_set name bytes ;;
  fileTypeMappings_set name mimeType ;;
  notify_list_changed.

(** How many entries of the store carry the name. *)
Definition entries_named (st : State) (name : string) : nat :=
  length (List.filter (fun n => bool_decide (n = name)) (screenshot_names st)).


(** *** Relations between the state before and the state after a handler *)

(** [keeps R m]: whatever the outcome, [m] ends in a state related by [R] to
    the state it started from. *)
Definition keeps (R : State -> State -> Prop) {A} (m : M A) : Prop :=
  forall st, R st (m st).2.

(** [wp m Q st]: run from [st], [m] ends with an outcome and a state that
    satisfy [Q]. *)
Definition wp {A} (m : M A) (Q : Outcome A -> State -> Prop) (st : State) : Prop :=
  Q (m st).1 (m st).2.

Definition same_mappings (st st' : State) : Prop :=
  fileTypeMappings st' = fileTypeMappings st.

Definition same_store (st st' : State) : Prop :=
  screenshots st' = screenshots st /\ fileTypeMappings st' = fileTypeMappings st.

Definition same_files (st st' : State) : Prop :=
  files st' = files st /\ dirs st' = dirs st.

Definition same_contexts (st st' : State) : Prop :=
  openContexts st' = openContexts st /\ nextContext st' = nextContext st.

Definition same_trace (st st' : State) : Prop := trace st' = trace st.

(** The handler only appends events, each of them accepted by [F]. *)
Definition emits_only (F : Event -> bool) (st st' : State) : Prop :=
  exists evs, trace st' = trace st ++ evs /\ forallb F evs = true.

#[global] Instance PageRef_eq_dec : EqDecision PageRef.
Proof. solve_decision. Defined.

#[global] Instance Signal_eq_dec : EqDecision Signal.
Proof. solve_decision. Defined.

(** *** The order of observers and clicks in a trace *)

(** No observer is armed on a page after an action was attempted on that
    page; [clicked] lists the pages already acted on. *)
Fixpoint armed_first (clicked : list PageRef) (evs : list Event) : bool :=
  match evs with
  | [] => true
  | EvArm p _ :: rest => negb (bool_decide (p ∈ clicked)) && armed_first clicked rest
  | EvAttempt p _ _ _ :: rest => armed_first (p :: clicked) rest
  | _ :: rest => armed_first clicked rest
  end.

(** When the first action is attempted, every required observer has been
    armed; [armed] lists the observers armed so far. *)
Fixpoint armed_at_click (armed required : list (PageRef * Signal)) (evs : list Event)
  : bool :=
  match evs with
  | [] => true
  | EvArm p s :: rest => armed_at_click ((p, s) :: armed) required rest
  | EvAttempt _ _ _ _ :: _ => forallb (fun r => bool_decide (r ∈ armed)) required
  | _ :: rest => armed_at_click armed required rest
  end.

Definition observers_first (required : list (PageRef * Signal)) (evs : list Event) : bool :=
  armed_first [] evs && armed_at_click [] required evs.

(** The observers each tool relies on, with the page they watch. *)
Definition observers_of (n : ToolName.t) : list (PageRef * Signal) :=
  match n with
  | ToolName.BrowserClickAndCapture => [(MainPage, NewPageListener)]
  | ToolName.BrowserDownloadPDF => [(MainPage, NewPageListener)]
  | ToolName.BrowserForceDownload => [(AuxPage, RequestListener); (AuxPage, DownloadEvent)]
  | ToolName.BrowserAuthenticatedDownload =>
      [(MainPage, ResponseListener); (MainPage, NewPageListener)]
  | ToolName.BrowserCaptureRequest =>
      [(MainPage, RequestListener); (MainPage, ResponseListener)]
  | ToolName.BrowserInterceptTabs => [(MainPage, NavigationHook)]
  | ToolName.BrowserClickAndExtractUrl =>
      [(MainPage, HookCallback); (MainPage, NavigationHook)]
  | ToolName.BrowserClickAndDownloadAuthenticated => [(MainPage, DownloadEvent)]
  | _ => []
  end.

(** The tools that acquire an artifact after a click. *)
Definition acquisition_variants : list ToolName.t :=
  [ToolName.BrowserClickAndCapture; ToolName.BrowserDownloadPDF;
   ToolName.BrowserForceDownload; ToolName.BrowserAuthenticatedDownload;
   ToolName.BrowserCaptureRequest; ToolName.BrowserInterceptTabs;
   ToolName.BrowserClickAndExtractUrl; ToolName.BrowserClickAndDownloadAuthenticated].

(** Classes of events. *)
Definition is_arm (e : Event) : bool :=
  match e with EvArm _ _ => true | _ => false end.

(** *** Sample worlds *)

(** A page on which every locator resolves to one element and every action
    succeeds. *)
Definition one_match : Dom :=
  mkDom (fun _ => 1) (fun _ _ => Ok tt) (fun _ => "Timeout 30000ms exceeded.").

(** A page on which every locator resolves to two elements. *)
Definition two_matches : Dom :=
  mkDom (fun _ => 2) (fun _ _ => Ok tt) (fun _ => "Timeout 30000ms exceeded.").

(** A page on which no locator resolves. *)
Definition no_match : Dom :=
  mkDom (fun _ => 0) (fun _ _ => Ok tt) (fun _ => "Timeout 30000ms exceeded.").

Definition steady (d : Dom) : Pages := fun _ => d.

(** Two matches at the first attempt, none left at the retry. *)
Definition vanishing : Pages :=
  fun attempt => match attempt with 0 => two_matches | _ => no_match end.

Definition sample_navigate : NavigateWorld := mkNavigateWorld (fun _ => Ok tt).

(** A page that cannot be reached. *)
Definition unreachable : NavigateWorld :=
  mkNavigateWorld (fun _ => Throw "page.goto: net::ERR_NAME_NOT_RESOLVED").

Definition sample_screenshot : ScreenshotWorld :=
  mkScreenshotWorld (fun _ => Ok "iVBORw0KGgo=") (fun _ => Ok "iVBORw0KGgo=").

Definition sample_evaluate : EvaluateWorld :=
  mkEvaluateWorld (fun _ => Ok ("2", [])).

Definition sample_clickAndCapture : ClickAndCaptureWorld :=
  mkClickAndCaptureWorld "https://portal.example/home" 1
    (Some "https://portal.example/cert.pdf") (Ok tt) (Ok tt)
    "https://portal.example/home" 2 (Ok tt) "https://portal.example/cert.pdf".

Definition never_closed : nat -> bool := fun _ => false.

Definition sample_downloadPDF : DownloadPDFWorld :=
  mkDownloadPDFWorld (Some "https://portal.example/view?id=7") (Ok tt) (Ok tt) never_closed
    (Ok true) (Ok "application/pdf") (Ok "iVBORw0KGgo=") (Ok "JVBERi0xLjQ=")
    (Ok tt) (Ok tt) (Ok tt) (Ok tt) (Ok tt) (Ok (Some "/tmp/pw/d1")) (Ok "JVBERi0xLjQ=")
    (Ok tt).

(** The in-page fetch fails, so the direct download in an auxiliary context
    is used. *)
Definition sample_downloadPDF_direct : DownloadPDFWorld :=
  mkDownloadPDFWorld (Some "https://portal.example/view?id=7") (Ok tt) (Ok tt) never_closed
    (Ok true) (Ok "application/pdf") (Ok "iVBORw0KGgo=") (Throw "Failed to fetch PDF: 403")
    (Ok tt) (Ok tt) (Ok tt) (Ok tt) (Ok tt) (Ok (Some "/tmp/pw/d1")) (Ok "JVBERi0xLjQ=")
    (Ok tt).

Definition sample_forceDownload : ForceDownloadWorld :=
  mkForceDownloadWorld (Ok tt) (Ok tt) "https://portal.example/home" (Ok tt)
    ["https://portal.example/api/cert"] (Ok "Certificate.PDF")
    (Ok (Some "/tmp/pw/d1")) (Ok "JVBERi0xLjQ=") 1 (Ok tt) "about:blank"
    (Ok "JVBERi0xLjQ=") false (Ok "JVBERi0xLjQ=") (Ok tt) (Ok tt)
    (Ok ("JVBERi0xLjQ=", "application/pdf")).

(** The browser reports a download whose file is empty. *)
Definition empty_download : ForceDownloadWorld :=
  mkForceDownloadWorld (Ok tt) (Ok tt) "https://portal.example/home" (Ok tt)
    [] (Ok "report.pdf") (Ok (Some "/tmp/pw/d1")) (Ok EmptyString) 1 (Ok tt)
    "about:blank" (Ok EmptyString) false (Ok EmptyString) (Ok tt) (Ok tt)
    (Ok (EmptyString, EmptyString)).

Definition sample_authDownload : AuthDownloadWorld :=
  mkAuthDownloadWorld "https://portal.example/home" (Ok tt) (Ok []) (Ok tt)
    ["https://portal.example/files/cert.pdf"] None "text/html" false (Ok None)
    "https://portal.example/home" (Ok []) (Ok tt) (Ok tt) (Ok tt) (Ok tt) (Ok None)
    (Ok tt) (Ok tt) (Ok (Some "/tmp/pw/d1")) (Ok "JVBERi0xLjQ=") false (Ok tt).

Definition pdf_response : NetResponse :=
  mkNetResponse "https://portal.example/export?format=pdf" 200
    [("Content-Type", "application/pdf")].

Definition xhr_request : NetRequest :=
  mkNetRequest "https://portal.example/api/export" "xhr" "POST".

Definition sample_captureRequest : CaptureRequestWorld :=
  mkCaptureRequestWorld (Ok tt) (Ok []) (Ok tt) [xhr_request] [pdf_response]
    (fun _ _ => Ok (Some "JVBERi0xLjQ=")) (Ok []) (fun _ _ => Ok None) [] []
    (fun _ _ => Ok None).

(** A PDF response is recorded, its fetch yields nothing, and the page is
    gone when the links are read again. *)
Definition context_destroyed : CaptureRequestWorld :=
  mkCaptureRequestWorld (Ok tt) (Ok []) (Ok tt) [xhr_request] [pdf_response]
    (fun _ _ => Ok None) (Throw "page.evaluate: Execution context was destroyed")
    (fun _ _ => Ok None) [] [] (fun _ _ => Ok (Some "JVBERi0xLjQ=")).

(** Every candidate is found and none can be fetched. *)
Definition nothing_fetched : CaptureRequestWorld :=
  mkCaptureRequestWorld (Ok tt) (Ok []) (Ok tt) [xhr_request] [pdf_response]
    (fun _ _ => Throw "page.evaluate: Failed to fetch") (Ok [])
    (fun _ _ => Ok None) [] [] (fun _ _ => Ok None).

Definition sample_interceptTabs : InterceptTabsWorld :=
  mkInterceptTabsWorld (Ok true) (Ok tt) (Ok tt) (Ok tt)
    (Ok (["https://portal.example/report/42"], Some "https://portal.example/report/42"))
    (Ok []) (Ok tt) (Ok tt) (Ok tt) (Ok tt) (Ok tt) (Ok None) (Ok tt) (Ok tt)
    (Ok (Some "/tmp/pw/d1")) (Ok "JVBERi0xLjQ=").

(** The hook reports [file.pdf] 120 ms into the wait. *)
Definition sample_extractUrl : ExtractUrlWorld :=
  mkExtractUrlWorld (Ok true) (Ok tt) (Ok tt)
    [(40%N, "https://portal.example/session"); (120%N, "https://portal.example/file.pdf")]
    (Ok ([], None)) (Ok []).

Definition sample_directDownload : DirectDownloadWorld :=
  mkDirectDownloadWorld (Ok "certificado.pdf") "JVBERi0xLjQ=" (Ok (Some "/tmp/pw/d1"))
    (Ok tt) 4 17 2025 (Ok tt) (Ok tt) (Ok tt).

(** The temporary file cannot be deleted. *)
Definition undeletable : DirectDownloadWorld :=
  mkDirectDownloadWorld (Ok "certificado.pdf") "JVBERi0xLjQ=" (Ok (Some "/tmp/pw/d1"))
    (Ok tt) 4 17 2025 (Ok tt) (Ok tt) (Throw "EPERM: operation not permitted").

Definition sample_world : World :=
  mkWorld (Ok tt) (steady one_match) (steady one_match) sample_navigate sample_screenshot
    sample_evaluate sample_clickAndCapture sample_downloadPDF sample_forceDownload
    sample_authDownload sample_captureRequest sample_interceptTabs sample_extractUrl
    sample_directDownload.

Definition sample_args : Args :=
  mkArgs "https://portal.example" "shot" None None "Descargar" EmptyString EmptyString
         "Descargar" "report" None None None None.

(** [returns P m]: whenever [m] returns a value, the value satisfies [P]. *)
Definition returns {A} (P : A -> Prop) (m : M A) : Prop :=
  forall st, match (m st).1 with Ok a => P a | Throw _ => True end.

(** [total m]: [m] never throws. *)
Definition total {A} (m : M A) : Prop :=
  forall st, exists a, (m st).1 = Ok a.

(** *** The click tools *)

(** BrowserClick locates by selector, BrowserClickText by text. *)
Inductive ClickVariant := BySelector | ByLabel.

Definition click_tool (v : ClickVariant) : Pages -> Args -> M CallToolResult :=
  match v with
  | BySelector => BrowserClick
  | ByLabel => BrowserClickText
  end.

(** The locator each of them builds from its arguments. *)
Definition click_target (v : ClickVariant) (args : Args) : Locator :=
  match v with
  | BySelector => Css (JS.show (arg_selector args))
  | ByLabel => ByText (arg_text args)
  end.

(** The outcome of one attempt on a page: the value of the locator call. *)
Definition attempt_outcome (d : Dom) (a : Action) (l : Locator) (first : bool)
  : Outcome unit :=
  (locator_act MainPage d a l first initial).1.

Definition threw {A} (o : Outcome A) : bool :=
  match o with Ok _ => false | Throw _ => true end.

(** The state with more events in its trace, or more lines in the host log. *)
Definition with_events (st : State) (evs : list Event) : State :=
  mkState (screenshots st) (fileTypeMappings st) (consoleLogs st) (hostLog st)
          (notifications st) (openContexts st) (nextContext st) (files st) (dirs st)
          (trace st ++ evs).

Definition with_log (st : State) (lines : list string) : State :=
  mkState (screenshots st) (fileTypeMappings st) (consoleLogs st) (hostLog st ++ lines)
          (notifications st) (openContexts st) (nextContext st) (files st) (dirs st)
          (trace st).

(** The events of one attempt: the attempt, and the dispatch when the
    locator resolves to one element, or to several and [first] is taken. *)
Definition attempt_events (p : PageRef) (d : Dom) (a : Action) (l : Locator) (first : bool)
  : list Event :=
  EvAttempt p a l first ::
  match matches d l with
  | 0 => []
  | 1 => [EvPerform p a l 0]
  | _ => if first then [EvPerform p a l 0] else []
  end.

(** The [catch] of BrowserClickAndExtractUrl. *)
Definition extractUrl_catch (error : string) : M CallToolResult :=
  ret (failure ("Error during URL extraction: " +:+ error)).

(** The selector BrowserClickAndExtractUrl and BrowserInterceptTabs click. *)
Definition link_button (args : Args) : Locator :=
  Css (buttonSelector (selector_or args "button, a") args).

(** The click of BrowserClickAndDownloadAuthenticated. *)
Definition download_button (args : Args) : string :=
  buttonSelector (selector_or args "button, a, input[type=button], input[type=submit]") args.

(** The page BrowserForceDownload clicks shows two matching buttons, and
    none is left when the click is retried. *)
Definition retry_fails : World :=
  mkWorld (Ok tt) (steady one_match) vanishing sample_navigate sample_screenshot
    sample_evaluate sample_clickAndCapture sample_downloadPDF sample_forceDownload
    sample_authDownload sample_captureRequest sample_interceptTabs sample_extractUrl
    sample_directDownload.

(** The host of the URL to visit does not resolve. *)
Definition host_unknown : World :=
  mkWorld (Ok tt) (steady one_match) (steady one_match) unreachable sample_screenshot
    sample_evaluate sample_clickAndCapture sample_downloadPDF sample_forceDownload
    sample_authDownload sample_captureRequest sample_interceptTabs sample_extractUrl
    sample_directDownload.

(** The browser cannot be launched. *)
Definition no_browser : World :=
  mkWorld (Throw "browserType.launch: Executable doesn't exist")
    (steady one_match) (steady one_match) sample_navigate sample_screenshot
    sample_evaluate sample_clickAndCapture sample_downloadPDF sample_forceDownload
    sample_authDownload sample_captureRequest sample_interceptTabs sample_extractUrl
    sample_directDownload.

(** The tools whose [case] has no [try] around its awaited calls. *)
Definition unguarded (n : ToolName.t) : bool :=
  match n with
  | ToolName.BrowserNavigate | ToolName.BrowserScreenshot => true
  | _ => false
  end.

(** The state once a new auxiliary context is open. *)
Definition opened (st : State) : State :=
  mkState (screenshots st) (fileTypeMappings st) (consoleLogs st) (hostLog st)
          (notifications st) (nextContext st :: openContexts st) (S (nextContext st))
          (files st) (dirs st) (trace st ++ [EvOpenContext (nextContext st)]).

(** The [catch] of BrowserForceDownload. *)
Definition forceDownload_catch (error : string) : M CallToolResult :=
  ret (failure ("Failed to force download: " +:+ error)).

(** The button the acquisition tools click by default. *)
Definition link_selector (args : Args) : string :=
  buttonSelector (selector_or args "button, a") args.

(** *** Following the observers along a trace *)

(** What has been armed and which pages have been acted on so far. *)
Record Obs := mkObs {
  armed : list (PageRef * Signal);
  clicked : list PageRef
}.

(** One event, refused when it arms an observer on a page already acted on
    or attempts an action before every required observer is armed. *)
Definition observe (required : list (PageRef * Signal)) (o : Obs) (e : Event)
  : option Obs :=
  match e with
  | EvArm p s =>
      if bool_decide (p ∈ clicked o) then None
      else Some (mkObs ((p, s) :: armed o) (clicked o))
  | EvAttempt p _ _ _ =>
      if forallb (fun r => bool_decide (r ∈ armed o)) required
      then Some (mkObs (armed o) (p :: clicked o))
      else None
  | _ => Some o
  end.

Fixpoint observe_all (required : list (PageRef * Signal)) (o : Obs) (evs : list Event)
  : option Obs :=
  match evs with
  | [] => Some o
  | e :: rest =>
      match observe required o e with
      | Some o' => observe_all required o' rest
      | None => None
      end
  end.

(** A bound on what has happened: the pages acted on are among [bound_clicked],
    the observers of [bound_armed] are armed. *)
Record Bound := mkBound {
  bound_clicked : list PageRef;
  bound_armed : list (PageRef * Signal)
}.

Definition within (o : Obs) (b : Bound) : Prop :=
  (forall p, p ∈ clicked o -> p ∈ bound_clicked b) /\
  (forall r, r ∈ bound_armed b -> r ∈ armed o).

(** [weaker b b']: whatever is within [b] is within [b']. *)
Definition weaker (b b' : Bound) : bool :=
  forallb (fun p => bool_decide (p ∈ bound_clicked b')) (bound_clicked b) &&
  forallb (fun r => bool_decide (r ∈ bound_armed b)) (bound_armed b').

(** The events since the trace [t0] are accepted and are within [b]. *)
Definition tracked (required : list (PageRef * Signal)) (t0 : list Event) (b : Bound)
    (st : State) : Prop :=
  exists evs o,
    trace st = t0 ++ evs /\
    observe_all required (mkObs [] []) evs = Some o /\
    within o b.

(** From a state tracked within [b], the handler ends in a state tracked
    within [b']. *)
Definition safe (required : list (PageRef * Signal)) (b : Bound) {A} (m : M A)
    (b' : Bound) : Prop :=
  forall t0 st, tracked required t0 b st -> tracked required t0 b' (m st).2.

(** Events that neither arm an observer nor attempt an action. *)
Definition harmless (e : Event) : bool :=
  match e with
  | EvArm _ _ | EvAttempt _ _ _ _ => false
  | _ => true
  end.

Definition nothing_yet : Bound := mkBound [] [].

(** The bound that says nothing. *)
Definition anything : Bound := mkBound [MainPage; AuxPage; NewTab] [].

(** Events other than an action attempted on the page [p]. *)
Definition no_attempt_on (p : PageRef) (e : Event) : bool :=
  match e with
  | EvAttempt q _ _ _ => negb (bool_decide (q = p))
  | _ => true
  end.

(** *** The scan of BrowserCaptureRequest *)

(** Whether an evaluation in the page gave bytes. *)
Definition yields (o : Outcome (option string)) : bool :=
  match o with
  | Ok bytes => truthy_opt bytes
  | Throw _ => false
  end.

Definition response_yields (w : CaptureRequestWorld) (c : nat * NetResponse) : bool :=
  yields (cr_fetchResponse w c.1 (resp_url c.2)).

Definition link_yields (w : CaptureRequestWorld) (c : nat * string) : bool :=
  yields (cr_fetchLink w c.1 c.2).

Definition xhr_yields (w : CaptureRequestWorld) (c : nat * NetRequest) : bool :=
  yields (cr_fetchXhr w c.1 (req_url c.2)).

(** The candidates that get attempted: all of them up to the first that
    gives bytes. *)
Fixpoint tried {A} (gives : A -> bool) (candidates : list A) : list A :=
  match candidates with
  | [] => []
  | c :: rest => if gives c then [c] else c :: tried gives rest
  end.

(** The lines the attempt on one recorded response leaves in the host log. *)
Definition response_lines (w : CaptureRequestWorld) (c : nat * NetResponse) : list string :=
  ("Attempting to download PDF from response: " +:+ resp_url c.2) ::
  match cr_fetchResponse w c.1 (resp_url c.2) with
  | Throw err => ["Error downloading PDF from response: " +:+ err]
  | Ok _ => []
  end.

(** The URL a failure should still carry: the most recent PDF response, else
    the first new link, else the most recent XHR or fetch candidate. *)
Definition best_known_url (pdfResponses : list NetResponse) (pdfLinks : list string)
    (potentialPdfRequests : list NetRequest) : option string :=
  match last pdfResponses with
  | Some r => Some (resp_url r)
  | None =>
      match pdfLinks with
      | link :: _ => Some link
      | [] => req_url <$> last potentialPdfRequests
      end
  end.

(** The host log only grows. *)
Definition log_extends (st st' : State) : Prop :=
  exists lines, hostLog st' = hostLog st ++ lines.

(** The result of a successful attempt on a recorded response. *)
Definition response_result (args : Args) (c : nat * NetResponse) : CallToolResult :=
  success ("Successfully downloaded PDF " +:+ dquote +:+ arg_fileName args +:+ dquote
           +:+ " from network request to " +:+ resp_url c.2).

(** ** What the tools leave alone *)

Definition same_console (st st' : State) : Prop := consoleLogs st' = consoleLogs st.

(** The tools whose [case] writes to [screenshots]. *)
Definition writes_store (n : ToolName.t) : bool :=
  match n with
  | ToolName.BrowserScreenshot | ToolName.BrowserDownloadPDF
  | ToolName.BrowserForceDownload | ToolName.BrowserAuthenticatedDownload
  | ToolName.BrowserCaptureRequest | ToolName.BrowserInterceptTabs => true
  | _ => false
  end.

(** ** Auxiliary contexts *)

(** Context identifiers are handed out in increasing order: the open ones
    are below the next one. *)
Definition contexts_fresh (st : State) : Prop :=
  Forall (fun c => c < nextContext st) (openContexts st).

(** The open contexts are as before, although new ones may have been opened
    and closed in between. *)
Definition contexts_restored (st st' : State) : Prop :=
  contexts_fresh st -> contexts_fresh st' /\ openContexts st' = openContexts st.

(** Nothing is opened, and nothing closed but the context [id]. *)
Definition closes_at_most (id : nat) (st st' : State) : Prop :=
  nextContext st' = nextContext st /\
  (openContexts st' = openContexts st \/
   openContexts st' = filter (fun c => c ≠ id) (openContexts st)).

Definition closed (id : nat) (st : State) : Prop := id ∉ openContexts st.

(** [ends_with P m]: when [m] returns, the state satisfies [P]. *)
Definition ends_with (P : State -> Prop) {A} (m : M A) : Prop :=
  forall st, match (m st).1 with Ok _ => P (m st).2 | Throw _ => True end.

(** [always_with P m]: [m] ends in a state that satisfies [P], whether it
    returns or throws. *)
Definition always_with (P : State -> Prop) {A} (m : M A) : Prop :=
  forall st, P (m st).2.

(** ** Writes to the store and the result of the call *)

(** Results that report success. *)
Definition succeeded (r : CallToolResult) : bool := negb (isError r).

Definition succeeded_opt (r : option CallToolResult) : bool :=
  match r with
  | Some result => succeeded result
  | None => false
  end.

(** Values that are no result of the call. *)
Definition no_result {A} (a : A) : bool := false.

(** [store_guarded flag m]: [m] leaves the store as it was unless it returns
    a value that [flag] accepts. *)
Definition store_guarded {A} (flag : A -> bool) (m : M A) : Prop :=
  forall st, same_store st (m st).2 \/ exists a, (m st).1 = Ok a /\ flag a = true.

(** [surely flag m]: [m] returns a value that [flag] accepts. *)
Definition surely {A} (flag : A -> bool) (m : M A) : Prop :=
  forall st, exists a, (m st).1 = Ok a /\ flag a = true.

(** [returns_in Q m]: when [m] returns, the value and the state satisfy [Q]. *)
Definition returns_in {A} (Q : A -> State -> Prop) (m : M A) : Prop :=
  forall st, match (m st).1 with Ok a => Q a (m st).2 | Throw _ => True end.

(** The store holds a non-empty PDF under [name]. *)
Definition holds_pdf (name : string) (st : State) : Prop :=
  exists bytes, bytes ≠ EmptyString /\
    screenshots st !! name = Some bytes /\
    fileTypeMappings st !! name = Some "application/pdf".

(** ** The tools that act on one element *)

(** The five tools that fill, select or hover; the two click tools are
    [ClickVariant]. *)
Inductive LocatorTool := ToFill | ToSelect | ToSelectText | ToHover | ToHoverText.

Definition locator_tool (t : LocatorTool) : Pages -> Args -> M CallToolResult :=
  match t with
  | ToFill => BrowserFill
  | ToSelect => BrowserSelect
  | ToSelectText => BrowserSelectText
  | ToHover => BrowserHover
  | ToHoverText => BrowserHoverText
  end.

Definition locator_action (t : LocatorTool) (args : Args) : Action :=
  match t with
  | ToFill => DoFill (arg_value args)
  | ToSelect | ToSelectText => DoSelect (arg_value args)
  | ToHover | ToHoverText => DoHover
  end.

Definition locator_target (t : LocatorTool) (args : Args) : Locator :=
  match t with
  | ToFill | ToSelect | ToHover => Css (JS.show (arg_selector args))
  | ToSelectText | ToHoverText => ByText (arg_text args)
  end.

(** Whether the first attempt ended in a strictness error. *)
Definition asks_retry (first : Outcome unit) : bool :=
  match first with
  | Throw e => is_strict_violation e
  | Ok _ => false
  end.

(** ** The screenshot tool *)

(** The call BrowserScreenshot awaits: the element when a selector is given,
    the page otherwise. *)
Definition chosen_screenshot (w : ScreenshotWorld) (args : Args) : Outcome string :=
  if JS.truthy (default EmptyString (arg_selector args))
  then shot_element w (default EmptyString (arg_selector args))
  else shot_page w (bool_decide (arg_fullPage args = Some "true")).

(** A state that already holds a PDF under the name the sample arguments
    give to a screenshot. *)
Definition pdf_under_shot : State := (store_artifact "shot" "JVBERi0x" "application/pdf" initial).2.

(** ** The direct download *)

(** What the [catch] of BrowserClickAndDownloadAuthenticated answers to an
    error message. *)
Definition download_failure (args : Args) (error : string) : CallToolResult :=
  if JS.includes error "Timeout"
  then failure ("Failed to download: No download started within the time limit "
                +:+ "after clicking " +:+ dquote +:+ arg_buttonText args +:+ dquote +:+ ".")
  else failure ("Error during download: " +:+ error).

(** The disk is full when the copy is written. *)
Definition disk_full : DirectDownloadWorld :=
  mkDirectDownloadWorld (Ok "cert.pdf") "JVBERi0xLjQ=" (Ok (Some "/tmp/pw/d1")) (Ok tt)
    10 2 2026 (Ok tt) (Throw "ENOSPC: no space left on device, write") (Ok tt).

(** [reaches Pre m Post]: from a state that satisfies [Pre], [m] returns, and
    the value and the state satisfy [Post]. *)
Definition reaches (Pre : State -> Prop) {A} (m : M A) (Post : A -> State -> Prop) : Prop :=
  forall st, Pre st -> exists a, (m st).1 = Ok a /\ Post a (m st).2.

(** A result was returned only after the context was closed. *)
Definition closed_if_some {A} (id : nat) (r : option A) (st : State) : Prop :=
  is_Some r -> closed id st.

(** The click of BrowserForceDownload needs no retry, or its retry succeeds. *)
Definition retry_succeeds (page : Pages) (args : Args) : Prop :=
  forall e,
    attempt_outcome (page 0) DoClick (Css (link_selector args)) false = Throw e ->
    is_strict_violation e = true ->
    attempt_outcome (page 1) DoClick (Css (link_selector args)) true = Ok tt.

(** ** Notifications *)

(** The count of list_changed notifications does not go down. *)
Definition counts_up (st st' : State) : Prop := notifications st <= notifications st'.

(** A change of [screenshots] comes with a list_changed notification. *)
Definition announced (st st' : State) : Prop :=
  notifications st <= notifications st' /\
  (screenshots st' = screenshots st \/ notifications st < notifications st').

(** ** The tab that is no PDF *)

(** [contentType] as BrowserDownloadPDF reports it: [unknown] when the
    evaluation fails. *)
Definition reported_contentType (w : DownloadPDFWorld) : string :=
  match pdf_contentType w with
  | Ok contentType => contentType
  | Throw _ => "unknown"
  end.

(** The new tab shows a page of HTML. *)
Definition html_tab : DownloadPDFWorld :=
  mkDownloadPDFWorld (Some "https://portal.example/login") (Ok tt) (Ok tt) never_closed
    (Ok false) (Ok "text/html") (Ok "iVBORw0KGgo=") (Ok "PGh0bWw+")
    (Ok tt) (Ok tt) (Ok tt) (Ok tt) (Ok tt) (Ok (Some "/tmp/pw/d1")) (Ok "JVBERi0xLjQ=")
    (Ok tt).

(** ** The install command *)

(** The servers a configuration object declares: those of its [mcpServers]
    object, none when the member is absent or falsy; [None] when the member
    is something else. *)
Definition servers_of (ms : list (string * Json)) : option (list (string * Json)) :=
  match member "mcpServers" ms with
  | Some (JObject servers) => Some servers
  | Some v => if json_truthy v then None else Some []
  | None => Some []
  end.

(** Configurations the command gives up on: [null], a primitive, or an
    object whose [mcpServers] is a truthy primitive. *)
Definition unusable (config : Json) : bool :=
  match config with
  | JNull | JBool _ | JNumber _ | JString _ => true
  | JArray _ => false
  | JObject ms =>
      match member "mcpServers" ms with
      | Some (JBool b) => b
      | Some (JNumber n) => negb (Z.eqb n 0)
      | Some (JString s) => JS.truthy s
      | _ => false
      end
  end.

(** A Mac on which every write succeeds. *)
Definition mac : InstallWorld :=
  mkInstallWorld "darwin" "/Users/ana" None (fun _ => Ok tt).

Definition mac_config : Path :=
  ["/Users/ana"; "Library"; "Application Support"; "Claude"; "claude_desktop_config.json"].

(** A configuration that declares another server and a setting. *)
Definition other_server : list (string * Json) :=
  [("theme", JString "dark");
   ("mcpServers", JObject [("files", JObject [("command", JString "mcp-files")])])].

Definition mac_files : gmap Path FileContent :=
  {[mac_config := Parsable (JObject other_server)]}.
(** * Properties *)

(** ** Strings *)

Lemma app_snoc_cons (a : string) (c : ascii) (b : string) :
  (a +:+ String c EmptyString) +:+ b = a +:+ String c b.
Proof.
  induction a as [|x a IH]; [reflexivity|].
  change (String x ((a +:+ String c EmptyString) +:+ b) = String x (a +:+ String c b)).
  by rewrite IH.
Qed.

Lemma app_empty_r (a : string) : a +:+ EmptyString = a.
Proof.
  induction a as [|x a IH]; [reflexivity|].
  change (String x (a +:+ EmptyString) = String x a). by rewrite IH.
Qed.

(** A string free of the separator is a single piece. *)
Lemma split_go_no_sep (sep s cur : string) :
  JS.includes s sep = false -> JS.split_go sep 0 cur s = [cur +:+ s].
Proof.
  revert cur. induction s as [|c s IH]; intros cur H.
  - simpl. by rewrite app_empty_r.
  - cbn [JS.includes] in H. apply orb_false_iff in H as [Hp Hi].
    cbn [JS.split_go]. rewrite Hp, (IH _ Hi). by rewrite app_snoc_cons.
Qed.

(** The reader recovers the name from the URI the listing builds for it. *)
Lemma screenshot_uri_name (name : string) :
  JS.includes name "://" = false ->
  JS.split ("screenshot://" +:+ name) "://" !! 1 = Some name.
Proof.
  intros H.
  change (JS.split ("screenshot://" +:+ name) "://")
    with ("screenshot" :: JS.split_go "://" 0 EmptyString name).
  by rewrite (split_go_no_sep _ _ _ H).
Qed.

Lemma screenshot_uri_prefix (name : string) :
  JS.startsWith ("screenshot://" +:+ name) "screenshot://" = true.
Proof. reflexivity. Qed.

Lemma screenshot_uri_not_logs (uri : string) :
  JS.startsWith uri "screenshot://" = true -> String.eqb uri "console://logs" = false.
Proof.
  intros H. apply String.eqb_neq. intros ->. discriminate H.
Qed.

(** ** The artifact store *)

Lemma filter_eq_NoDup (l : list string) (x : string) :
  NoDup l -> x ∈ l -> length (List.filter (fun n => bool_decide (n = x)) l) = 1.
Proof.
  induction 1 as [|y l Hy Hnd IH]; intros Hin.
  - by apply elem_of_nil in Hin.
  - cbn [List.filter]. apply elem_of_cons in Hin as [-> | Hin].
    + rewrite bool_decide_eq_true_2 by done. cbn. f_equal.
      clear IH Hnd. induction l as [|z l IHl]; [done|].
      cbn [List.filter]. rewrite bool_decide_eq_false_2.
      * apply IHl. intros ?. apply Hy. by right.
      * intros ->. apply Hy. by left.
    + rewrite bool_decide_eq_false_2; [by apply IH|].
      intros ->. by apply Hy.
Qed.

Lemma entries_named_stored (st : State) (name bytes : string) :
  screenshots st !! name = Some bytes -> entries_named st name = 1.
Proof.
  intros H. unfold entries_named, screenshot_names. apply filter_eq_NoDup.
  - apply NoDup_fst_map_to_list.
  - apply list_elem_of_fmap. exists (name, bytes). split; [done|].
    by apply elem_of_map_to_list.
Qed.

Lemma readResource_stored (st : State) (uri name shot : string) :
  JS.startsWith uri "screenshot://" = true ->
  JS.split uri "://" !! 1 = Some name ->
  screenshots st !! name = Some shot ->
  JS.truthy shot = true ->
  readResource st uri = Ok [BlobResource uri (resource_mimeType st name) shot].
Proof.
  intros Hp Hn Hs Ht. unfold readResource.
  rewrite (screenshot_uri_not_logs _ Hp), Hp, Hn, Hs, Ht. reflexivity.
Qed.

Lemma truthy_nonempty (s : string) : s ≠ EmptyString -> JS.truthy s = true.
Proof. by destruct s. Qed.

Lemma or_else_nonempty (a b : string) : a ≠ EmptyString -> JS.or_else a b = a.
Proof. intros H. unfold JS.or_else. by rewrite truthy_nonempty. Qed.

Lemma store_artifact_screenshots (st : State) (name bytes mimeType : string) :
  screenshots (store_artifact name bytes mimeType st).2 = <[name := bytes]> (screenshots st).
Proof. reflexivity. Qed.

Lemma store_artifact_mappings (st : State) (name bytes mimeType : string) :
  fileTypeMappings (store_artifact name bytes mimeType st).2
  = <[name := mimeType]> (fileTypeMappings st).
Proof. reflexivity. Qed.

Lemma readResource_after_store (st : State) (name bytes mimeType : string) :
  JS.includes name "://" = false ->
  bytes ≠ EmptyString ->
  mimeType ≠ EmptyString ->
  readResource (store_artifact name bytes mimeType st).2 ("screenshot://" +:+ name)
  = Ok [BlobResource ("screenshot://" +:+ name) mimeType bytes].
Proof.
  intros Hname Hbytes Hmime.
  rewrite (readResource_stored _ _ name bytes).
  - unfold resource_mimeType. rewrite store_artifact_mappings, lookup_insert_eq.
    cbn [default]. by rewrite or_else_nonempty.
  - apply screenshot_uri_prefix.
  - by apply screenshot_uri_name.
  - by rewrite store_artifact_screenshots, lookup_insert_eq.
  - by apply truthy_nonempty.
Qed.

(** C4, as amended.  For every name free of [://], every non-empty payload
    and every non-empty MIME type: an artifact stored under the name is read
    back through [screenshot://name] with exactly those bytes and that MIME
    type; storing a second non-empty payload under the same name leaves
    exactly one entry for the name, and the reader then returns the second
    payload with the second MIME type (last write wins). *)
Theorem store_roundtrip (st : State) (name bytes mimeType bytes2 mimeType2 : string) :
  JS.includes name "://" = false ->
  bytes ≠ EmptyString -> mimeType ≠ EmptyString ->
  bytes2 ≠ EmptyString -> mimeType2 ≠ EmptyString ->
  let uri := "screenshot://" +:+ name in
  let st1 := (store_artifact name bytes mimeType st).2 in
  let st2 := (store_artifact name bytes2 mimeType2 st1).2 in
  readResource st1 uri = Ok [BlobResource uri mimeType bytes] ∧
  entries_named st2 name = 1 ∧
  screenshots st2 !! name = Some bytes2 ∧
  readResource st2 uri = Ok [BlobResource uri mimeType2 bytes2].
Proof.
  intros Hname Hb Hm Hb2 Hm2 uri st1 st2.
  assert (Hst2 : screenshots st2 !! name = Some bytes2).
  { subst st2. by rewrite store_artifact_screenshots, lookup_insert_eq. }
  split; [by apply readResource_after_store|].
  split; [by apply (entries_named_stored _ _ bytes2)|].
  split; [done|]. by apply readResource_after_store.
Qed.

Lemma store_roundtrip_witness :
  let st1 := (store_artifact "report" "JVBERi0x" "application/pdf" initial).2 in
  let st2 := (store_artifact "report" "JVBERi0y" "application/pdf" st1).2 in
  readResource st1 "screenshot://report"
    = Ok [BlobResource "screenshot://report" "application/pdf" "JVBERi0x"] ∧
  entries_named st2 "report" = 1 ∧
  screenshots st2 !! "report" = Some "JVBERi0y" ∧
  readResource st2 "screenshot://report"
    = Ok [BlobResource "screenshot://report" "application/pdf" "JVBERi0y"].
Proof.
  apply (store_roundtrip initial "report" "JVBERi0x" "application/pdf"
                         "JVBERi0y" "application/pdf");
    [reflexivity | discriminate..].
Defined.

(** C4 as stated fails on the empty payload: the bytes are stored, and the
    reader, which tests the stored string for truthiness, answers that the
    resource does not exist. *)
Lemma roundtrip_empty_payload :
  let st1 := (store_artifact "report" EmptyString "application/pdf" initial).2 in
  screenshots st1 !! "report" = Some EmptyString ∧
  readResource st1 "screenshot://report" = Throw "Resource not found: screenshot://report".
Proof.
  cbn zeta. split; [by rewrite store_artifact_screenshots, lookup_insert_eq|].
  unfold readResource. cbn [String.eqb]. 
  vm_compute. reflexivity.
Qed.

(** ** Rules for [keeps] *)

Section keeps_rules.
Context (R : State -> State -> Prop) {Hrefl : Reflexive R} {Htrans : Transitive R}.

Lemma keeps_ret {A} (a : A) : keeps R (ret a).
Proof. intros st. apply Hrefl. Qed.

Lemma keeps_throw {A} (e : string) : keeps R (@throw A e).
Proof. intros st. apply Hrefl. Qed.

Lemma keeps_await {A} (o : Outcome A) : keeps R (await o).
Proof. intros st. apply Hrefl. Qed.

Lemma keeps_gets {A} (f : State -> A) : keeps R (gets f).
Proof. intros st. apply Hrefl. Qed.

Lemma keeps_bind {A B} (m : M A) (k : A -> M B) :
  keeps R m -> (forall a, keeps R (k a)) -> keeps R (bind m k).
Proof.
  intros Hm Hk st. unfold bind. specialize (Hm st).
  destruct (m st) as [[a|e] st']; [|exact Hm].
  eapply Htrans; [exact Hm | apply Hk].
Qed.

Lemma keeps_try_catch {A} (m : M A) (h : string -> M A) :
  keeps R m -> (forall e, keeps R (h e)) -> keeps R (try_catch m h).
Proof.
  intros Hm Hh st. unfold try_catch. specialize (Hm st).
  destruct (m st) as [[a|e] st']; [exact Hm|].
  eapply Htrans; [exact Hm | apply Hh].
Qed.

Lemma keeps_first_result {C} (attempt : C -> M (option CallToolResult))
    (candidates : list C) :
  (forall c, keeps R (attempt c)) -> keeps R (first_result attempt candidates).
Proof.
  intros Ha. induction candidates as [|c rest IH]; cbn [first_result].
  - apply keeps_ret.
  - apply keeps_bind; [apply Ha|]. intros [r|]; [apply keeps_ret | exact IH].
Qed.
End keeps_rules.

Lemma keeps_modify (R : State -> State -> Prop) (f : State -> State) :
  (forall st, R st (f st)) -> keeps R (modify f).
Proof. intros H st. apply H. Qed.

#[global] Instance same_mappings_refl : Reflexive same_mappings.
Proof. by intros st. Qed.
#[global] Instance same_mappings_trans : Transitive same_mappings.
Proof. unfold same_mappings. intros a b c H1 H2. congruence. Qed.

#[global] Instance same_store_refl : Reflexive same_store.
Proof. by intros st. Qed.
#[global] Instance same_store_trans : Transitive same_store.
Proof. unfold same_store. intros a b c [] []. split; congruence. Qed.

#[global] Instance same_files_refl : Reflexive same_files.
Proof. by intros st. Qed.
#[global] Instance same_files_trans : Transitive same_files.
Proof. unfold same_files. intros a b c [] []. split; congruence. Qed.

#[global] Instance same_contexts_refl : Reflexive same_contexts.
Proof. by intros st. Qed.
#[global] Instance same_contexts_trans : Transitive same_contexts.
Proof. unfold same_contexts. intros a b c [] []. split; congruence. Qed.

#[global] Instance same_trace_refl : Reflexive same_trace.
Proof. by intros st. Qed.
#[global] Instance same_trace_trans : Transitive same_trace.
Proof. unfold same_trace. intros a b c H1 H2. congruence. Qed.

#[global] Instance emits_only_refl (F : Event -> bool) : Reflexive (emits_only F).
Proof. intros st. exists []. by rewrite app_nil_r. Qed.
#[global] Instance emits_only_trans (F : Event -> bool) : Transitive (emits_only F).
Proof.
  intros a b c (e1 & H1 & F1) (e2 & H2 & F2). exists (e1 ++ e2). split.
  - by rewrite H2, H1, app_assoc.
  - by rewrite forallb_app, F1, F2.
Qed.

(** The head constant of a handler. *)
Ltac head_of t :=
  lazymatch t with
  | ?f _ => head_of f
  | _ => t
  end.

(** Walks the text of a handler; [leaf] closes the goals left at [modify]. *)
Ltac keeps_go leaf :=
  repeat
    lazymatch goal with
    | |- keeps _ (ret _) => refine (keeps_ret _ _)
    | |- keeps _ (throw _) => refine (keeps_throw _ _)
    | |- keeps _ (await _) => refine (keeps_await _ _)
    | |- keeps _ (gets _) => refine (keeps_gets _ _)
    | |- keeps _ (bind _ _) => refine (keeps_bind _ _ _ _ _); [| intros ?]
    | |- keeps _ (try_catch _ _) => refine (keeps_try_catch _ _ _ _ _); [| intros ?]
    | |- keeps _ (first_result _ _) => refine (keeps_first_result _ _ _ _); intros ?
    | |- keeps _ (modify _) => apply keeps_modify; leaf
    | |- keeps _ (match ?x with _ => _ end) => destruct x
    | |- keeps _ (let _ := _ in _) => cbv zeta
    | |- keeps _ ?m => let h := head_of m in progress unfold h
    end.

Ltac leaf_same := idtac; intros ?; hnf; cbn; auto.

Ltac leaf_emits :=
  idtac; intros ?; hnf; cbn;
  first [ by (exists []; rewrite app_nil_r)
        | by (eexists [_]; split; [reflexivity | reflexivity]) ].

Lemma downloadPDF_same_mappings (w : DownloadPDFWorld) (page : Pages) (args : Args) :
  keeps same_mappings (BrowserDownloadPDF w page args).
Proof. keeps_go leaf_same. Qed.

(** ** The MIME type of a native download *)

Lemma mimeTypeOf_table (extension : string) :
  (extension = "pdf" -> mimeTypeOf extension = "application/pdf") /\
  (extension ∈ ["doc"; "docx"] -> mimeTypeOf extension = "application/msword") /\
  (extension ∈ ["xls"; "xlsx"] -> mimeTypeOf extension = "application/vnd.ms-excel") /\
  (extension ∈ ["ppt"; "pptx"] ->
   mimeTypeOf extension = "application/vnd.ms-powerpoint") /\
  (extension ∉ ["pdf"; "doc"; "docx"; "xls"; "xlsx"; "ppt"; "pptx"] ->
   mimeTypeOf extension = "application/octet-stream").
Proof.
  repeat split.
  - by intros ->.
  - rewrite !elem_of_cons, elem_of_nil. by intros [->|[->|[]]].
  - rewrite !elem_of_cons, elem_of_nil. by intros [->|[->|[]]].
  - rewrite !elem_of_cons, elem_of_nil. by intros [->|[->|[]]].
  - rewrite !elem_of_cons, elem_of_nil. intros H. unfold mimeTypeOf.
    assert (String.eqb extension "pdf" = false) as -> by (apply String.eqb_neq; tauto).
    rewrite !bool_decide_eq_false_2; [reflexivity|..];
      rewrite !elem_of_cons, elem_of_nil; tauto.
Qed.

Lemma forceDownload_event_saved (w : ForceDownloadWorld) (args : Args) (context : nat)
    (suggestedName path bytes : string) (st : State) :
  fd_path w = Ok (Some path) -> path ≠ EmptyString -> fd_readFile w = Ok bytes ->
  let st' := (forceDownload_event w args context suggestedName st).2 in
  screenshots st' = <[arg_fileName args := bytes]> (screenshots st) /\
  fileTypeMappings st'
  = <[arg_fileName args := mimeTypeOf (extensionOf suggestedName)]> (fileTypeMappings st).
Proof.
  intros Hpath Hne Hread. unfold forceDownload_event, try_catch, bind, await.
  rewrite Hpath. unfold require_path. rewrite (truthy_nonempty _ Hne).
  cbn. rewrite Hread. cbn. done.
Qed.



(** ** Inversion of [bind] and [try_catch], rules for [returns] and [total] *)

Lemma bind_Ok_inv {A B} (m : M A) (k : A -> M B) (st st' : State) (b : B) :
  bind m k st = (Ok b, st') ->
  exists a st1, m st = (Ok a, st1) /\ k a st1 = (Ok b, st').
Proof.
  unfold bind. destruct (m st) as [[a|e] st1]; [eauto | discriminate].
Qed.

Lemma try_catch_Ok_inv {A} (m : M A) (h : string -> M A) (st st' : State) (a : A) :
  try_catch m h st = (Ok a, st') ->
  m st = (Ok a, st') \/ exists e st1, m st = (Throw e, st1) /\ h e st1 = (Ok a, st').
Proof.
  unfold try_catch. destruct (m st) as [[a0|e] st1]; [by left | right; eauto].
Qed.

Lemma bind_Ok {A B} (m : M A) (k : A -> M B) (st st1 : State) (a : A) :
  m st = (Ok a, st1) -> bind m k st = k a st1.
Proof. unfold bind. by intros ->. Qed.

Lemma bind_Throw {A B} (m : M A) (k : A -> M B) (st st1 : State) (e : string) :
  m st = (Throw e, st1) -> bind m k st = (Throw e, st1).
Proof. unfold bind. by intros ->. Qed.

Lemma try_catch_Ok {A} (m : M A) (h : string -> M A) (st st1 : State) (a : A) :
  m st = (Ok a, st1) -> try_catch m h st = (Ok a, st1).
Proof. unfold try_catch. by intros ->. Qed.

Lemma try_catch_Throw {A} (m : M A) (h : string -> M A) (st st1 : State) (e : string) :
  m st = (Throw e, st1) -> try_catch m h st = h e st1.
Proof. unfold try_catch. by intros ->. Qed.

Section returns_rules.
Context {A : Type} (P : A -> Prop).

Lemma returns_ret (a : A) : P a -> returns P (ret a).
Proof. intros H st. exact H. Qed.

Lemma returns_throw (e : string) : returns P (throw e).
Proof. by intros st. Qed.

Lemma returns_bind {B} (m : M B) (k : B -> M A) :
  (forall b, returns P (k b)) -> returns P (bind m k).
Proof.
  intros Hk st. unfold bind. destruct (m st) as [[b|e] st1]; [apply Hk | done].
Qed.

Lemma returns_try_catch (m : M A) (h : string -> M A) :
  returns P m -> (forall e, returns P (h e)) -> returns P (try_catch m h).
Proof.
  intros Hm Hh st. unfold try_catch. specialize (Hm st).
  destruct (m st) as [[a|e] st1]; [exact Hm | apply Hh].
Qed.
End returns_rules.

(** Walks the text of a handler; [leaf] closes the goals left at [ret]. *)
Ltac returns_go leaf :=
  repeat
    lazymatch goal with
    | |- returns _ (ret _) => apply returns_ret; leaf
    | |- returns _ (throw _) => apply returns_throw
    | |- returns _ (bind _ _) => apply returns_bind; intros ?
    | |- returns _ (try_catch _ _) => apply returns_try_catch; [| intros ?]
    | |- returns _ (match ?x with _ => _ end) => destruct x
    | |- returns _ (let _ := _ in _) => cbv zeta
    | |- returns _ ?m => let h := head_of m in progress unfold h
    end.

Section total_rules.
Lemma total_ret {A} (a : A) : total (ret a).
Proof. intros st. by exists a. Qed.

Lemma total_modify (f : State -> State) : total (modify f).
Proof. intros st. by exists tt. Qed.

Lemma total_bind {A B} (m : M A) (k : A -> M B) :
  total m -> (forall a, total (k a)) -> total (bind m k).
Proof.
  intros Hm Hk st. unfold bind. destruct (Hm st) as [a Ha].
  destruct (m st) as [[a0|e] st1]; [apply Hk | discriminate].
Qed.

Lemma total_try_catch {A} (m : M A) (h : string -> M A) :
  (forall e, total (h e)) -> total (try_catch m h).
Proof.
  intros Hh st. unfold try_catch.
  destruct (m st) as [[a|e] st1]; [by exists a | apply Hh].
Qed.
End total_rules.

Lemma total_at {A} (m : M A) (st : State) : total m -> exists a, (m st).1 = Ok a.
Proof. intros H. apply H. Qed.

(** A handler whose body is one [try] with a [catch] that returns. *)
Ltac total_go :=
  repeat
    lazymatch goal with
    | |- total (ret _) => apply total_ret
    | |- total (modify _) => apply total_modify
    | |- total (bind _ _) => apply total_bind; [| intros ?]
    | |- total (try_catch _ _) => apply total_try_catch; intros ?
    | |- total (match ?x with _ => _ end) => destruct x
    | |- total (let _ := _ in _) => cbv zeta
    | |- total ?m => let h := head_of m in progress unfold h
    end.

(** ** BrowserDownloadPDF stores its bytes without a MIME type *)

Lemma downloadPDF_process_early (w : DownloadPDFWorld) (args : Args) (url : string) :
  returns (fun r => match r with inl result => isError result = true | inr _ => True end)
          (downloadPDF_process w args url).
Proof. returns_go ltac:(idtac; done). Qed.

Lemma downloadPDF_store_success (w : DownloadPDFWorld) (args : Args) (url pdfBytes : string)
    (st st' : State) (r : CallToolResult) :
  downloadPDF_store w args url pdfBytes st = (Ok r, st') ->
  isError r = false ->
  pdfBytes ≠ EmptyString /\ screenshots st' !! arg_fileName args = Some pdfBytes.
Proof.
  unfold downloadPDF_store. intros H Herr.
  apply bind_Ok_inv in H as ([] & st1 & _ & H).
  destruct pdfBytes as [|c rest]; cbn in H.
  - inversion H; subst. discriminate Herr.
  - inversion H; subst. split; [done|]. cbn. by rewrite lookup_insert_eq.
Qed.

Lemma downloadPDF_success_stored (w : DownloadPDFWorld) (page : Pages) (args : Args)
    (st st' : State) (r : CallToolResult) :
  BrowserDownloadPDF w page args st = (Ok r, st') ->
  isError r = false ->
  exists pdfBytes,
    pdfBytes ≠ EmptyString /\ screenshots st' !! arg_fileName args = Some pdfBytes.
Proof.
  unfold BrowserDownloadPDF. intros H Herr. cbv zeta in H.
  apply try_catch_Ok_inv in H as [H | (e & st1 & _ & H)];
    [| inversion H; subst; discriminate Herr].
  apply bind_Ok_inv in H as ([] & st1 & _ & H).
  apply bind_Ok_inv in H as ([] & st2 & _ & H).
  unfold downloadPDF_resolve in H. destruct (pdf_newPage w) as [url|].
  2: { inversion H; subst; discriminate Herr. }
  apply bind_Ok_inv in H as ([] & st3 & _ & H).
  apply bind_Ok_inv in H as (processed & st4 & Hp & H).
  destruct processed as [result | pdfBytes].
  - inversion H; subst. exfalso.
    apply try_catch_Ok_inv in Hp as [Hp | (e & st5 & _ & Hp)].
    + pose proof (downloadPDF_process_early w args url st3) as Hq.
      rewrite Hp in Hq. cbn in Hq. congruence.
    + inversion Hp; subst. discriminate Herr.
  - exists pdfBytes. by eapply downloadPDF_store_success.
Qed.

Lemma run_pair {A} (m : M A) (st : State) (a : A) :
  (m st).1 = Ok a -> m st = (Ok a, (m st).2).
Proof. destruct (m st) as [o st']. cbn. by intros ->. Qed.



(** ** The click tools retry once, and only on a strictness error *)

Lemma strict_violation_detected (n : nat) :
  is_strict_violation (strict_mode_violation n) = true.
Proof. reflexivity. Qed.

Lemma attempts_app (st st' : State) (evs : list Event) :
  trace st' = trace st ++ evs ->
  attempts st' = attempts st + length (List.filter is_attempt evs).
Proof. unfold attempts. intros ->. by rewrite List.filter_app, length_app. Qed.

(** Every way a click tool can run: the matches and the action's outcome at
    the first attempt, the test on the message, the same at the retry. *)
Ltac click_cases page :=
  unfold BrowserClick, BrowserClickText, attempt_outcome, try_catch, bind, locator_act,
    dispatch, emit, modify, await, throw, ret, log;
  cbn -[is_strict_violation strict_mode_violation];
  destruct (matches (page 0) _) as [|[|n0]];
  cbn -[is_strict_violation strict_mode_violation];
  try destruct (act (page 0) _ _) as [[]|e0];
  cbn -[is_strict_violation strict_mode_violation];
  rewrite ?strict_violation_detected;
  try destruct (is_strict_violation _) eqn:S0;
  cbn -[is_strict_violation strict_mode_violation];
  try (destruct (matches (page 1) _) as [|[|n1]];
       cbn -[is_strict_violation strict_mode_violation];
       try destruct (act (page 1) _ _) as [[]|e1];
       cbn -[is_strict_violation strict_mode_violation]).



(** ** One attempt, and the click of the acquisition tools *)

Lemma with_events_app (st : State) (e1 e2 : list Event) :
  with_events (with_events st e1) e2 = with_events st (e1 ++ e2).
Proof. unfold with_events. cbn. by rewrite app_assoc. Qed.

Lemma with_events_nil (st : State) : with_events st [] = st.
Proof. destruct st. unfold with_events. cbn. by rewrite app_nil_r. Qed.

Lemma locator_act_run (p : PageRef) (d : Dom) (a : Action) (l : Locator) (first : bool)
    (st : State) :
  locator_act p d a l first st
  = (attempt_outcome d a l first, with_events st (attempt_events p d a l first)).
Proof.
  unfold attempt_outcome, attempt_events, locator_act, dispatch, bind, emit, modify,
    await, throw, with_events.
  cbn. destruct (matches d l) as [|[|n]]; cbn; [done | | destruct first; cbn].
  all: try (rewrite <- app_assoc; cbn); try done.
  all: by destruct (act d a l).
Qed.

Lemma first_report_target (captures : list (N * string)) (t : N) (url : string) :
  first_report captures = Some (t, url) -> JS.truthy url = true.
Proof.
  unfold first_report. intros H. apply List.find_some in H as [_ H].
  unfold isTargetUrl in H. cbn in H. by apply andb_true_iff in H as [H _].
Qed.

(** ** The hook's report ends the wait of BrowserClickAndExtractUrl *)

(** Once the button is visible, the callback exposed, the hooks installed
    and the click done, the call is the wait in the state that has the two
    observers and the click in its trace. *)
Lemma extractUrl_armed (w : ExtractUrlWorld) (page : Pages) (args : Args) (st : State) :
  xu_visible w = Ok true -> xu_expose w = Ok tt -> xu_installHooks w = Ok tt ->
  attempt_outcome (page 0) DoClick (link_button args) true = Ok tt ->
  BrowserClickAndExtractUrl w page args st
  = try_catch (extractUrl_wait w args (waitTime_or args 5000%N)) extractUrl_catch
      (with_events st ([EvArm MainPage HookCallback; EvArm MainPage NavigationHook]
                       ++ attempt_events MainPage (page 0) DoClick (link_button args) true)).
Proof.
  intros Hv He Hi Hc. unfold BrowserClickAndExtractUrl. cbv zeta.
  unfold try_catch at 1. unfold bind at 1. unfold await at 1. rewrite Hv.
  unfold bind at 1. cbn [negb ret]. unfold bind at 1. unfold await at 1. rewrite He.
  unfold bind at 1. unfold emit at 1, modify at 1. unfold bind at 1. unfold await at 1.
  rewrite Hi. unfold bind at 1. unfold emit at 1, modify at 1.
  unfold bind at 1. fold (link_button args). rewrite locator_act_run, Hc.
  unfold try_catch. unfold with_events. cbn. rewrite <- !app_assoc. reflexivity.
Qed.



(** ** The direct download writes the file under a dated name *)

Lemma click_or_first_same_files (p : PageRef) (page : Pages) (selector : string) :
  keeps same_files (click_or_first p page selector throw).
Proof. keeps_go leaf_same. Qed.

(** The state the copy ends in: the temporary file saved by the browser, the
    destination directory, the copy, and the temporary file removed when
    [unlinked] holds. *)
Lemma directDownload_save_run (w : DirectDownloadWorld) (st : State)
    (suggestedName tempPath : string) :
  dd_download w = Ok suggestedName -> dd_path w = Ok (Some tempPath) ->
  tempPath ≠ EmptyString ->
  dd_readFile w = Ok tt -> dd_mkdir w = Ok tt -> dd_writeFile w = Ok tt ->
  let dest := finalSavePath w suggestedName in
  let copied := <[dest := dd_content w]> (<[tempPath := dd_content w]> (files st)) in
  let run := directDownload_save w st in
  run.1 = Ok (success ("File successfully saved to " +:+ dest)) /\
  dirs run.2 = {[downloadsPath]} ∪ dirs st /\
  (dd_unlink w = Ok tt ->
   files run.2 = delete tempPath copied /\ hostLog run.2 = hostLog st) /\
  (forall err, dd_unlink w = Throw err ->
     files run.2 = copied /\
     hostLog run.2
     = hostLog st ++ ["Failed to delete temp file " +:+ tempPath +:+ ": " +:+ err]).
Proof.
  intros Hd Hp Hne Hr Hm Hw dest copied run. subst run.
  unfold directDownload_save, download_path, fs_readFile, fs_mkdir, fs_writeFile,
    fs_unlink, fs_put, fs_remove, fs_add_dir, log.
  unfold try_catch, bind, await, gets, modify, ret, throw.
  rewrite Hd, Hp. cbn [truthy_opt default]. rewrite (truthy_nonempty _ Hne).
  rewrite Hr. cbn [files]. rewrite lookup_insert_eq, Hm, Hw.
  fold dest. destruct (dd_unlink w) as [[]|err]; cbn [fst snd files dirs hostLog].
  - by repeat split.
  - repeat split; try done; by injection H as ->.
Qed.



(** ** Exceptions that reach the dispatch layer *)

(** Every tool but the two unguarded ones returns a result whatever the
    browser does, once the browser is there. *)
Lemma guarded_tools_total (w : World) (n : ToolName.t) (args : Args) :
  w_ensureBrowser w = Ok tt -> unguarded n = false ->
  total (handleToolCall w (ToolName.value n) args).
Proof.
  intros Hb Hn st. unfold handleToolCall. unfold bind at 1, await at 1. rewrite Hb.
  destruct n; try discriminate Hn;
    match goal with
    | |- context [ToolName.of_string ?x] =>
        let y := eval vm_compute in (ToolName.of_string x) in
        change (ToolName.of_string x) with y
    end; cbv iota; apply total_at; total_go.
Qed.

(** C2.  The claim fails on the code at BrowserNavigate, whose [case] awaits
    [page.goto] outside any [try]: when the navigation is rejected the
    rejection leaves [handleToolCall] as an exception and no result object
    is built.  The same holds for every tool when [ensureBrowser], which is
    awaited before the [switch], is rejected. *)
Theorem navigate_failure_propagates :
  handleToolCall host_unknown "browser_navigate" sample_args initial
  = (Throw "page.goto: net::ERR_NAME_NOT_RESOLVED", initial) /\
  handleToolCall no_browser "browser_click" sample_args initial
  = (Throw "browserType.launch: Executable doesn't exist", initial).
Proof. split; reflexivity. Qed.

(** ** Auxiliary contexts left open *)

Lemma click_or_first_run (p : PageRef) (page : Pages) (selector : string)
    (otherwise : string -> M unit) (st : State) :
  click_or_first p page selector otherwise st
  = let st1 := with_events st (attempt_events p (page 0) DoClick (Css selector) false) in
    match attempt_outcome (page 0) DoClick (Css selector) false with
    | Ok _ => (Ok tt, st1)
    | Throw e =>
        if is_strict_violation e then
          (attempt_outcome (page 1) DoClick (Css selector) true,
           with_events
             (with_log st1 ["Strict mode violation, retrying on first element..."])
             (attempt_events p (page 1) DoClick (Css selector) true))
        else otherwise e st1
    end.
Proof.
  unfold click_or_first, try_catch. rewrite locator_act_run. cbv zeta.
  destruct (attempt_outcome (page 0) DoClick (Css selector) false) as [[]|e]; [done|].
  destruct (is_strict_violation e); [|done].
  unfold bind, log, modify. by rewrite locator_act_run.
Qed.

(** BrowserForceDownload once its context is open, its page loaded and its
    two observers armed. *)
Lemma forceDownload_armed (w : ForceDownloadWorld) (page : Pages) (args : Args)
    (st : State) :
  fd_newContext w = Ok tt -> fd_newPage w = Ok tt -> fd_goto w = Ok tt ->
  BrowserForceDownload w page args st
  = try_catch
      (click_or_first AuxPage page (link_selector args)
         (fun error => context_close (nextContext st) ;; throw error) ;;
       forceDownload_resolve w args (nextContext st))
      forceDownload_catch
      (with_events (opened st)
         [EvArm AuxPage RequestListener; EvArm AuxPage DownloadEvent]).
Proof.
  intros Hc Hp Hg. unfold BrowserForceDownload. cbv zeta.
  unfold try_catch at 1. unfold bind at 1. unfold newContext.
  unfold bind at 1, await at 1. rewrite Hc.
  unfold bind at 1, gets at 1. unfold bind at 1, modify at 1.
  unfold bind at 1, await at 1. cbn [ret]. rewrite Hp.
  unfold bind at 1, await at 1. rewrite Hg.
  unfold bind at 1, emit at 1, modify at 1. unfold bind at 1, emit at 1, modify at 1.
  unfold try_catch, with_events, opened, link_selector. cbn. rewrite <- !app_assoc.
  reflexivity.
Qed.

(** Once the auxiliary context of BrowserForceDownload is open: when the
    click meets a strictness error and the retry on the first match throws,
    the call returns a failure and the context it opened stays open. *)
Lemma forceDownload_failed_retry_leaks (w : ForceDownloadWorld) (page : Pages)
    (args : Args) (st : State) (e e' : string) :
  fd_newContext w = Ok tt -> fd_newPage w = Ok tt -> fd_goto w = Ok tt ->
  attempt_outcome (page 0) DoClick (Css (link_selector args)) false = Throw e ->
  is_strict_violation e = true ->
  attempt_outcome (page 1) DoClick (Css (link_selector args)) true = Throw e' ->
  let run := BrowserForceDownload w page args st in
  run.1 = Ok (failure ("Failed to force download: " +:+ e')) /\
  openContexts run.2 = nextContext st :: openContexts st.
Proof.
  intros Hc Hp Hg H0 Hs H1 run. subst run.
  rewrite (forceDownload_armed w page args st Hc Hp Hg).
  unfold try_catch, bind. rewrite click_or_first_run. cbv zeta. rewrite H0, Hs, H1.
  split; reflexivity.
Qed.

(** The sibling branch: on an error that is not a strictness error the
    context is closed before the error is rethrown. *)
Lemma forceDownload_other_error_closes (w : ForceDownloadWorld) (page : Pages)
    (args : Args) (st : State) (e : string) :
  fd_newContext w = Ok tt -> fd_newPage w = Ok tt -> fd_goto w = Ok tt ->
  attempt_outcome (page 0) DoClick (Css (link_selector args)) false = Throw e ->
  is_strict_violation e = false ->
  nextContext st ∉ openContexts st ->
  let run := BrowserForceDownload w page args st in
  run.1 = Ok (failure ("Failed to force download: " +:+ e)) /\
  openContexts run.2 = openContexts st.
Proof.
  intros Hc Hp Hg H0 Hs Hfresh run. subst run.
  rewrite (forceDownload_armed w page args st Hc Hp Hg).
  unfold try_catch, bind. rewrite click_or_first_run. cbv zeta. rewrite H0, Hs.
  split; [reflexivity|]. cbn. rewrite decide_False by (intros H; by apply H).
  clear -Hfresh. induction (openContexts st) as [|c l IH]; [done|].
  cbn. rewrite decide_True.
  - f_equal. apply IH. intros H. apply Hfresh. by right.
  - intros ->. apply Hfresh. by left.
Qed.

(** C1.  The claim fails on the code in BrowserForceDownload: with two
    matching buttons at the first click and none at the retry, the retry
    throws past the [else] branch that closes the context, the outer [catch]
    returns a failure result, and the auxiliary context opened by the call
    is still open when the call returns: it was opened and never closed. *)
Theorem force_download_leaks_context :
  let run := handleToolCall retry_fails "browser_force_download" sample_args initial in
  let button := Css (buttonSelector "button, a" sample_args) in
  run.1 = Ok (failure ("Failed to force download: " +:+ "Timeout 30000ms exceeded.")) /\
  leaked run = [0] /\
  trace run.2
  = [EvOpenContext 0; EvArm AuxPage RequestListener; EvArm AuxPage DownloadEvent;
     EvAttempt AuxPage DoClick button false; EvAttempt AuxPage DoClick button true].
Proof. repeat split; vm_compute; reflexivity. Qed.

(** ** Observers are armed before the click *)

Lemma observe_all_app (required : list (PageRef * Signal)) (o : Obs) (e1 e2 : list Event) :
  observe_all required o (e1 ++ e2)
  = match observe_all required o e1 with
    | Some o' => observe_all required o' e2
    | None => None
    end.
Proof.
  revert o. induction e1 as [|e e1 IH]; intros o; cbn; [done|].
  destruct (observe required o e); [apply IH | done].
Qed.

(** A trace the observation accepts has its observers armed first. *)
Lemma observe_all_sound (required : list (PageRef * Signal)) (evs : list Event) (o o' : Obs) :
  observe_all required o evs = Some o' ->
  armed_first (clicked o) evs = true /\ armed_at_click (armed o) required evs = true.
Proof.
  revert o. induction evs as [|e evs IH]; intros o H; [done|].
  cbn in H. destruct (observe required o e) as [o1|] eqn:He; [|done].
  specialize (IH _ H). destruct e; cbn in He |- *.
  - destruct (bool_decide (p ∈ clicked o)); [done|].
    injection He as <-. cbn in IH. done.
  - destruct (forallb _ required) eqn:Hr; [|done].
    injection He as <-. cbn in IH. split; [apply IH | done].
  - by injection He as <-.
  - by injection He as <-.
  - by injection He as <-.
  - by injection He as <-.
Qed.

Lemma observers_first_tracked (required : list (PageRef * Signal)) (st st' : State)
    (b : Bound) :
  tracked required (trace st) b st' ->
  exists evs, trace st' = trace st ++ evs /\ observers_first required evs = true.
Proof.
  intros (evs & o & Ht & Ho & _). exists evs. split; [done|].
  apply observe_all_sound in Ho as [H1 H2]. unfold observers_first.
  cbn in H1, H2. by rewrite H1, H2.
Qed.

Lemma tracked_start (required : list (PageRef * Signal)) (st : State) :
  tracked required (trace st) nothing_yet st.
Proof.
  exists [], (mkObs [] []). rewrite app_nil_r. repeat split; [|done].
  intros p H. by apply elem_of_nil in H.
Qed.

Lemma within_weaker (o : Obs) (b b' : Bound) :
  weaker b b' = true -> within o b -> within o b'.
Proof.
  unfold weaker, within. intros H [Hc Ha].
  apply andb_true_iff in H as [H1 H2].
  rewrite forallb_forall in H1. rewrite forallb_forall in H2. split.
  - intros p Hp. specialize (H1 p).
    eapply bool_decide_eq_true_1, H1, list_elem_of_In, Hc, Hp.
  - intros r Hr. apply Ha. specialize (H2 r).
    eapply bool_decide_eq_true_1, H2, list_elem_of_In, Hr.
Qed.

Lemma tracked_weaker (required : list (PageRef * Signal)) (t0 : list Event) (b b' : Bound)
    (st : State) :
  weaker b b' = true -> tracked required t0 b st -> tracked required t0 b' st.
Proof.
  intros Hw (evs & o & Ht & Ho & Hb). exists evs, o. eauto using within_weaker.
Qed.

Lemma observe_all_harmless (required : list (PageRef * Signal)) (o : Obs) (evs : list Event) :
  forallb harmless evs = true -> observe_all required o evs = Some o.
Proof.
  induction evs as [|e evs IH]; intros H; [done|].
  cbn in H. apply andb_true_iff in H as [He H]. cbn.
  destruct e; try discriminate He; cbn; by apply IH.
Qed.

Lemma tracked_more (required : list (PageRef * Signal)) (t0 : list Event) (b b' : Bound)
    (st st' : State) (evs : list Event) :
  trace st' = trace st ++ evs ->
  (forall o, within o b ->
     exists o', observe_all required o evs = Some o' /\ within o' b') ->
  tracked required t0 b st -> tracked required t0 b' st'.
Proof.
  intros Ht Hstep (evs0 & o & Ht0 & Ho & Hb).
  destruct (Hstep o Hb) as (o' & Ho' & Hb').
  exists (evs0 ++ evs), o'. split; [by rewrite Ht, Ht0, app_assoc|].
  split; [|done]. by rewrite observe_all_app, Ho.
Qed.

Section safe_rules.
Context (required : list (PageRef * Signal)).

Lemma safe_weaken {A} (b b1 b' : Bound) (m : M A) :
  safe required b m b1 -> weaker b1 b' = true -> safe required b m b'.
Proof. intros H Hw t0 st Hst. eapply tracked_weaker; [exact Hw | by apply H]. Qed.

(** A handler that emits only harmless events is safe from any bound. *)
Lemma safe_harmless {A} (b : Bound) (m : M A) :
  keeps (emits_only harmless) m -> safe required b m b.
Proof.
  intros Hk t0 st Hst. destruct (Hk st) as (evs & Ht & Hh).
  eapply tracked_more; [exact Ht | | exact Hst].
  intros o Ho. exists o. split; [by apply observe_all_harmless | done].
Qed.

Lemma safe_arm (b : Bound) (p : PageRef) (s : Signal) :
  bool_decide (p ∈ bound_clicked b) = false ->
  safe required b (emit (EvArm p s)) (mkBound (bound_clicked b) ((p, s) :: bound_armed b)).
Proof.
  intros Hp t0 st Hst. apply bool_decide_eq_false_1 in Hp.
  eapply (tracked_more _ _ _ _ st _ [EvArm p s]); [reflexivity | | exact Hst].
  intros o [Hc Ha]. cbn. rewrite bool_decide_eq_false_2 by (intros H; by apply Hp, Hc).
  eexists. split; [reflexivity|]. split; cbn; [done|].
  intros r Hr. apply elem_of_cons in Hr as [-> | Hr]; [by left | right; by apply Ha].
Qed.

Lemma safe_attempt (b : Bound) (p : PageRef) (a : Action) (l : Locator) (first : bool) :
  forallb (fun r => bool_decide (r ∈ bound_armed b)) required = true ->
  safe required b (emit (EvAttempt p a l first))
       (mkBound (p :: bound_clicked b) (bound_armed b)).
Proof.
  intros Hr t0 st Hst.
  eapply (tracked_more _ _ _ _ st _ [EvAttempt p a l first]); [reflexivity | | exact Hst].
  intros o [Hc Ha]. cbn.
  assert (forallb (fun r => bool_decide (r ∈ armed o)) required = true) as ->.
  { rewrite forallb_forall in Hr. apply forallb_forall. intros r Hin.
    apply bool_decide_eq_true_2, Ha. eapply bool_decide_eq_true_1, Hr, Hin. }
  eexists. split; [reflexivity|]. split; cbn; [|done].
  intros q Hq. apply elem_of_cons in Hq as [-> | Hq]; [by left | right; by apply Hc].
Qed.

Lemma safe_bind {A B} (b b1 b' : Bound) (m : M A) (k : A -> M B) :
  safe required b m b1 -> weaker b1 b' = true ->
  (forall a, safe required b1 (k a) b') ->
  safe required b (bind m k) b'.
Proof.
  intros Hm Hw Hk t0 st Hst. unfold bind. specialize (Hm t0 st Hst).
  destruct (m st) as [[a|e] st1]; cbn in Hm.
  - by apply Hk.
  - by eapply tracked_weaker.
Qed.

Lemma safe_try_catch {A} (b b1 b' : Bound) (m : M A) (h : string -> M A) :
  safe required b m b1 -> weaker b1 b' = true ->
  (forall e, safe required b1 (h e) b') ->
  safe required b (try_catch m h) b'.
Proof.
  intros Hm Hw Hh t0 st Hst. unfold try_catch. specialize (Hm t0 st Hst).
  destruct (m st) as [[a|e] st1]; cbn in Hm.
  - by eapply tracked_weaker.
  - by apply Hh.
Qed.
End safe_rules.

(** Walks the text of a handler with the rules above.  For the first part
    of a sequence that is neither harmless nor a single [emit], the pages it
    may act on are found first ([touched_by]) and added to the bound. *)
Ltac safe_harmless_go :=
  lazymatch goal with
  | |- safe _ _ _ ?b' =>
      tryif is_evar b'
      then (refine (safe_harmless _ _ _ _); solve [keeps_go leaf_emits])
      else (refine (safe_weaken _ _ _ _ _ (safe_harmless _ _ _ _) _);
            [solve [keeps_go leaf_emits] | reflexivity])
  end.

Ltac safe_emit_go :=
  lazymatch goal with
  | |- safe _ _ (emit (EvArm _ _)) ?b' =>
      tryif is_evar b'
      then (refine (safe_arm _ _ _ _ _); reflexivity)
      else (refine (safe_weaken _ _ _ _ _ (safe_arm _ _ _ _ _) _); reflexivity)
  | |- safe _ _ (emit (EvAttempt _ _ _ _)) ?b' =>
      tryif is_evar b'
      then (refine (safe_attempt _ _ _ _ _ _ _); reflexivity)
      else (refine (safe_weaken _ _ _ _ _ (safe_attempt _ _ _ _ _ _ _) _); reflexivity)
  end.

Ltac touched_by m p c :=
  match goal with
  | _ =>
      let _ := constr:(ltac:(solve [keeps_go leaf_emits])
                       : keeps (emits_only (no_attempt_on p)) m) in
      c
  | _ => constr:(p :: c)
  end.

Ltac safe_go :=
  lazymatch goal with
  | |- safe _ _ (match ?x with _ => _ end) _ => destruct x; safe_go
  | |- safe _ _ (let _ := _ in _) _ => cbv zeta; safe_go
  | |- safe _ ?b ?m ?b' =>
      first
        [ safe_harmless_go
        | safe_emit_go
        | lazymatch m with
          | bind _ _ =>
              refine (safe_bind _ b _ b' _ _ _ _ _);
              [ safe_first | reflexivity | intros ?; safe_go ]
          | try_catch _ _ =>
              refine (safe_try_catch _ b _ b' _ _ _ _ _);
              [ safe_first | reflexivity | intros ?; safe_go ]
          | _ => let h := head_of m in progress unfold h; safe_go
          end ]
  end
with safe_first :=
  first
    [ safe_harmless_go
    | safe_emit_go
    | lazymatch goal with
      | |- safe _ ?b ?m ?b1 =>
          let c := eval cbn in (bound_clicked b) in
          let a := eval cbn in (bound_armed b) in
          let c := touched_by m NewTab c in
          let c := touched_by m AuxPage c in
          let c := touched_by m MainPage c in
          unify b1 (mkBound c a); safe_go
      end ].

Lemma clickAndCapture_safe (w : ClickAndCaptureWorld) (page : Pages) (args : Args) :
  safe (observers_of ToolName.BrowserClickAndCapture) nothing_yet
       (BrowserClickAndCapture w page args) anything.
Proof. safe_go. Qed.

Lemma downloadPDF_safe (w : DownloadPDFWorld) (page : Pages) (args : Args) :
  safe (observers_of ToolName.BrowserDownloadPDF) nothing_yet
       (BrowserDownloadPDF w page args) anything.
Proof. safe_go. Qed.

Lemma forceDownload_safe (w : ForceDownloadWorld) (page : Pages) (args : Args) :
  safe (observers_of ToolName.BrowserForceDownload) nothing_yet
       (BrowserForceDownload w page args) anything.
Proof. safe_go. Qed.

Lemma authDownload_safe (w : AuthDownloadWorld) (page : Pages) (args : Args) :
  safe (observers_of ToolName.BrowserAuthenticatedDownload) nothing_yet
       (BrowserAuthenticatedDownload w page args) anything.
Proof. safe_go. Qed.

Lemma captureRequest_safe (w : CaptureRequestWorld) (page : Pages) (args : Args) :
  safe (observers_of ToolName.BrowserCaptureRequest) nothing_yet
       (BrowserCaptureRequest w page args) anything.
Proof. safe_go. Qed.

Lemma interceptTabs_safe (w : InterceptTabsWorld) (page : Pages) (args : Args) :
  safe (observers_of ToolName.BrowserInterceptTabs) nothing_yet
       (BrowserInterceptTabs w page args) anything.
Proof. safe_go. Qed.

Lemma extractUrl_safe (w : ExtractUrlWorld) (page : Pages) (args : Args) :
  safe (observers_of ToolName.BrowserClickAndExtractUrl) nothing_yet
       (BrowserClickAndExtractUrl w page args) anything.
Proof. safe_go. Qed.

Lemma directDownload_safe (w : DirectDownloadWorld) (page : Pages) (args : Args) :
  safe (observers_of ToolName.BrowserClickAndDownloadAuthenticated) nothing_yet
       (BrowserClickAndDownloadAuthenticated w page args) anything.
Proof. safe_go. Qed.

Lemma handleToolCall_safe (w : World) (n : ToolName.t) (args : Args) :
  safe (observers_of n) nothing_yet (handleToolCall w (ToolName.value n) args) anything.
Proof.
  unfold handleToolCall.
  refine (safe_bind _ _ nothing_yet _ _ _ _ _ _);
    [safe_harmless_go | reflexivity | intros _].
  destruct n;
    match goal with
    | |- context [ToolName.of_string ?x] =>
        let y := eval vm_compute in (ToolName.of_string x) in
        change (ToolName.of_string x) with y
    end; cbv iota;
    first [ apply clickAndCapture_safe | apply downloadPDF_safe | apply forceDownload_safe
          | apply authDownload_safe | apply captureRequest_safe | apply interceptTabs_safe
          | apply extractUrl_safe | apply directDownload_safe | safe_go ].
Qed.


(** The order is a real constraint: a trace that arms the observer after the
    click is refused, and so is a click with a required observer missing. *)
Lemma observers_first_refuses :
  observers_first [(MainPage, DownloadEvent)]
    [EvAttempt MainPage DoClick (Css "a") false; EvArm MainPage DownloadEvent] = false /\
  observers_first [(MainPage, ResponseListener); (MainPage, NewPageListener)]
    [EvArm MainPage NewPageListener; EvAttempt MainPage DoClick (Css "a") false] = false.
Proof. split; reflexivity. Qed.

(** A run of BrowserAuthenticatedDownload that goes as far as the download
    page: both listeners, the click, then the download wait and the click on
    the body of the auxiliary page. *)
Lemma authDownload_sample_events :
  List.filter (fun e => is_arm e || is_attempt e)
    (trace (handleToolCall sample_world "browser_authenticated_download" sample_args
              initial).2)
  = [EvArm MainPage ResponseListener; EvArm MainPage NewPageListener;
     EvAttempt MainPage DoClick (Css (buttonSelector "button, a" sample_args)) false;
     EvArm AuxPage DownloadEvent;
     EvAttempt AuxPage DoClick (Css "body") false].
Proof. vm_compute. reflexivity. Qed.

(** ** The scan of the recorded traffic (BrowserCaptureRequest) *)

#[global] Instance log_extends_refl : Reflexive log_extends.
Proof. intros st. exists []. by rewrite app_nil_r. Qed.
#[global] Instance log_extends_trans : Transitive log_extends.
Proof.
  intros a b c (l1 & H1) (l2 & H2). exists (l1 ++ l2). by rewrite H2, H1, app_assoc.
Qed.

Ltac leaf_log :=
  idtac; intros ?; hnf; cbn;
  first [ by (exists []; rewrite app_nil_r) | by (eexists [_]) ].

Lemma captureRequest_fallbacks_log (w : CaptureRequestWorld) (args : Args)
    (beforeLinks : list string) (pdfResponses : list NetResponse) :
  keeps log_extends (captureRequest_fallbacks w args beforeLinks pdfResponses).
Proof. keeps_go leaf_log. Qed.

(** The loop returns the result of the first candidate that gives one. *)
Lemma first_result_find {A} (attempt : A -> M (option CallToolResult)) (gives : A -> bool)
    (res : A -> CallToolResult) (candidates : list A) (st : State) :
  (forall c st', (attempt c st').1 = if gives c then Ok (Some (res c)) else Ok None) ->
  (first_result attempt candidates st).1 = Ok (res <$> List.find gives candidates).
Proof.
  intros Ha. revert st. induction candidates as [|c rest IH]; intros st; [done|].
  cbn [first_result List.find]. unfold bind. specialize (Ha c st).
  destruct (attempt c st) as [o st1]. cbn in Ha. subst o.
  destruct (gives c); [done | apply IH].
Qed.

Lemma captureRequest_response_run (w : CaptureRequestWorld) (args : Args)
    (c : nat * NetResponse) (st : State) :
  let r := captureRequest_response w args c st in
  r.1 = (if response_yields w c then Ok (Some (response_result args c)) else Ok None) /\
  hostLog r.2 = hostLog st ++ response_lines w c /\
  (response_yields w c = true ->
   exists bytes, cr_fetchResponse w c.1 (resp_url c.2) = Ok (Some bytes) /\
     screenshots r.2 !! arg_fileName args = Some bytes /\
     fileTypeMappings r.2 !! arg_fileName args = Some "application/pdf").
Proof.
  unfold captureRequest_response, response_yields, response_lines, yields, log,
    screenshots_set, fileTypeMappings_set, notify_list_changed.
  unfold try_catch, bind, await, modify, ret. cbn.
  destruct (cr_fetchResponse w c.1 (resp_url c.2)) as [[bytes|]|err]; cbn.
  - destruct (JS.truthy bytes) eqn:Hb; cbn.
    + split; [done|]. split; [done|]. intros _. exists bytes.
      by rewrite !lookup_insert_eq.
    + by split; [|split].
  - by split; [|split].
  - split; [done|]. split; [|done]. by rewrite <- app_assoc.
Qed.

Lemma first_result_cases {A} (attempt : A -> M (option CallToolResult)) (gives : A -> bool)
    (candidates : list A) (st : State) :
  (forall c st',
     if gives c
     then exists r, (attempt c st').1 = Ok (Some r) /\ isError r = false
     else (attempt c st').1 = Ok None) ->
  match List.find gives candidates with
  | Some _ =>
      exists r, (first_result attempt candidates st).1 = Ok (Some r) /\ isError r = false
  | None => (first_result attempt candidates st).1 = Ok None
  end.
Proof.
  intros Ha. revert st. induction candidates as [|c rest IH]; intros st; [done|].
  cbn [first_result List.find]. unfold bind. specialize (Ha c st).
  destruct (attempt c st) as [o st1]. cbn in Ha.
  destruct (gives c).
  - destruct Ha as (r & -> & Hr). by exists r.
  - subst o. apply IH.
Qed.

Lemma captureRequest_link_run (w : CaptureRequestWorld) (args : Args) (c : nat * string)
    (st : State) :
  if link_yields w c
  then exists r, (captureRequest_link w args c st).1 = Ok (Some r) /\ isError r = false
  else (captureRequest_link w args c st).1 = Ok None.
Proof.
  unfold captureRequest_link, link_yields, yields, log, screenshots_set,
    fileTypeMappings_set, notify_list_changed.
  unfold try_catch, bind, await, modify, ret. cbn.
  destruct (cr_fetchLink w c.1 c.2) as [[bytes|]|err]; cbn; [|done..].
  destruct (JS.truthy bytes); cbn; [|done]. by eexists.
Qed.

Lemma captureRequest_xhr_run (w : CaptureRequestWorld) (args : Args) (c : nat * NetRequest)
    (st : State) :
  if xhr_yields w c
  then exists r, (captureRequest_xhr w args c st).1 = Ok (Some r) /\ isError r = false
  else (captureRequest_xhr w args c st).1 = Ok None.
Proof.
  unfold captureRequest_xhr, xhr_yields, yields, log, screenshots_set,
    fileTypeMappings_set, notify_list_changed.
  unfold try_catch, bind, await, modify, ret. cbn.
  destruct (cr_fetchXhr w c.1 (req_url c.2)) as [[bytes|]|err]; cbn; [|done..].
  destruct (JS.truthy bytes); cbn; [|done]. by eexists.
Qed.

(** The attempts on the recorded responses go down the list of candidates,
    each leaving its lines in the host log, and stop at the first candidate
    that gives bytes, which are stored as a PDF. *)
Lemma first_result_responses (w : CaptureRequestWorld) (args : Args)
    (candidates : list (nat * NetResponse)) (st : State) :
  let r := first_result (captureRequest_response w args) candidates st in
  r.1 = Ok (response_result args <$> List.find (response_yields w) candidates) /\
  hostLog r.2
  = hostLog st ++ concat (map (response_lines w) (tried (response_yields w) candidates)) /\
  (forall c, List.find (response_yields w) candidates = Some c ->
     exists bytes, cr_fetchResponse w c.1 (resp_url c.2) = Ok (Some bytes) /\
       screenshots r.2 !! arg_fileName args = Some bytes /\
       fileTypeMappings r.2 !! arg_fileName args = Some "application/pdf").
Proof.
  revert st. induction candidates as [|c rest IH]; intros st.
  - cbn. rewrite app_nil_r. by split; [|split].
  - cbn [first_result List.find tried]. unfold bind.
    destruct (captureRequest_response_run w args c st) as (H1 & H2 & H3).
    destruct (captureRequest_response w args c st) as [o st1]. cbn [fst snd] in *.
    destruct (response_yields w c) eqn:Hy.
    + subst o. cbn. rewrite app_nil_r. split; [done|]. split; [done|].
      intros c' [= <-]. by apply H3.
    + subst o. destruct (IH st1) as (I1 & I2 & I3). cbn zeta in *.
      split; [exact I1|]. split; [|exact I3].
      rewrite I2, H2. cbn [map concat]. by rewrite app_assoc.
Qed.

Lemma captureRequest_scan_run (w : CaptureRequestWorld) (args : Args)
    (beforeLinks : list string) (st : State) :
  let pdfResponses := List.filter is_pdf_response (cr_responses w) in
  let first :=
    first_result (captureRequest_response w args) (rev (indexed pdfResponses)) st in
  captureRequest_scan w args beforeLinks st
  = match first.1 with
    | Ok (Some result) => (Ok result, first.2)
    | Ok None => captureRequest_fallbacks w args beforeLinks pdfResponses first.2
    | Throw e => (Throw e, first.2)
    end.
Proof.
  cbv zeta. unfold captureRequest_scan, bind.
  by destruct (first_result _ _ st) as [[[r|]|e] st1].
Qed.

Lemma captureRequest_giveUp_url (args : Args) (pdfResponses : list NetResponse)
    (pdfLinks : list string) (potentialPdfRequests : list NetRequest) (url : string) :
  best_known_url pdfResponses pdfLinks potentialPdfRequests = Some url ->
  exists text,
    result_text (captureRequest_giveUp args pdfResponses pdfLinks potentialPdfRequests)
    = text +:+ url.
Proof.
  unfold best_known_url, captureRequest_giveUp.
  destruct (last pdfResponses) as [r|].
  - intros [= <-].
    by exists ("Found PDF URL but couldn't download automatically. "
               +:+ "Manual download URL: ").
  - destruct pdfLinks as [|link rest].
    + destruct (last potentialPdfRequests) as [q|]; [|done].
      intros [= <-].
      by exists ("Found potential download request but couldn't extract "
                 +:+ "file. URL: ").
    + intros [= <-].
      by exists ("Found PDF link but couldn't download automatically. "
                 +:+ "Manual download URL: ").
Qed.

Lemma captureRequest_giveUp_isError (args : Args) (pdfResponses : list NetResponse)
    (pdfLinks : list string) (potentialPdfRequests : list NetRequest) :
  isError (captureRequest_giveUp args pdfResponses pdfLinks potentialPdfRequests) = true.
Proof.
  unfold captureRequest_giveUp.
  by destruct (last pdfResponses), pdfLinks, (last potentialPdfRequests).
Qed.

(** Strategies 2 and 3, when the links of the page can be read. *)
Lemma captureRequest_fallbacks_result (w : CaptureRequestWorld) (args : Args)
    (beforeLinks afterLinks : list string) (pdfResponses : list NetResponse) (st : State) :
  cr_afterLinks w = Ok afterLinks ->
  let pdfLinks :=
    List.filter is_pdf_link
      (List.filter (fun link => negb (bool_decide (link ∈ beforeLinks))) afterLinks) in
  let potentialPdfRequests :=
    List.filter is_potential_request (cr_requests w ++ cr_lateRequests w) in
  exists result,
    (captureRequest_fallbacks w args beforeLinks pdfResponses st).1 = Ok result /\
    (isError result = true <->
       List.find (link_yields w) (indexed pdfLinks) = None /\
       List.find (xhr_yields w) (rev (indexed potentialPdfRequests)) = None) /\
    (isError result = true ->
     result = captureRequest_giveUp args pdfResponses pdfLinks potentialPdfRequests).
Proof.
  intros Ha. cbv zeta. unfold captureRequest_fallbacks. cbv zeta.
  unfold bind at 1, await at 1. rewrite Ha. unfold bind at 1.
  set (links := indexed _).
  pose proof (first_result_cases (captureRequest_link w args) (link_yields w) links st
                (fun c st' => captureRequest_link_run w args c st')) as HL.
  destruct (first_result (captureRequest_link w args) links st) as [oL st1].
  cbn [fst] in HL. destruct (List.find (link_yields w) links) as [c|].
  { destruct HL as (r & -> & Hr). exists r. split; [done|]. rewrite Hr.
    split; [split; [done | by intros []] | done]. }
  subst oL. unfold bind at 1. set (xhrs := rev _).
  pose proof (first_result_cases (captureRequest_xhr w args) (xhr_yields w) xhrs st1
                (fun c st' => captureRequest_xhr_run w args c st')) as HX.
  destruct (first_result (captureRequest_xhr w args) xhrs st1) as [oX st2].
  cbn [fst] in HX. destruct (List.find (xhr_yields w) xhrs) as [c|].
  { destruct HX as (r & -> & Hr). exists r. split; [done|]. rewrite Hr.
    split; [split; [done | by intros []] | done]. }
  subst oX. eexists. split; [reflexivity|].
  by rewrite captureRequest_giveUp_isError.
Qed.

Lemma is_pdf_response_spec (r : NetResponse) :
  is_pdf_response r = true <->
  200 <= resp_status r < 300 /\
  ((exists ct, content_type r = Some ct /\ JS.includes (JS.toLowerCase ct) "pdf" = true)
   \/ JS.endsWith (JS.toLowerCase (resp_url r)) ".pdf" = true
   \/ JS.includes (JS.toLowerCase (resp_url r)) ".pdf?" = true
   \/ JS.includes (JS.toLowerCase (resp_url r)) "/pdf/" = true).
Proof.
  unfold is_pdf_response, content_type_is_pdf.
  rewrite !andb_true_iff, !orb_true_iff, Nat.leb_le, Nat.ltb_lt.
  destruct (content_type r) as [ct|].
  - split.
    + intros [[H1 H2] [[[H|H]|H]|H]]; (split; [done|]); eauto.
    + intros [[H1 H2] [(ct' & [= <-] & H)|[H|[H|H]]]]; (split; [done|]); eauto.
  - split.
    + intros [[H1 H2] [[[H|H]|H]|H]]; [done|..]; (split; [done|]); eauto.
    + intros [[H1 H2] [(ct' & [=] & H)|[H|[H|H]]]]; (split; [done|]); eauto.
Qed.




(** ** Sample runs *)

(** Every acquisition tool relies on at least one observer, and no other
    tool does. *)
Lemma acquisition_variants_observed (n : ToolName.t) :
  n ∈ acquisition_variants <-> observers_of n <> [].
Proof.
  unfold acquisition_variants. rewrite !elem_of_cons, elem_of_nil.
  destruct n; cbn; split; intros H; try done; try tauto;
    repeat (destruct H as [H|H]; [discriminate H|]); done.
Qed.

(** An empty download goes through the whole of C4's path: BrowserForceDownload
    stores it and reports success, and the reader then denies the resource. *)
Lemma forceDownload_empty_file :
  let run := BrowserForceDownload empty_download (steady one_match) sample_args initial in
  (exists result, run.1 = Ok result /\ isError result = false) /\
  screenshots run.2 !! "report" = Some EmptyString /\
  fileTypeMappings run.2 !! "report" = Some "application/pdf" /\
  readResource run.2 "screenshot://report"
  = Throw "Resource not found: screenshot://report".
Proof.
  cbv zeta. split; [eexists; split; reflexivity|].
  repeat split; vm_compute; reflexivity.
Qed.

(** The direct-download fallback of BrowserDownloadPDF opens an auxiliary
    context and closes it. *)
Lemma downloadPDF_direct_closes :
  let run := BrowserDownloadPDF sample_downloadPDF_direct (steady one_match) sample_args
               initial in
  (exists result, run.1 = Ok result /\ isError result = false) /\
  List.filter (fun e => negb (is_attempt e) && negb (is_perform e)) (trace run.2)
  = [EvArm MainPage NewPageListener; EvOpenContext 0; EvArm AuxPage DownloadEvent;
     EvCloseContext 0] /\
  performed run.2 = 1 /\
  leaked run = [].
Proof.
  cbv zeta. split; [eexists; split; reflexivity|].
  repeat split; vm_compute; reflexivity.
Qed.

(** * Further properties of the server *)

(** ** What a tool call leaves alone *)

#[global] Instance same_console_refl : Reflexive same_console.
Proof. by intros st. Qed.
#[global] Instance same_console_trans : Transitive same_console.
Proof. unfold same_console. intros a b c H1 H2. congruence. Qed.

(** Reduces [handleToolCall] on the name of [n] to the [case] of [n]. *)
Ltac dispatch_to n :=
  unfold handleToolCall;
  refine (keeps_bind _ _ _ (keeps_await _ _) _); intros _;
  destruct n;
  match goal with
  | |- context [ToolName.of_string ?x] =>
      let y := eval vm_compute in (ToolName.of_string x) in
      change (ToolName.of_string x) with y
  end; cbv iota.

(** X1.  Twelve of the eighteen tools never write to the artifact store:
    whatever the browser does, a call to a tool other than BrowserScreenshot,
    BrowserDownloadPDF, BrowserForceDownload, BrowserAuthenticatedDownload,
    BrowserCaptureRequest and BrowserInterceptTabs leaves [screenshots] and
    [fileTypeMappings] as they were. *)
Theorem only_six_tools_write_store (w : World) (n : ToolName.t) (args : Args) (st : State) :
  writes_store n = false ->
  let st' := (handleToolCall w (ToolName.value n) args st).2 in
  screenshots st' = screenshots st /\ fileTypeMappings st' = fileTypeMappings st.
Proof.
  intros Hn. cbv zeta. revert st. change (keeps same_store (handleToolCall w (ToolName.value n) args)).
  dispatch_to n; try discriminate Hn; keeps_go leaf_same.
Qed.

Lemma only_six_tools_write_store_witness :
  let st' := (handleToolCall sample_world "browser_click_and_extract_url" sample_args
                initial).2 in
  screenshots st' = ∅ /\ fileTypeMappings st' = ∅.
Proof.
  apply (only_six_tools_write_store sample_world ToolName.BrowserClickAndExtractUrl
           sample_args initial).
  reflexivity.
Defined.

(** X2.  BrowserClickAndDownloadAuthenticated is the only tool that touches
    the host file system: a call to any other tool leaves every file and
    directory as it was. *)
Theorem only_direct_download_touches_files (w : World) (n : ToolName.t) (args : Args)
    (st : State) :
  n <> ToolName.BrowserClickAndDownloadAuthenticated ->
  let st' := (handleToolCall w (ToolName.value n) args st).2 in
  files st' = files st /\ dirs st' = dirs st.
Proof.
  intros Hn. cbv zeta. revert st.
  change (keeps same_files (handleToolCall w (ToolName.value n) args)).
  dispatch_to n; try (by destruct Hn); keeps_go leaf_same.
Qed.

Lemma only_direct_download_touches_files_witness :
  let st' := (handleToolCall sample_world "browser_force_download" sample_args initial).2 in
  files st' = ∅ /\ dirs st' = ∅.
Proof.
  apply (only_direct_download_touches_files sample_world ToolName.BrowserForceDownload
           sample_args initial).
  discriminate.
Defined.

Lemma handleToolCall_same_console (w : World) (name : string) (args : Args) :
  keeps same_console (handleToolCall w name args).
Proof. unfold handleToolCall. keeps_go leaf_same. Qed.


(** ** Auxiliary contexts are closed *)

#[global] Instance contexts_restored_refl : Reflexive contexts_restored.
Proof. by intros st H. Qed.
#[global] Instance contexts_restored_trans : Transitive contexts_restored.
Proof.
  intros a b c H1 H2 Ha. destruct (H1 Ha) as [Hb E1]. destruct (H2 Hb) as [Hc E2].
  split; [done | congruence].
Qed.

#[global] Instance closes_at_most_refl (id : nat) : Reflexive (closes_at_most id).
Proof. intros st. split; [done | by left]. Qed.
#[global] Instance closes_at_most_trans (id : nat) : Transitive (closes_at_most id).
Proof.
  intros a b c [N1 H1] [N2 H2]. split; [congruence|].
  destruct H1 as [H1|H1], H2 as [H2|H2]; rewrite H2, H1; auto.
  right. rewrite list_filter_filter. apply list_filter_iff. tauto.
Qed.

Lemma newContext_run (o : Outcome unit) (st : State) :
  newContext o st
  = match o with
    | Ok _ => (Ok (nextContext st), opened st)
    | Throw e => (Throw e, st)
    end.
Proof. unfold newContext, bind, await, gets, modify, ret. by destruct o. Qed.

Lemma closed_after_close (id : nat) (st : State) :
  closed id (context_close id st).2.
Proof.
  unfold closed, context_close, modify. cbn. rewrite list_elem_of_filter. tauto.
Qed.

Lemma closed_kept (id : nat) (st st' : State) :
  closes_at_most id st st' -> closed id st -> closed id st'.
Proof.
  unfold closed. intros [_ [H|H]] Hc; rewrite H; [done|].
  rewrite list_elem_of_filter. tauto.
Qed.

(** A context opened on a fresh state and closed again leaves the open
    contexts as they were. *)
Lemma opened_then_closed (st st' : State) :
  contexts_fresh st ->
  closes_at_most (nextContext st) (opened st) st' ->
  closed (nextContext st) st' ->
  contexts_fresh st' /\ openContexts st' = openContexts st.
Proof.
  unfold contexts_fresh, closed. intros Hf [Hn H] Hc.
  assert (filter (fun c => c ≠ nextContext st) (openContexts st) = openContexts st) as Hflt.
  { induction (openContexts st) as [|c l IH]; [done|].
    apply Forall_cons in Hf as [Hlt Hf]. rewrite filter_cons_True by lia.
    by rewrite (IH Hf). }
  assert (openContexts st' = openContexts st) as Ho.
  { destruct H as [H|H].
    - exfalso. apply Hc. rewrite H. cbn. by left.
    - rewrite H. cbn [opened openContexts]. by rewrite filter_cons_False by tauto. }
  split; [|done]. rewrite Ho, Hn. cbn.
  eapply Forall_impl; [exact Hf|]. cbn. lia.
Qed.

Section closing_rules.
Context (id : nat).

Lemma ends_bind {A B} (m : M A) (k : A -> M B) :
  (forall a, ends_with (closed id) (k a)) -> ends_with (closed id) (bind m k).
Proof.
  intros Hk st. unfold bind. destruct (m st) as [[a|e] st1]; [apply Hk | done].
Qed.

Lemma ends_try_catch {A} (m : M A) (h : string -> M A) :
  ends_with (closed id) m -> (forall e, ends_with (closed id) (h e)) ->
  ends_with (closed id) (try_catch m h).
Proof.
  intros Hm Hh st. unfold try_catch. specialize (Hm st).
  destruct (m st) as [[a|e] st1]; [exact Hm | apply Hh].
Qed.

Lemma ends_close {B} (k : unit -> M B) :
  (forall a, keeps (closes_at_most id) (k a)) ->
  ends_with (closed id) (bind (context_close id) k).
Proof.
  intros Hk st. unfold bind.
  pose proof (closed_after_close id st) as Hc.
  destruct (context_close id st) as [[[]|e] st1] eqn:E; [|done].
  cbn in Hc. pose proof (closed_kept id st1 _ (Hk tt st1) Hc). by destruct (k tt st1).1.
Qed.

Lemma ends_throw {A} (e : string) : ends_with (closed id) (@throw A e).
Proof. by intros st. Qed.

Lemma always_try_catch {A} (m : M A) (h : string -> M A) :
  ends_with (closed id) m -> (forall e, always_with (closed id) (h e)) ->
  always_with (closed id) (try_catch m h).
Proof.
  intros Hm Hh st. unfold try_catch. specialize (Hm st).
  destruct (m st) as [[a|e] st1]; [exact Hm | apply Hh].
Qed.

Lemma always_close {B} (k : unit -> M B) :
  (forall a, keeps (closes_at_most id) (k a)) ->
  always_with (closed id) (bind (context_close id) k).
Proof.
  intros Hk st. unfold bind. cbn.
  apply (closed_kept id (context_close id st).2); [apply Hk | apply closed_after_close].
Qed.

Lemma always_log {B} (line : string) (k : unit -> M B) :
  (forall a, always_with (closed id) (k a)) ->
  always_with (closed id) (bind (log line) k).
Proof. intros Hk st. unfold bind, log, modify. apply Hk. Qed.
End closing_rules.

Ltac leaf_contexts :=
  idtac; intros ?; first [ split; [reflexivity | left; reflexivity]
                         | split; [reflexivity | right; reflexivity] ].

Ltac leaf_restored :=
  idtac; intros ? ?; split; [assumption | reflexivity].

(** Walks a [try] block down to the [context.close()] it ends with. *)
Ltac ends_go :=
  repeat
    lazymatch goal with
    | |- ends_with _ (bind (context_close _) _) =>
        refine (ends_close _ _ _); intros ?; solve [keeps_go leaf_contexts]
    | |- ends_with _ (bind _ _) => refine (ends_bind _ _ _ _); intros ?
    | |- ends_with _ (try_catch _ _) => refine (ends_try_catch _ _ _ _ _); [| intros ?]
    | |- ends_with _ (throw _) => refine (ends_throw _ _)
    | |- ends_with _ (match ?x with _ => _ end) => destruct x
    | |- ends_with _ (let _ := _ in _) => cbv zeta
    end.

Ltac always_go :=
  repeat
    lazymatch goal with
    | |- always_with _ (try_catch _ _) =>
        refine (always_try_catch _ _ _ _ _); [ends_go | intros ?]
    | |- always_with _ (bind (context_close _) _) =>
        refine (always_close _ _ _); intros ?; solve [keeps_go leaf_contexts]
    | |- always_with _ (bind (log _) _) => refine (always_log _ _ _ _); intros ?
    end.

(** States a goal on the run of a handler from one state for every state. *)
Ltac as_keeps :=
  lazymatch goal with
  | |- ?R ?s0 (?m ?s0).2 =>
      let H := fresh in cut (keeps R m); [intros H; exact (H s0)|]
  end.

Ltac as_always :=
  lazymatch goal with
  | |- ?P (?m ?s0).2 =>
      let H := fresh in cut (always_with P m); [intros H; exact (H s0)|]
  end.

(** The direct-download fallback of BrowserDownloadPDF closes the context it
    opens. *)
Lemma downloadPDF_direct_restores (w : DownloadPDFWorld) :
  keeps contexts_restored (downloadPDF_direct w).
Proof.
  intros st Hf. unfold downloadPDF_direct.
  destruct (pdf_newContext w) as [[]|e].
  2: { by erewrite bind_Throw by (rewrite newContext_run; reflexivity). }
  erewrite bind_Ok by (rewrite newContext_run; reflexivity).
  apply opened_then_closed; [done | |].
  - as_keeps. keeps_go leaf_contexts.
  - as_always. always_go.
Qed.

Lemma bind_await_Ok {A B} (a : A) (k : A -> M B) (st : State) :
  bind (await (Ok a)) k st = k a st.
Proof. reflexivity. Qed.

Lemma always_of_total (P : State -> Prop) {A} (m : M A) :
  total m -> ends_with P m -> always_with P m.
Proof.
  intros Ht He st. specialize (He st). destruct (Ht st) as [a Ha]. by rewrite Ha in He.
Qed.

Lemma try_catch_total {A} (m : M A) (h : string -> M A) (st : State) :
  total m -> try_catch m h st = m st.
Proof.
  intros Ht. unfold try_catch. destruct (Ht st) as [a Ha].
  destruct (m st) as [[a0|e] st1]; [done | discriminate].
Qed.

Lemma try_catch_bind_Ok {A B} (m : M A) (k : A -> M B) (h : string -> M B)
    (st st1 : State) (a : A) :
  m st = (Ok a, st1) -> try_catch (bind m k) h st = try_catch (k a) h st1.
Proof. unfold try_catch, bind. by intros ->. Qed.

Lemma try_catch_bind_Throw {A B} (m : M A) (k : A -> M B) (h : string -> M B)
    (st st1 : State) (e : string) :
  m st = (Throw e, st1) -> try_catch (bind m k) h st = h e st1.
Proof. unfold try_catch, bind. by intros ->. Qed.

Lemma try_catch_await_Ok {A B} (a : A) (k : A -> M B) (h : string -> M B) (st : State) :
  try_catch (bind (await (Ok a)) k) h st = try_catch (k a) h st.
Proof. reflexivity. Qed.

(** The download page of BrowserAuthenticatedDownload: once the cookies are
    set and the page is open, the context is closed on every path. *)
Lemma authDownload_fetch_restores (w : AuthDownloadWorld) :
  ad_addCookies w = Ok tt -> ad_auxPage w = Ok tt ->
  keeps contexts_restored (authDownload_fetch w).
Proof.
  intros Hc Hp st Hf. unfold authDownload_fetch.
  destruct (ad_newContext w) as [[]|e].
  2: { by erewrite bind_Throw by (rewrite newContext_run; reflexivity). }
  erewrite bind_Ok by (rewrite newContext_run; reflexivity).
  rewrite Hc, Hp, !bind_await_Ok.
  apply opened_then_closed; [done | |].
  - as_keeps. keeps_go leaf_contexts.
  - as_always. always_go.
Qed.

(** The download page of BrowserInterceptTabs, likewise. *)
Lemma interceptTabs_download_restores (w : InterceptTabsWorld) (args : Args)
    (pdfUrl : string) :
  it_cookies w = Ok tt -> it_addCookies w = Ok tt -> it_auxPage w = Ok tt ->
  keeps contexts_restored (interceptTabs_download w args pdfUrl).
Proof.
  intros Hk Hc Hp st. unfold interceptTabs_download.
  destruct (it_newContext w) as [[]|e].
  2: { erewrite try_catch_bind_Throw by (rewrite newContext_run; reflexivity).
       cbv beta. as_keeps. keeps_go leaf_restored. }
  erewrite try_catch_bind_Ok by (rewrite newContext_run; reflexivity).
  rewrite Hk, Hc, Hp, !try_catch_await_Ok.
  match goal with
  | |- context [try_catch (try_catch ?m ?h) ?h1 (opened st)] =>
      assert (total (try_catch m h)) as Ht by total_go
  end.
  rewrite (try_catch_total _ _ _ Ht). intros Hf.
  apply opened_then_closed; [done | |].
  - as_keeps. keeps_go leaf_contexts.
  - as_always. apply always_of_total; [exact Ht | ends_go].
Qed.

(** Walks the text of a tool; the download pages are taken from the lemmas
    above. *)
Ltac keeps_restored known :=
  repeat
    first
      [ known
      | refine (downloadPDF_direct_restores _)
      | lazymatch goal with
        | |- keeps _ (ret _) => refine (keeps_ret _ _)
        | |- keeps _ (throw _) => refine (keeps_throw _ _)
        | |- keeps _ (await _) => refine (keeps_await _ _)
        | |- keeps _ (gets _) => refine (keeps_gets _ _)
        | |- keeps _ (bind _ _) => refine (keeps_bind _ _ _ _ _); [| intros ?]
        | |- keeps _ (try_catch _ _) => refine (keeps_try_catch _ _ _ _ _); [| intros ?]
        | |- keeps _ (first_result _ _) => refine (keeps_first_result _ _ _ _); intros ?
        | |- keeps _ (modify _) => apply keeps_modify; leaf_restored
        | |- keeps _ (match ?x with _ => _ end) => destruct x
        | |- keeps _ (let _ := _ in _) => cbv zeta
        | |- keeps _ ?m => let h := head_of m in progress unfold h
        end ].

(** X4.  From a state whose context identifiers are fresh, a call to any
    tool other than BrowserForceDownload, BrowserAuthenticatedDownload and
    BrowserInterceptTabs returns with exactly the auxiliary contexts that
    were open before it, whatever the browser does: the context that
    BrowserDownloadPDF opens for its direct-download fallback is closed on
    every path, and the other tools open none. *)
Theorem contexts_restored_by_most_tools (w : World) (n : ToolName.t) (args : Args)
    (st : State) :
  n <> ToolName.BrowserForceDownload -> n <> ToolName.BrowserAuthenticatedDownload ->
  n <> ToolName.BrowserInterceptTabs ->
  contexts_fresh st ->
  let st' := (handleToolCall w (ToolName.value n) args st).2 in
  openContexts st' = openContexts st /\ contexts_fresh st'.
Proof.
  intros H1 H2 H3 Hf. cbv zeta.
  cut (keeps contexts_restored (handleToolCall w (ToolName.value n) args)).
  { intros H. destruct (H st Hf). by split. }
  dispatch_to n; try (by destruct H1); try (by destruct H2); try (by destruct H3);
    keeps_restored fail.
Qed.

Lemma contexts_restored_by_most_tools_witness :
  openContexts (handleToolCall sample_world "browser_download_pdf" sample_args initial).2
  = [].
Proof.
  apply (contexts_restored_by_most_tools sample_world ToolName.BrowserDownloadPDF
           sample_args initial); try discriminate.
  constructor.
Defined.

(** X5.  BrowserAuthenticatedDownload closes the auxiliary context it opens
    on every path on which the cookies could be copied into it and its page
    could be opened: under these two conditions the call returns with the
    open contexts it found. *)
Theorem authDownload_closes_context (w : AuthDownloadWorld) (page : Pages) (args : Args)
    (st : State) :
  ad_addCookies w = Ok tt -> ad_auxPage w = Ok tt ->
  contexts_fresh st ->
  openContexts (BrowserAuthenticatedDownload w page args st).2 = openContexts st.
Proof.
  intros Hc Hp Hf.
  cut (keeps contexts_restored (BrowserAuthenticatedDownload w page args)).
  { intros H. by destruct (H st Hf). }
  keeps_restored ltac:(refine (authDownload_fetch_restores _ Hc Hp)).
Qed.

Lemma authDownload_closes_context_witness :
  openContexts (BrowserAuthenticatedDownload sample_authDownload (steady one_match)
                  sample_args initial).2 = [].
Proof.
  apply (authDownload_closes_context sample_authDownload (steady one_match) sample_args
           initial); [reflexivity | reflexivity | constructor].
Defined.

(** X6.  BrowserInterceptTabs closes the auxiliary context it opens on every
    path on which the cookies could be read and copied and the download page
    could be opened. *)
Theorem interceptTabs_closes_context (w : InterceptTabsWorld) (page : Pages) (args : Args)
    (st : State) :
  it_cookies w = Ok tt -> it_addCookies w = Ok tt -> it_auxPage w = Ok tt ->
  contexts_fresh st ->
  openContexts (BrowserInterceptTabs w page args st).2 = openContexts st.
Proof.
  intros Hk Hc Hp Hf.
  cut (keeps contexts_restored (BrowserInterceptTabs w page args)).
  { intros H. by destruct (H st Hf). }
  keeps_restored ltac:(refine (interceptTabs_download_restores _ _ _ Hk Hc Hp)).
Qed.

Lemma interceptTabs_closes_context_witness :
  openContexts (BrowserInterceptTabs sample_interceptTabs (steady one_match)
                  sample_args initial).2 = [].
Proof.
  apply (interceptTabs_closes_context sample_interceptTabs (steady one_match) sample_args
           initial); [reflexivity | reflexivity | reflexivity | constructor].
Defined.

(** ** The store is written only by calls that succeed *)

Section guarded_rules.

Lemma guarded_frame {A} (flag : A -> bool) (m : M A) :
  keeps same_store m -> store_guarded flag m.
Proof. intros H st. left. apply H. Qed.

Lemma guarded_bind {A B} (flagA : A -> bool) (flagB : B -> bool) (m : M A)
    (k : A -> M B) :
  store_guarded flagA m ->
  (forall a, flagA a = false -> store_guarded flagB (k a)) ->
  (forall a, flagA a = true -> surely flagB (k a)) ->
  store_guarded flagB (bind m k).
Proof.
  intros Hm Hk Hs st. unfold bind. specialize (Hm st).
  destruct (m st) as [[a|e] st1]; cbn in Hm.
  - destruct (flagA a) eqn:Ha.
    + right. apply (Hs a Ha).
    + destruct Hm as [Hm | (a' & [= <-] & Hf)]; [|congruence].
      destruct (Hk a Ha st1) as [H|H]; [left | by right].
      eapply same_store_trans; [exact Hm | exact H].
  - destruct Hm as [Hm | (a' & [=] & _)]. by left.
Qed.

Lemma guarded_try_catch {A} (flag : A -> bool) (m : M A) (h : string -> M A) :
  store_guarded flag m -> (forall e, store_guarded flag (h e)) ->
  store_guarded flag (try_catch m h).
Proof.
  intros Hm Hh st. unfold try_catch. specialize (Hm st).
  destruct (m st) as [[a|e] st1]; cbn in Hm; [exact Hm|].
  destruct Hm as [Hm | (a' & [=] & _)].
  destruct (Hh e st1) as [H|H]; [left | by right].
  eapply same_store_trans; [exact Hm | exact H].
Qed.

Lemma guarded_write {B} (flag : B -> bool) (f : State -> State) (k : unit -> M B) :
  (forall a, surely flag (k a)) -> store_guarded flag (bind (modify f) k).
Proof. intros Hk st. right. unfold bind, modify. apply Hk. Qed.

Lemma guarded_first_result {C} (attempt : C -> M (option CallToolResult))
    (candidates : list C) :
  (forall c, store_guarded succeeded_opt (attempt c)) ->
  store_guarded succeeded_opt (first_result attempt candidates).
Proof.
  intros Ha. induction candidates as [|c rest IH]; cbn [first_result].
  - apply guarded_frame, keeps_ret; apply _.
  - apply (guarded_bind succeeded_opt); [apply Ha | |].
    + intros [r|] Hr; [|exact IH]. apply guarded_frame, keeps_ret; apply _.
    + intros [r|] Hr; [|discriminate]. intros st. by exists (Some r).
Qed.

Lemma surely_ret {A} (flag : A -> bool) (a : A) : flag a = true -> surely flag (ret a).
Proof. intros H st. by exists a. Qed.

Lemma surely_bind_modify {B} (flag : B -> bool) (f : State -> State) (k : unit -> M B) :
  (forall a, surely flag (k a)) -> surely flag (bind (modify f) k).
Proof. intros Hk st. unfold bind, modify. apply Hk. Qed.
End guarded_rules.

(** The flag of each type of value: only the results of the call count. *)
Ltac flag_of A :=
  lazymatch A with
  | CallToolResult => constr:(succeeded)
  | option CallToolResult => constr:(succeeded_opt)
  | _ => constr:(@no_result A)
  end.

Ltac surely_go :=
  repeat
    lazymatch goal with
    | |- surely _ (ret _) => refine (surely_ret _ _ _); first [reflexivity | assumption]
    | |- surely _ (bind (modify _) _) => refine (surely_bind_modify _ _ _ _); intros ?
    | |- surely _ (bind ?m _) => let h := head_of m in progress unfold h
    | |- surely _ (let _ := _ in _) => cbv zeta
    | |- surely _ (match ?x with _ => _ end) => destruct x
    end.

Ltac guarded_go :=
  lazymatch goal with
  | |- store_guarded _ (match ?x with _ => _ end) => destruct x; guarded_go
  | |- store_guarded _ (let _ := _ in _) => cbv zeta; guarded_go
  | |- store_guarded _ ?m =>
      first
        [ refine (guarded_frame _ _ _); solve [keeps_go leaf_same]
        | lazymatch m with
          | bind (screenshots_set _ _) _ =>
              unfold screenshots_set at 1;
              refine (guarded_write _ _ _ _); intros ?; solve [surely_go]
          | @bind ?A _ _ _ =>
              let fA := flag_of A in
              refine (guarded_bind fA _ _ _ _ _ _);
              [ guarded_go
              | intros ? ?; guarded_go
              | let a := fresh "a" in
                let Ha := fresh "Ha" in
                intros a Ha; try discriminate Ha;
                destruct a; try discriminate Ha; cbn in Ha; solve [surely_go] ]
          | try_catch _ _ =>
              refine (guarded_try_catch _ _ _ _ _); [guarded_go | intros ?; guarded_go]
          | first_result _ _ =>
              refine (guarded_first_result _ _ _); intros ?; guarded_go
          | _ => let h := head_of m in progress unfold h; guarded_go
          end ]
  end.

Lemma screenshot_guarded (w : ScreenshotWorld) (args : Args) :
  store_guarded succeeded (BrowserScreenshot w args).
Proof. guarded_go. Qed.

Lemma authDownload_guarded (w : AuthDownloadWorld) (page : Pages) (args : Args) :
  store_guarded succeeded (BrowserAuthenticatedDownload w page args).
Proof. guarded_go. Qed.

Lemma captureRequest_guarded (w : CaptureRequestWorld) (page : Pages) (args : Args) :
  store_guarded succeeded (BrowserCaptureRequest w page args).
Proof. guarded_go. Qed.

Lemma interceptTabs_guarded (w : InterceptTabsWorld) (page : Pages) (args : Args) :
  store_guarded succeeded (BrowserInterceptTabs w page args).
Proof. guarded_go. Qed.



(** ** What a successful download leaves in the store *)

Section returns_in_rules.
Context {A : Type} (Q : A -> State -> Prop).

Lemma returns_in_bind {B} (m : M B) (k : B -> M A) :
  (forall b, returns_in Q (k b)) -> returns_in Q (bind m k).
Proof.
  intros Hk st. unfold bind. destruct (m st) as [[b|e] st1]; [apply Hk | done].
Qed.

Lemma returns_in_try_catch (m : M A) (h : string -> M A) :
  returns_in Q m -> (forall e, returns_in Q (h e)) -> returns_in Q (try_catch m h).
Proof.
  intros Hm Hh st. unfold try_catch. specialize (Hm st).
  destruct (m st) as [[a|e] st1]; [exact Hm | apply Hh].
Qed.

Lemma returns_in_ret (a : A) : (forall st, Q a st) -> returns_in Q (ret a).
Proof. intros H st. apply H. Qed.
End returns_in_rules.

Lemma truthy_opt_default (x : option string) :
  truthy_opt x = true -> default EmptyString x ≠ EmptyString.
Proof. by destruct x as [[|c s]|]. Qed.

Lemma authDownload_finish_holds (args : Args) (pdfBytes foundPdfUrl : option string) :
  returns_in (fun r st => isError r = false -> holds_pdf (arg_fileName args) st)
    (authDownload_finish args pdfBytes foundPdfUrl).
Proof.
  intros st. unfold authDownload_finish.
  destruct (truthy_opt pdfBytes) eqn:Hb.
  - unfold screenshots_set, fileTypeMappings_set, notify_list_changed, bind, modify, ret.
    cbn. intros _. exists (default EmptyString pdfBytes).
    split; [by apply truthy_opt_default|]. cbn. by rewrite !lookup_insert_eq.
  - by destruct (truthy_opt foundPdfUrl).
Qed.

Lemma authDownload_holds (w : AuthDownloadWorld) (page : Pages) (args : Args) :
  returns_in (fun r st => isError r = false -> holds_pdf (arg_fileName args) st)
    (BrowserAuthenticatedDownload w page args).
Proof.
  unfold BrowserAuthenticatedDownload. cbv zeta.
  apply returns_in_try_catch; [|intros e; by apply returns_in_ret].
  repeat (apply returns_in_bind; intros ?).
  unfold authDownload_resolve. cbv zeta.
  repeat (apply returns_in_bind; intros ?).
  apply authDownload_finish_holds.
Qed.

Lemma read_stored_pdf (st : State) (name bytes : string) :
  JS.includes name "://" = false -> bytes ≠ EmptyString ->
  screenshots st !! name = Some bytes ->
  fileTypeMappings st !! name = Some "application/pdf" ->
  readResource st ("screenshot://" +:+ name)
  = Ok [BlobResource ("screenshot://" +:+ name) "application/pdf" bytes].
Proof.
  intros Hn Hb Hs Hm.
  rewrite (readResource_stored st _ name bytes (screenshot_uri_prefix name)
             (screenshot_uri_name name Hn) Hs (truthy_nonempty _ Hb)).
  unfold resource_mimeType. by rewrite Hm.
Qed.

(** X8.  When BrowserAuthenticatedDownload reports success, the artifact is
    there: the store holds non-empty bytes under the requested file name
    with the MIME type application/pdf, and, for a name free of [://], the
    resource reader returns them under [screenshot://name] as
    application/pdf. *)
Theorem authDownload_success_readable (w : AuthDownloadWorld) (page : Pages) (args : Args)
    (st : State) (r : CallToolResult) :
  (BrowserAuthenticatedDownload w page args st).1 = Ok r -> isError r = false ->
  let st' := (BrowserAuthenticatedDownload w page args st).2 in
  let uri := "screenshot://" +:+ arg_fileName args in
  exists bytes, bytes ≠ EmptyString /\
    screenshots st' !! arg_fileName args = Some bytes /\
    fileTypeMappings st' !! arg_fileName args = Some "application/pdf" /\
    (JS.includes (arg_fileName args) "://" = false ->
     readResource st' uri = Ok [BlobResource uri "application/pdf" bytes]).
Proof.
  intros Hr He st' uri.
  pose proof (authDownload_holds w page args st) as H. rewrite Hr in H.
  destruct (H He) as (bytes & Hb & Hs & Hm). exists bytes.
  split; [done|]. split; [done|]. split; [done|].
  intros Hn. by apply read_stored_pdf.
Qed.

Lemma authDownload_success_readable_witness :
  readResource
    (BrowserAuthenticatedDownload sample_authDownload (steady one_match) sample_args
       initial).2 "screenshot://report"
  = Ok [BlobResource "screenshot://report" "application/pdf" "JVBERi0xLjQ="].
Proof.
  destruct (authDownload_success_readable sample_authDownload (steady one_match)
              sample_args initial _ eq_refl eq_refl) as (bytes & _ & Hs & _ & Hread).
  injection Hs as <-. exact (Hread eq_refl).
Defined.

(** ** The tools that fill, select and hover *)

Ltac locator_cases page :=
  unfold BrowserFill, BrowserSelect, BrowserSelectText, BrowserHover, BrowserHoverText,
    asks_retry, attempt_outcome, attempt_events, try_catch, bind, locator_act,
    dispatch, emit, modify, await, throw, ret, log;
  cbn -[is_strict_violation strict_mode_violation];
  destruct (matches (page 0) _) as [|[|n0]];
  cbn -[is_strict_violation strict_mode_violation];
  try destruct (act (page 0) _ _) as [[]|e0];
  cbn -[is_strict_violation strict_mode_violation];
  rewrite ?strict_violation_detected;
  try destruct (is_strict_violation _) eqn:S0;
  cbn -[is_strict_violation strict_mode_violation];
  try (destruct (matches (page 1) _) as [|[|n1]];
       cbn -[is_strict_violation strict_mode_violation];
       try destruct (act (page 1) _ _) as [[]|e1];
       cbn -[is_strict_violation strict_mode_violation]).

(** X9.  BrowserFill, BrowserSelect, BrowserSelectText, BrowserHover and
    BrowserHoverText follow the retry policy of the click tools: the call
    always returns a result; the action is attempted on the strict locator,
    and a second time, on the first match, exactly when the first attempt
    ended in a strictness error, which is then logged; the result is an
    error exactly when the last attempt made threw. *)
Theorem locator_tools_retry_once (t : LocatorTool) (page : Pages) (args : Args)
    (st : State) :
  let a := locator_action t args in
  let l := locator_target t args in
  let run := locator_tool t page args st in
  let first := attempt_outcome (page 0) a l false in
  let second := attempt_outcome (page 1) a l true in
  exists r,
    run.1 = Ok r /\
    isError r = (if asks_retry first then threw second else threw first) /\
    trace run.2
    = trace st ++ attempt_events MainPage (page 0) a l false
      ++ (if asks_retry first then attempt_events MainPage (page 1) a l true else []) /\
    hostLog run.2
    = hostLog st ++ (if asks_retry first
                     then ["Strict mode violation, retrying on first element..."]
                     else []).
Proof.
  cbv zeta.
  destruct t; cbn [locator_tool locator_action locator_target]; locator_cases page.
  all: rewrite <- ?app_assoc, ?app_nil_r; cbn.
  all: try (eexists; repeat split; reflexivity).
Qed.

(** ** The screenshot tool *)



(** ** Failures of the direct download *)

Lemma run_pair_Throw {A} (m : M A) (st : State) (e : string) :
  (m st).1 = Throw e -> m st = (Throw e, (m st).2).
Proof. destruct (m st) as [o st']. cbn. by intros ->. Qed.

Lemma try_catch_await_Throw {A B} (e : string) (k : A -> M B) (h : string -> M B)
    (st : State) :
  try_catch (bind (await (Throw e)) k) h st = h e st.
Proof. reflexivity. Qed.

Lemma emit_run (e : Event) (st : State) : emit e st = (Ok tt, with_events st [e]).
Proof. reflexivity. Qed.

(** X11.  In BrowserClickAndDownloadAuthenticated an error of the click, or
    of the wait for the download, is always turned into an error result and
    nothing is written to disk; when its message contains [Timeout], as the
    message of a click that finds no button does, the result says that no
    download started within the time limit and the message itself is
    dropped from it. *)
Theorem direct_download_click_failure (w : DirectDownloadWorld) (page : Pages)
    (args : Args) (st : State) (e : string) :
  let click :=
    (click_or_first MainPage page (download_button args) throw
       (with_events st [EvArm MainPage DownloadEvent])).1 in
  click = Throw e \/ (click = Ok tt /\ dd_download w = Throw e) ->
  let run := BrowserClickAndDownloadAuthenticated w page args st in
  run.1 = Ok (download_failure args e) /\
  files run.2 = files st /\ dirs run.2 = dirs st.
Proof.
  intros click H run. subst click run.
  unfold BrowserClickAndDownloadAuthenticated. cbv zeta. fold (download_button args).
  erewrite try_catch_bind_Ok by apply emit_run.
  set (armed := with_events st _) in *.
  destruct (click_or_first_same_files MainPage page (download_button args) armed)
    as [Hf Hd].
  set (clicked := (click_or_first _ _ _ _ armed).2) in *.
  assert (forall s, files s = files st -> dirs s = dirs st ->
    let r := (if JS.includes e "Timeout"
              then log ("Download timeout: No download event received within "
                        +:+ JS.show_N (waitTime_or args 30000%N) +:+ "ms") ;;
                   ret (failure ("Failed to download: No download started within the "
                                 +:+ "time limit after clicking " +:+ dquote
                                 +:+ arg_buttonText args +:+ dquote +:+ "."))
              else log ("Error during authenticated download: " +:+ e) ;;
                   ret (failure ("Error during download: " +:+ e))) s in
    r.1 = Ok (download_failure args e) /\ files r.2 = files st /\ dirs r.2 = dirs st)
    as Hcatch.
  { intros s H1 H2. unfold download_failure. by destruct (JS.includes e "Timeout"). }
  destruct H as [Hc | [Hc Hw]].
  - erewrite try_catch_bind_Throw by (apply run_pair_Throw, Hc).
    by apply Hcatch.
  - erewrite try_catch_bind_Ok by (apply run_pair, Hc).
    unfold directDownload_save. rewrite Hw, try_catch_await_Throw.
    by apply Hcatch.
Qed.

Lemma direct_download_click_failure_witness :
  (BrowserClickAndDownloadAuthenticated sample_directDownload (steady no_match)
     sample_args initial).1
  = Ok (failure ("Failed to download: No download started within the time limit "
                 +:+ "after clicking " +:+ dquote +:+ "Descargar" +:+ dquote +:+ ".")).
Proof.
  apply (direct_download_click_failure sample_directDownload (steady no_match)
           sample_args initial "Timeout 30000ms exceeded.").
  left. reflexivity.
Defined.



(** ** The resource handlers *)

Lemma listed_entry (st : State) (e : ResourceEntry) :
  e ∈ listResources st <->
  e = mkEntry "console://logs" "text/plain" "Browser console logs" \/
  exists name bytes,
    screenshots st !! name = Some bytes /\
    e = mkEntry ("screenshot://" +:+ name) "image/png" ("Screenshot: " +:+ name).
Proof.
  unfold listResources, screenshot_names. rewrite elem_of_cons, list_elem_of_fmap.
  split; (intros [H|H]; [by left | right]).
  - destruct H as (name & -> & Hn). apply list_elem_of_fmap in Hn as ([n b] & -> & Hnb).
    apply elem_of_map_to_list in Hnb. by exists n, b.
  - destruct H as (name & bytes & Hs & ->). exists name. split; [done|].
    apply list_elem_of_fmap. exists (name, bytes). split; [done|].
    by apply elem_of_map_to_list.
Qed.

(** X13.  ListResources and ReadResource agree on the store: the listing
    has the console log and exactly one entry per stored name, every stored
    artifact with a non-empty payload and a name free of [://] is read back
    from the URI the listing gives for it, and the listing announces every
    artifact as image/png, whatever MIME type the reader then serves. *)
Theorem listed_resources_readable (st : State) :
  length (listResources st) = S (size (screenshots st)) /\
  (forall name bytes, screenshots st !! name = Some bytes ->
     mkEntry ("screenshot://" +:+ name) "image/png" ("Screenshot: " +:+ name)
       ∈ listResources st) /\
  (forall e, e ∈ listResources st -> entry_uri e <> "console://logs" ->
     entry_mimeType e = "image/png" /\
     exists name bytes,
       entry_uri e = "screenshot://" +:+ name /\
       screenshots st !! name = Some bytes /\
       (JS.includes name "://" = false -> bytes ≠ EmptyString ->
        readResource st (entry_uri e)
        = Ok [BlobResource (entry_uri e) (resource_mimeType st name) bytes])).
Proof.
  split; [|split].
  - unfold listResources, screenshot_names. cbn.
    by rewrite !length_fmap, length_map_to_list.
  - intros name bytes Hs. apply listed_entry. right. by exists name, bytes.
  - intros e He Hc. apply listed_entry in He as [-> | (name & bytes & Hs & ->)]; [done|].
    split; [done|]. exists name, bytes. split; [done|]. split; [done|].
    intros Hn Hb. cbn [entry_uri].
    by apply readResource_stored;
      [apply screenshot_uri_prefix | apply screenshot_uri_name | | apply truthy_nonempty].
Qed.

(** X14.  For a name free of [://], ReadResource on [screenshot://name]
    returns a blob exactly when a non-empty payload is stored under the
    name; when nothing is stored under it, or an empty payload, it throws
    [Resource not found] with the URI, as it does for every URI that is
    neither [console://logs] nor begins with [screenshot://]. *)
Theorem read_resource_found_iff (st : State) (name : string) :
  JS.includes name "://" = false ->
  let uri := "screenshot://" +:+ name in
  ((exists bytes, bytes ≠ EmptyString /\ screenshots st !! name = Some bytes) ->
   exists contents, readResource st uri = Ok contents) /\
  (~ (exists bytes, bytes ≠ EmptyString /\ screenshots st !! name = Some bytes) ->
   readResource st uri = Throw ("Resource not found: " +:+ uri)) /\
  (forall other, other <> "console://logs" -> JS.startsWith other "screenshot://" = false ->
     readResource st other = Throw ("Resource not found: " +:+ other)).
Proof.
  intros Hn uri. split; [|split].
  - intros (bytes & Hb & Hs). eexists.
    by apply (readResource_stored st uri name bytes);
      [apply screenshot_uri_prefix | apply screenshot_uri_name | | apply truthy_nonempty].
  - intros Hnone. subst uri. unfold readResource.
    rewrite (screenshot_uri_not_logs _ (screenshot_uri_prefix name)).
    cbv zeta. rewrite (screenshot_uri_prefix name), (screenshot_uri_name name Hn).
    destruct (screenshots st !! name) as [[|c bytes]|] eqn:Hs; [done | | done].
    exfalso. apply Hnone. by exists (String c bytes).
  - intros other Ho Hp. unfold readResource.
    apply String.eqb_neq in Ho. by rewrite Ho, Hp.
Qed.

Lemma read_resource_found_iff_witness :
  readResource initial "screenshot://report"
  = Throw "Resource not found: screenshot://report".
Proof.
  destruct (read_resource_found_iff initial "report" eq_refl) as (_ & H & _).
  apply H. intros (bytes & _ & Hs). discriminate Hs.
Defined.

(** ** Names that contain the separator of the URI *)

Lemma startsWith_sep_app (c : ascii) (a b : string) :
  JS.startsWith (String c a) "://" = false ->
  JS.startsWith (String c (a +:+ ("://" +:+ b))) "://" = false.
Proof.
  destruct a as [|d [|f a]]; intros H; lazy -[Ascii.eqb] in *.
  - by destruct (Ascii.eqb ":" c).
  - by destruct (Ascii.eqb ":" c), (Ascii.eqb "/" d).
  - exact H.
Qed.

Lemma split_go_first_sep (a b cur : string) :
  JS.includes a "://" = false ->
  JS.split_go "://" 0 cur (a +:+ ("://" +:+ b))
  = (cur +:+ a) :: JS.split_go "://" 0 EmptyString b.
Proof.
  revert cur. induction a as [|c a IH]; intros cur H.
  - cbn. by rewrite app_empty_r.
  - cbn [JS.includes] in H. apply orb_false_iff in H as [Hp Hi].
    change (String c a +:+ ("://" +:+ b)) with (String c (a +:+ ("://" +:+ b))).
    cbn [JS.split_go]. rewrite (startsWith_sep_app c a b Hp), (IH _ Hi).
    by rewrite app_snoc_cons.
Qed.

(** X15.  A name that contains [://] cannot be read back: ReadResource
    takes the piece between the first two separators of the URI for the
    name, so that [screenshot://a://b] is looked up under [a], returning the
    artifact stored under [a] or no resource at all, whatever is stored
    under [a://b]. *)
Theorem read_resource_truncates_name (st : State) (a b : string) :
  JS.includes a "://" = false ->
  let uri := "screenshot://" +:+ (a +:+ ("://" +:+ b)) in
  readResource st uri
  = match screenshots st !! a with
    | Some bytes =>
        if JS.truthy bytes
        then Ok [BlobResource uri (resource_mimeType st a) bytes]
        else Throw ("Resource not found: " +:+ uri)
    | None => Throw ("Resource not found: " +:+ uri)
    end.
Proof.
  intros Ha uri. subst uri. unfold readResource.
  rewrite (screenshot_uri_not_logs _ (screenshot_uri_prefix _)).
  cbv zeta. rewrite (screenshot_uri_prefix _).
  change (JS.split ("screenshot://" +:+ (a +:+ ("://" +:+ b))) "://")
    with ("screenshot" :: JS.split_go "://" 0 EmptyString (a +:+ ("://" +:+ b))).
  by rewrite (split_go_first_sep a b _ Ha).
Qed.

Lemma read_resource_truncates_name_witness :
  let st := (store_artifact "x://y" "JVBERi0x" "application/pdf" initial).2 in
  screenshots st !! "x://y" = Some "JVBERi0x" /\
  readResource st "screenshot://x://y" = Throw "Resource not found: screenshot://x://y".
Proof.
  cbv zeta. split; [vm_compute; reflexivity|].
  rewrite (read_resource_truncates_name _ "x" "y" eq_refl). vm_compute. reflexivity.
Defined.

(** ** The extension of a downloaded file *)

Lemma last_split_dot (base ext cur : string) :
  JS.includes ext "." = false ->
  last (JS.split_go "." 0 cur (base +:+ ("." +:+ ext))) = Some ext.
Proof.
  intros He. revert cur. induction base as [|c base IH]; intros cur.
  - change (JS.split_go "." 0 cur (EmptyString +:+ ("." +:+ ext)))
      with (cur :: JS.split_go "." 0 EmptyString ext).
    by rewrite (split_go_no_sep "." ext EmptyString He).
  - change (String c base +:+ ("." +:+ ext)) with (String c (base +:+ ("." +:+ ext))).
    cbn [JS.split_go]. destruct (JS.startsWith _ ".").
    + cbn [String.length Nat.sub]. rewrite last_cons. by rewrite IH.
    + apply IH.
Qed.

(** X16.  The extension BrowserForceDownload derives from a suggested file
    name is what follows its last dot, in lower case, and a name without a
    dot is, in lower case, its own extension: the case of the extension is
    ignored, and a file named just [PDF] has the extension [pdf]. *)
Theorem extension_after_last_dot :
  (forall base ext, JS.includes ext "." = false ->
     extensionOf (base +:+ ("." +:+ ext)) = JS.toLowerCase ext) /\
  (forall name, JS.includes name "." = false -> extensionOf name = JS.toLowerCase name).
Proof.
  split.
  - intros base ext He. unfold extensionOf, JS.split. by rewrite (last_split_dot _ _ _ He).
  - intros name Hn. unfold extensionOf, JS.split. by rewrite (split_go_no_sep _ _ _ Hn).
Qed.

Lemma extension_after_last_dot_witness :
  mimeTypeOf (extensionOf ("informe.2024" +:+ ("." +:+ "PDF"))) = "application/pdf".
Proof.
  rewrite (proj1 extension_after_last_dot "informe.2024" "PDF" eq_refl). reflexivity.
Defined.

(** ** The advertised tools and the dispatcher *)

Lemma value_listed (n : ToolName.t) : ToolName.value n ∈ listTools.
Proof. destruct n; apply (bool_decide_unpack _); vm_compute; exact I. Qed.

Lemma of_string_listed (name : string) :
  ToolName.of_string name = None -> name ∉ listTools.
Proof.
  unfold listTools, TOOLS. cbn [map tool_name ToolName.value].
  intros Hnone Hin. rewrite !elem_of_cons, elem_of_nil in Hin.
  repeat (destruct Hin as [-> | Hin]; [discriminate Hnone|]). done.
Qed.

Lemma of_string_unlisted (name : string) :
  name ∉ listTools -> ToolName.of_string name = None.
Proof.
  intros Hn. destruct (ToolName.of_string name) as [n|] eqn:E; [|done].
  unfold ToolName.of_string in E. apply List.find_some in E as [_ E].
  apply String.eqb_eq in E. subst name. destruct Hn. apply value_listed.
Qed.

(** X17.  The tools the server advertises and the tools it handles are the
    same eighteen: ListTools gives each name once, every advertised name has
    its [case] in [handleToolCall], every required property of a schema is
    declared in it, and a call with any other name changes nothing and is
    answered with the error result [Unknown tool: name]. *)
Theorem advertised_tools_are_dispatched :
  NoDup listTools /\ length listTools = 18 /\
  (forall name, name ∈ listTools <-> exists n, ToolName.of_string name = Some n) /\
  Forall (fun t => forall r, r ∈ tool_required t -> r ∈ (tool_properties t).*1) TOOLS /\
  (forall w name args st,
     w_ensureBrowser w = Ok tt -> name ∉ listTools ->
     handleToolCall w name args st = (Ok (failure ("Unknown tool: " +:+ name)), st)).
Proof.
  split; [apply (bool_decide_unpack _); vm_compute; exact I|].
  split; [reflexivity|]. split; [|split].
  - intros name. split.
    + intros Hin. destruct (ToolName.of_string name) as [n|] eqn:E; [by exists n|].
      by destruct (of_string_listed name E).
    + intros [n Hn]. unfold ToolName.of_string in Hn.
      apply List.find_some in Hn as [_ Hn]. apply String.eqb_eq in Hn. subst name.
      apply value_listed.
  - apply Forall_forall. intros t Ht r Hr. unfold TOOLS in Ht.
    repeat (apply elem_of_cons in Ht as [-> | Ht];
            [cbn in *; rewrite ?elem_of_cons in *; tauto|]).
    by apply elem_of_nil in Ht.
  - intros w name args st Hb Hn. unfold handleToolCall. rewrite Hb, bind_await_Ok.
    by rewrite (of_string_unlisted name Hn).
Qed.

(** ** Console listeners pile up *)

Lemma ensureBrowser_started (lw : LaunchWorld) (p : Process) :
  proc_browser p = true -> proc_page p = true ->
  ensureBrowser lw p
  = (Ok tt, mkProcess (proc_state p) true true (S (proc_listeners p)) (proc_updated p)).
Proof. unfold ensureBrowser. by intros -> ->. Qed.

Lemma console_listener_iter (entry : string) (k : nat) (p : Process) :
  let q := Nat.iter k (console_listener entry) p in
  consoleLogs (proc_state q) = consoleLogs (proc_state p) ++ replicate k entry /\
  proc_updated q = k + proc_updated p /\
  proc_listeners q = proc_listeners p /\
  screenshots (proc_state q) = screenshots (proc_state p).
Proof.
  cbv zeta. induction k as [|k IH].
  - cbn. by rewrite app_nil_r.
  - destruct IH as (H1 & H2 & H3 & H4). rewrite Nat.iter_succ.
    set (q := Nat.iter k (console_listener entry) p) in *.
    unfold console_listener.
    cbn [proc_state consoleLogs proc_updated proc_listeners screenshots].
    rewrite H1, H2, H3, H4. repeat split. rewrite <- app_assoc. f_equal.
    change ([entry]) with (replicate 1 entry). rewrite <- replicate_add.
    f_equal. lia.
Qed.

Lemma callTool_started (lw : LaunchWorld) (w : World) (name : string) (args : Args)
    (p : Process) :
  proc_browser p = true -> proc_page p = true ->
  let q := (callTool lw w name args p).2 in
  proc_browser q = true /\ proc_page q = true /\
  proc_listeners q = S (proc_listeners p) /\
  proc_updated q = proc_updated p /\
  consoleLogs (proc_state q) = consoleLogs (proc_state p).
Proof.
  intros Hb Hp. unfold callTool. rewrite (ensureBrowser_started lw p Hb Hp).
  cbn. repeat split.
  apply (handleToolCall_same_console (with_ensureBrowser (Ok tt) w) name args).
Qed.



(** ** When BrowserForceDownload closes its context *)

Section reaches_rules.

Lemma reaches_bind {A B} (Pre : State -> Prop) (Mid : A -> State -> Prop)
    (Post : B -> State -> Prop) (m : M A) (k : A -> M B) :
  reaches Pre m Mid -> (forall a, reaches (Mid a) (k a) Post) ->
  reaches Pre (bind m k) Post.
Proof.
  intros Hm Hk st Hst. unfold bind. destruct (Hm st Hst) as (a & Ha & Hmid).
  destruct (m st) as [o st1]. cbn in Ha, Hmid. subst o. by apply Hk.
Qed.

Lemma reaches_ret {A} (Pre : State -> Prop) (Post : A -> State -> Prop) (a : A) :
  (forall st, Pre st -> Post a st) -> reaches Pre (ret a) Post.
Proof. intros H st Hst. exists a. split; [done | by apply H]. Qed.

Lemma reaches_total {A} (Pre : State -> Prop) (Post : A -> State -> Prop) (m : M A) :
  total m -> returns_in Post m -> reaches Pre m Post.
Proof.
  intros Ht Hr st _. destruct (Ht st) as [a Ha]. exists a. split; [done|].
  specialize (Hr st). by rewrite Ha in Hr.
Qed.
End reaches_rules.

Lemma returns_in_close_ret {A} (id : nat) (x : option A) :
  returns_in (closed_if_some id) (context_close id ;; ret x).
Proof. intros st. cbn. intros _. apply closed_after_close. Qed.

Lemma returns_in_none {A} (id : nat) : returns_in (closed_if_some id) (ret (@None A)).
Proof. intros st. cbn. intros [x Hx]. discriminate Hx. Qed.

(** Walks a block that returns a result only after closing the context. *)
Ltac closing_block :=
  repeat
    lazymatch goal with
    | |- returns_in _ (bind (context_close _) _) => refine (returns_in_close_ret _ _)
    | |- returns_in _ (ret None) => refine (returns_in_none _)
    | |- returns_in _ (bind _ _) => refine (returns_in_bind _ _ _ _); intros ?
    | |- returns_in _ (try_catch _ _) => refine (returns_in_try_catch _ _ _ _ _); [| intros ?]
    | |- returns_in _ (match ?x with _ => _ end) => destruct x
    | |- returns_in _ (let _ := _ in _) => cbv zeta
    | |- returns_in _ ?m => let h := head_of m in progress unfold h
    end.

Lemma forceDownload_event_closes (w : ForceDownloadWorld) (args : Args) (id : nat)
    (suggestedName : string) (Pre : State -> Prop) :
  reaches Pre (forceDownload_event w args id suggestedName) (closed_if_some id).
Proof. apply reaches_total; [total_go | closing_block]. Qed.

Lemma forceDownload_tab_closes (w : ForceDownloadWorld) (args : Args) (id : nat)
    (Pre : State -> Prop) :
  reaches Pre (forceDownload_tab w args id) (closed_if_some id).
Proof. apply reaches_total; [total_go | closing_block]. Qed.

Lemma forceDownload_requests_closes (w : ForceDownloadWorld) (args : Args) (id : nat)
    (Pre : State -> Prop) :
  reaches Pre (forceDownload_requests w args id) (closed_if_some id).
Proof. apply reaches_total; [total_go | closing_block]. Qed.

(** Whatever happens after the click, the resolution returns a result and
    has closed the context by then. *)
Lemma forceDownload_resolve_closes (w : ForceDownloadWorld) (args : Args) (id : nat) :
  reaches (fun _ => True) (forceDownload_resolve w args id) (fun _ st => closed id st).
Proof.
  unfold forceDownload_resolve.
  apply (reaches_bind _ (fun _ _ => True)).
  { apply reaches_total; [total_go | by intros st; destruct (_ st).1]. }
  intros download. apply (reaches_bind _ (closed_if_some id)).
  { destruct download; [apply forceDownload_event_closes|].
    apply reaches_ret. intros st _ [x Hx]. discriminate Hx. }
  intros [result|]; [apply reaches_ret; intros st H; apply H; by eexists|].
  apply (reaches_bind _ (closed_if_some id)).
  { destruct (1 <? fd_pages w); [apply forceDownload_tab_closes|].
    apply reaches_ret. intros st _ [x Hx]. discriminate Hx. }
  intros [result|]; [apply reaches_ret; intros st H; apply H; by eexists|].
  apply (reaches_bind _ (closed_if_some id)); [apply forceDownload_requests_closes|].
  intros [result|]; [apply reaches_ret; intros st H; apply H; by eexists|].
  intros st _. eexists. split; [reflexivity|]. apply closed_after_close.
Qed.

Lemma forceDownload_resolve_contexts (w : ForceDownloadWorld) (args : Args) (id : nat) :
  keeps (closes_at_most id) (forceDownload_resolve w args id).
Proof. keeps_go leaf_contexts. Qed.

(** X19.  BrowserForceDownload closes the auxiliary context it opens on
    every path but three: when the page of the new context cannot be opened,
    when it cannot be loaded, and when the click is retried after a
    strictness error and the retry fails.  On every other path, whatever the
    browser does, the call returns with the open contexts it found. *)
Theorem forceDownload_closes_context (w : ForceDownloadWorld) (page : Pages) (args : Args)
    (st : State) :
  fd_newPage w = Ok tt -> fd_goto w = Ok tt -> retry_succeeds page args ->
  contexts_fresh st ->
  openContexts (BrowserForceDownload w page args st).2 = openContexts st.
Proof.
  intros Hp Hg Hretry Hf.
  destruct (fd_newContext w) as [[]|e] eqn:Hc.
  2: { unfold BrowserForceDownload. cbv zeta.
       erewrite try_catch_bind_Throw by (rewrite newContext_run, Hc; reflexivity).
       reflexivity. }
  rewrite (forceDownload_armed w page args st Hc Hp Hg).
  set (armed := with_events (opened st) _).
  set (id := nextContext st).
  assert (closes_at_most id (opened st) armed) as Harmed by (split; [done | by left]).
  assert (forall s, closes_at_most id (opened st) s ->
            let r := try_catch (forceDownload_resolve w args id) forceDownload_catch s in
            openContexts r.2 = openContexts st) as Hresolve.
  { intros s Hs. cbv zeta.
    destruct (forceDownload_resolve_closes w args id s I) as (r & Hr & Hclosed).
    pose proof (forceDownload_resolve_contexts w args id s) as Hq.
    unfold try_catch. destruct (forceDownload_resolve w args id s) as [o s1].
    cbn in Hr, Hclosed, Hq. subst o. cbn.
    apply (opened_then_closed st s1 Hf); [|done].
    eapply closes_at_most_trans; [exact Hs | exact Hq]. }
  unfold try_catch at 1, bind at 1. rewrite click_or_first_run. cbv zeta.
  destruct (attempt_outcome (page 0) DoClick (Css (link_selector args)) false)
    as [[]|e] eqn:H0.
  - apply (Hresolve (with_events armed _)).
    eapply closes_at_most_trans; [exact Harmed | by split; [|left]].
  - destruct (is_strict_violation e) eqn:Hs.
    + rewrite (Hretry e H0 Hs).
      apply (Hresolve (with_events (with_log (with_events armed _) _) _)).
      eapply closes_at_most_trans; [exact Harmed | by split; [|left]].
    + unfold forceDownload_catch, bind, throw, ret.
      set (clicked := with_events armed _).
      change (openContexts (context_close id clicked).2 = openContexts st).
      refine (proj2 (opened_then_closed st _ Hf _ (closed_after_close id clicked))).
      split; [done|]. by right.
Qed.

Lemma forceDownload_closes_context_witness :
  openContexts (BrowserForceDownload sample_forceDownload (steady two_matches)
                  sample_args initial).2 = [].
Proof.
  apply (forceDownload_closes_context sample_forceDownload (steady two_matches)
           sample_args initial); [reflexivity | reflexivity | | constructor].
  intros e _ _. reflexivity.
Defined.

(** ** Every change of the store is announced *)

#[global] Instance counts_up_refl : Reflexive counts_up.
Proof. intros st. unfold counts_up. lia. Qed.
#[global] Instance counts_up_trans : Transitive counts_up.
Proof. unfold counts_up. intros a b c. lia. Qed.

#[global] Instance announced_refl : Reflexive announced.
Proof. intros st. split; [lia | by left]. Qed.
#[global] Instance announced_trans : Transitive announced.
Proof.
  intros a b c [L1 H1] [L2 H2]. split; [lia|].
  destruct H1 as [H1|H1], H2 as [H2|H2]; [left; congruence | right; lia..].
Qed.

Lemma keeps_set_notify {B} (name bytes : string) (m : M B) :
  keeps counts_up m ->
  keeps announced (screenshots_set name bytes ;; notify_list_changed ;; m).
Proof.
  intros Hk st.
  change ((screenshots_set name bytes ;; notify_list_changed ;; m) st)
    with (m (notify_list_changed (screenshots_set name bytes st).2).2).
  set (s1 := (notify_list_changed _).2).
  pose proof (Hk s1) as H. unfold counts_up in H.
  assert (notifications s1 = S (notifications st)) as E by reflexivity.
  split; [lia | right; lia].
Qed.

Lemma keeps_set_notify_last (name bytes : string) :
  keeps announced (screenshots_set name bytes ;; notify_list_changed).
Proof. intros st. split; cbn; [lia | right; lia]. Qed.

Lemma keeps_set_map_notify {B} (name bytes name' mimeType : string) (m : M B) :
  keeps counts_up m ->
  keeps announced (screenshots_set name bytes ;; fileTypeMappings_set name' mimeType ;;
                   notify_list_changed ;; m).
Proof.
  intros Hk st.
  change ((screenshots_set name bytes ;; fileTypeMappings_set name' mimeType ;;
           notify_list_changed ;; m) st)
    with (m (notify_list_changed
               (fileTypeMappings_set name' mimeType
                  (screenshots_set name bytes st).2).2).2).
  set (s1 := (notify_list_changed _).2).
  pose proof (Hk s1) as H. unfold counts_up in H.
  assert (notifications s1 = S (notifications st)) as E by reflexivity.
  split; [lia | right; lia].
Qed.

Ltac leaf_counts := idtac; intros ?; unfold counts_up; cbn; lia.

Ltac leaf_announced := idtac; intros ?; split; cbn; [lia | left; reflexivity].

Ltac announced_go :=
  repeat
    first
      [ refine (keeps_set_map_notify _ _ _ _ _ _); solve [keeps_go leaf_counts]
      | refine (keeps_set_notify _ _ _ _); solve [keeps_go leaf_counts]
      | refine (keeps_set_notify_last _ _)
      | lazymatch goal with
        | |- keeps _ (ret _) => refine (keeps_ret _ _)
        | |- keeps _ (throw _) => refine (keeps_throw _ _)
        | |- keeps _ (await _) => refine (keeps_await _ _)
        | |- keeps _ (gets _) => refine (keeps_gets _ _)
        | |- keeps _ (bind (screenshots_set _ _) _) => fail
        | |- keeps _ (bind _ _) => refine (keeps_bind _ _ _ _ _); [| intros ?]
        | |- keeps _ (try_catch _ _) => refine (keeps_try_catch _ _ _ _ _); [| intros ?]
        | |- keeps _ (first_result _ _) => refine (keeps_first_result _ _ _ _); intros ?
        | |- keeps _ (modify _) => apply keeps_modify; leaf_announced
        | |- keeps _ (match ?x with _ => _ end) => destruct x
        | |- keeps _ (let _ := _ in _) => cbv zeta
        | |- keeps _ ?m => let h := head_of m in progress unfold h
        end ].

(** X20.  Whatever tool is called and whatever the browser does, a call that
    changes [screenshots] has sent at least one list_changed notification by
    the time it returns, and the count of notifications never goes down. *)
Theorem store_changes_are_announced (w : World) (name : string) (args : Args)
    (st : State) :
  let st' := (handleToolCall w name args st).2 in
  notifications st <= notifications st' /\
  (screenshots st' <> screenshots st -> notifications st < notifications st').
Proof.
  cbv zeta.
  cut (keeps announced (handleToolCall w name args)).
  { intros H. destruct (H st) as [Hle [Hs|Hlt]]; split; try done. }
  unfold handleToolCall. announced_go.
Qed.

(** ** BrowserDownloadPDF on a tab that is no PDF *)

Lemma click_or_first_same_store (p : PageRef) (page : Pages) (selector : string)
    (st : State) :
  let st' := (click_or_first p page selector throw st).2 in
  screenshots st' = screenshots st /\ fileTypeMappings st' = fileTypeMappings st /\
  notifications st' = notifications st.
Proof.
  cbv zeta. rewrite click_or_first_run. cbv zeta.
  destruct (attempt_outcome (page 0) DoClick (Css selector) false) as [[]|e]; [done|].
  by destruct (is_strict_violation e).
Qed.

(** X21.  When the click of BrowserDownloadPDF opens a tab that stays open
    and is no PDF (its URL does not end in [.pdf] and the check of its
    content does not say PDF), the call returns an error result that names
    the URL and the content type, and it has stored a screenshot of the tab
    under the requested file name followed by [_not_pdf], sent one
    list_changed notification and recorded no MIME type: this error result
    comes with a write to the store. *)
Theorem downloadPDF_stores_diagnostic (w : DownloadPDFWorld) (page : Pages) (args : Args)
    (st : State) (url shot : string) :
  (click_or_first MainPage page (link_selector args) throw
     (with_events st [EvArm MainPage NewPageListener])).1 = Ok tt ->
  pdf_newPage w = Some url ->
  JS.endsWith (JS.toLowerCase url) ".pdf" = false ->
  pdf_isClosed w 0 = false -> pdf_isClosed w 1 = false -> pdf_isClosed w 2 = false ->
  pdf_isPDF w <> Ok true ->
  pdf_screenshot w = Ok shot ->
  let run := BrowserDownloadPDF w page args st in
  run.1 = Ok (failure ("The new tab did not contain a PDF. URL: " +:+ url
                       +:+ ", Content-Type: " +:+ reported_contentType w)) /\
  screenshots run.2 = <[arg_fileName args +:+ "_not_pdf" := shot]> (screenshots st) /\
  fileTypeMappings run.2 = fileTypeMappings st /\
  notifications run.2 = S (notifications st).
Proof.
  intros Hc Hn Hu H0 H1 H2 Hpdf Hs run. subst run.
  unfold BrowserDownloadPDF. cbv zeta. fold (link_selector args).
  erewrite try_catch_bind_Ok by apply emit_run.
  set (armed := with_events st _) in *.
  destruct (click_or_first_same_store MainPage page (link_selector args) armed)
    as (Hs1 & Hm1 & Hn1).
  erewrite try_catch_bind_Ok by (apply run_pair, Hc).
  set (clicked := (click_or_first _ _ _ _ armed).2) in *.
  change (screenshots armed) with (screenshots st) in Hs1.
  change (fileTypeMappings armed) with (fileTypeMappings st) in Hm1.
  change (notifications armed) with (notifications st) in Hn1.
  unfold downloadPDF_resolve, downloadPDF_process, reported_contentType.
  rewrite Hn. cbv zeta. rewrite Hu, H0, H1, H2, Hs.
  unfold screenshots_set, notify_list_changed, log.
  unfold try_catch, bind, await, modify, ret.
  destruct (pdf_domLoaded w) as [[]|e1], (pdf_networkIdle w) as [[]|e2],
    (pdf_isPDF w) as [[|]|e3], (pdf_contentType w) as [ct|e4];
    try (by destruct Hpdf); cbn; by rewrite Hs1, Hm1, Hn1.
Qed.

Lemma downloadPDF_stores_diagnostic_witness :
  let run := BrowserDownloadPDF html_tab (steady one_match) sample_args initial in
  (exists r, run.1 = Ok r /\ isError r = true) /\
  screenshots run.2 = {["report_not_pdf" := "iVBORw0KGgo="]}.
Proof.
  destruct (downloadPDF_stores_diagnostic html_tab (steady one_match) sample_args initial
              "https://portal.example/login" "iVBORw0KGgo="
              eq_refl eq_refl eq_refl eq_refl eq_refl eq_refl ltac:(discriminate) eq_refl)
    as (Hr & Hs & _).
  split; [eexists; split; [exact Hr | reflexivity] | exact Hs].
Defined.

(** ** The install command *)

Lemma member_assign (key : string) (v : Json) (ms : list (string * Json)) :
  member key (assign key v ms) = Some v.
Proof.
  induction ms as [|[k v'] ms IH]; cbn.
  - by rewrite String.eqb_refl.
  - destruct (String.eqb k key) eqn:E; cbn; by rewrite E.
Qed.

Lemma member_assign_ne (key key' : string) (v : Json) (ms : list (string * Json)) :
  key' <> key -> member key' (assign key v ms) = member key' ms.
Proof.
  intros Hne. induction ms as [|[k v'] ms IH]; cbn.
  - by rewrite (proj2 (String.eqb_neq key key')).
  - destruct (String.eqb k key) eqn:E; cbn.
    + apply String.eqb_eq in E. subst k.
      by rewrite (proj2 (String.eqb_neq key key')).
    + by rewrite IH.
Qed.

Lemma assign_assign (key : string) (v v' : Json) (ms : list (string * Json)) :
  assign key v (assign key v' ms) = assign key v ms.
Proof.
  induction ms as [|[k x] ms IH]; cbn.
  - by rewrite String.eqb_refl.
  - destruct (String.eqb k key) eqn:E; cbn; rewrite E; [done | by rewrite IH].
Qed.

Lemma addPlaywright_object (ms servers : list (string * Json)) :
  servers_of ms = Some servers ->
  addPlaywright (JObject ms)
  = Ok (JObject (assign "mcpServers"
                   (JObject (assign "playwright" playwright_entry servers)) ms)).
Proof.
  unfold servers_of, addPlaywright, js_get.
  destruct (member "mcpServers" ms) as [v|] eqn:Hm.
  - destruct v as [|b|n|s|items|ss]; cbn -[assign playwright_entry].
    + intros [= <-]. by rewrite assign_assign.
    + destruct b; [done|]. cbn -[assign playwright_entry].
      intros [= <-]. by rewrite assign_assign.
    + destruct (Z.eqb n 0); [|done]. cbn -[assign playwright_entry].
      intros [= <-]. by rewrite assign_assign.
    + destruct s; [|done]. cbn -[assign playwright_entry].
      intros [= <-]. by rewrite assign_assign.
    + done.
    + by intros [= <-].
  - intros [= <-]. cbn -[assign playwright_entry]. by rewrite assign_assign.
Qed.

(** X22.  On Windows and macOS, when the configuration file holds a JSON
    object whose [mcpServers] member is an object, or is absent or falsy,
    and the file can be written, the install command exits with status 0
    and rewrites that one file: its [mcpServers] now has the member
    [playwright] with the command [npx -y @automatalabs/mcp-server-playwright],
    every other server and every other member of the configuration are as
    they were, and no other file is touched. *)
Theorem install_adds_playwright (w : InstallWorld) (files : gmap Path FileContent)
    (path : Path) (ms servers : list (string * Json)) :
  configFilePath w = Some path -> in_readError w = None ->
  files !! path = Some (Parsable (JObject ms)) ->
  servers_of ms = Some servers ->
  in_write w 0 = Ok tt ->
  let after := checkPlatformAndInstall w files in
  exit_status after = 0 /\
  (forall other, other <> path -> disk after !! other = files !! other) /\
  exists ms' servers',
    disk after !! path = Some (Parsable (JObject ms')) /\
    member "mcpServers" ms' = Some (JObject servers') /\
    member "playwright" servers' = Some playwright_entry /\
    (forall name, name <> "playwright" -> member name servers' = member name servers) /\
    (forall key, key <> "mcpServers" -> member key ms' = member key ms).
Proof.
  intros Hp Hr Hf Hs Hw. cbv zeta.
  unfold checkPlatformAndInstall, readConfig, writeConfig.
  rewrite Hp, Hr, Hf, (addPlaywright_object ms servers Hs), Hw.
  cbn [exit_status disk]. split; [done|]. split.
  - intros other Ho. by rewrite lookup_insert_ne.
  - eexists _, _. rewrite lookup_insert_eq. split; [reflexivity|].
    split; [apply member_assign|]. split; [apply member_assign|].
    split; intros k Hk; by apply member_assign_ne.
Qed.

Lemma install_adds_playwright_witness :
  let after := checkPlatformAndInstall mac mac_files in
  exit_status after = 0 /\
  disk after !! mac_config
  = Some (Parsable (JObject
      [("theme", JString "dark");
       ("mcpServers",
        JObject [("files", JObject [("command", JString "mcp-files")]);
                 ("playwright", playwright_entry)])])).
Proof.
  destruct (install_adds_playwright mac mac_files
              mac_config other_server
              [("files", JObject [("command", JString "mcp-files")])]
              eq_refl eq_refl ltac:(vm_compute; reflexivity) eq_refl eq_refl)
    as (He & _ & _).
  split; [exact He | vm_compute; reflexivity].
Defined.

(** X23.  Under the same conditions the install command is idempotent:
    run again on the files it left, it exits with status 0 and leaves them
    exactly as they are. *)
Theorem install_idempotent (w : InstallWorld) (files : gmap Path FileContent)
    (path : Path) (ms servers : list (string * Json)) :
  configFilePath w = Some path -> in_readError w = None ->
  files !! path = Some (Parsable (JObject ms)) ->
  servers_of ms = Some servers ->
  in_write w 0 = Ok tt ->
  let once := checkPlatformAndInstall w files in
  checkPlatformAndInstall w (disk once) = once.
Proof.
  intros Hp Hr Hf Hs Hw. cbv zeta.
  assert (checkPlatformAndInstall w files
          = mkInstalled 0
              (<[path := Parsable (JObject (assign "mcpServers"
                   (JObject (assign "playwright" playwright_entry servers)) ms))]> files))
    as ->.
  { unfold checkPlatformAndInstall, readConfig, writeConfig.
    by rewrite Hp, Hr, Hf, (addPlaywright_object ms servers Hs), Hw. }
  cbn [disk].
  set (servers' := assign "playwright" playwright_entry servers).
  set (ms' := assign "mcpServers" (JObject servers') ms).
  assert (servers_of ms' = Some servers') as Hs'.
  { unfold servers_of, ms'. by rewrite member_assign. }
  unfold checkPlatformAndInstall, readConfig, writeConfig.
  rewrite Hp, Hr, lookup_insert_eq, (addPlaywright_object ms' servers' Hs'), Hw.
  unfold servers', ms'. rewrite !assign_assign. by rewrite insert_insert_eq.
Qed.

Lemma install_idempotent_witness :
  checkPlatformAndInstall mac (disk (checkPlatformAndInstall mac mac_files))
  = checkPlatformAndInstall mac mac_files.
Proof.
  apply (install_idempotent mac mac_files
           mac_config other_server
           [("files", JObject [("command", JString "mcp-files")])]);
    vm_compute; reflexivity.
Defined.

(** X24.  The install command never overwrites what it cannot use: on a
    platform other than Windows and macOS, when the configuration file
    cannot be read, when its text is no JSON, and when it holds [null], a
    primitive, or an object whose [mcpServers] is a truthy primitive, the
    command exits with status 1 and every file is as it was. *)
Theorem install_leaves_unusable_config (w : InstallWorld) (files : gmap Path FileContent) :
  configFilePath w = None \/
  in_readError w <> None \/
  (exists path, configFilePath w = Some path /\
     (files !! path = Some Garbage \/
      exists config, files !! path = Some (Parsable config) /\ unusable config = true)) ->
  checkPlatformAndInstall w files = mkInstalled 1 files.
Proof.
  intros H. unfold checkPlatformAndInstall.
  destruct H as [-> | [Hr | (path & -> & H)]]; [done | |].
  - destruct (configFilePath w) as [path|]; [|done].
    unfold readConfig. by destruct (in_readError w).
  - unfold readConfig. destruct (in_readError w); [done|].
    destruct H as [-> | (config & -> & Hu)]; [done|].
    destruct config as [|b|n|s|items|ms]; try done.
    unfold unusable in Hu. unfold addPlaywright, js_get.
    destruct (member "mcpServers" ms) as [[|b|n|s|items|ss]|]; try done.
    + by destruct b.
    + cbn. by destruct (Z.eqb n 0).
    + by destruct s.
Qed.

Lemma install_leaves_unusable_config_witness :
  checkPlatformAndInstall (mkInstallWorld "linux" "/home/ana" None (fun _ => Ok tt)) ∅
  = mkInstalled 1 ∅.
Proof.
  apply (install_leaves_unusable_config
           (mkInstallWorld "linux" "/home/ana" None (fun _ => Ok tt)) ∅).
  left. reflexivity.
Defined.


